(** * streamlit-pydantic: schema predicates, the path-keyed state store and
      the field dispatcher of [InputUI]

    A shallow embedding of [streamlit_pydantic/schema_utils.py] and of the
    parts of [streamlit_pydantic/ui_renderer.py] that classify schema nodes,
    read and write the dotted-key session store, and pick a rendering path.

    Python values are embedded as a small JSON-like universe, dictionaries as
    insertion-ordered association lists (iteration order is observable in the
    source: [enumerate], [for k in properties], [keys()]), exceptions as an
    explicit error type, and in-place mutation as explicit state passing: a
    function that mutates its argument returns the mutated argument. Values
    are trees: an object stored in two places of a schema or of the store is
    two values here. *)

From Stdlib Require Import List String Ascii ZArith Bool Lia.
From Stdlib Require Import DecimalString.
Import ListNotations.
Local Open Scope string_scope.
Local Open Scope Z_scope.

(* ================================================================= *)
(** ** Python values and exceptions *)

(** The values a JSON schema, a model dump or the session store can hold.
    Floats are left out: no function embedded below computes with them. *)
#[warnings="-register-all"]
Inductive pyval : Type :=
| PNone
| PBool (b : bool)
| PInt (z : Z)
| PStr (s : string)
| PList (l : list pyval)
| PDict (d : list (string * pyval)).

(** A Python [dict] with string keys, in insertion order. *)
Definition dict := list (string * pyval).

(** The exception classes the embedded code can raise. [Unmodelled] marks an
    input outside the embedded fragment (floats, string escapes in JSON
    text); it is never used to make a theorem true. *)
Inductive exn : Type :=
| KeyError
| TypeError
| IndexError
| ValueError
| AttributeError
| StopIteration
| JSONDecodeError
| Unmodelled.

Inductive result (A : Type) : Type :=
| Ok (a : A)
| Raise (e : exn).
Arguments Ok {A} a.
Arguments Raise {A} e.

Definition bind {A B : Type} (m : result A) (f : A -> result B) : result B :=
  match m with
  | Ok a => f a
  | Raise e => Raise e
  end.

Notation "x <- m ;; k" := (bind m (fun x => k))
  (at level 61, m at next level, right associativity).

(** [try: body / except Exception: handler]. *)
Definition try_except {A : Type} (body : result A) (handler : result A) : result A :=
  match body with
  | Ok a => Ok a
  | Raise _ => handler
  end.

Definition is_ok {A : Type} (m : result A) : bool :=
  match m with Ok _ => true | Raise _ => false end.

(* ================================================================= *)
(** ** Strings *)

(** [s.split(sep)] for a one-character separator: never the empty list. *)
Fixpoint split_on (sep : ascii) (s : string) : list string :=
  match s with
  | EmptyString => [EmptyString]
  | String c r =>
      if Ascii.eqb c sep then EmptyString :: split_on sep r
      else match split_on sep r with
           | h :: t => String c h :: t
           | [] => [String c EmptyString]
           end
  end.

(** [sub in s] on strings. *)
Fixpoint is_substring (sub s : string) : bool :=
  if String.prefix sub s then true
  else match s with
       | EmptyString => false
       | String _ r => is_substring sub r
       end.

(** [s.replace(old, "")] for a non-empty [old]: every non-overlapping
    occurrence, scanning from the left. The recursion drops one character of
    [s] at a time; [skip] counts the characters of a match still to drop. *)
Fixpoint remove_all_from (old s : string) (skip : nat) : string :=
  match s with
  | EmptyString => EmptyString
  | String c r =>
      match skip with
      | S n => remove_all_from old r n
      | O => if String.prefix old s
             then remove_all_from old r (String.length old - 1)
             else String c (remove_all_from old r O)
      end
  end.

Definition str_remove_all (old s : string) : string := remove_all_from old s O.

(** [sep.join(parts)]. *)
Fixpoint str_join (sep : string) (parts : list string) : string :=
  match parts with
  | [] => EmptyString
  | [p] => p
  | p :: rest => p ++ sep ++ str_join sep rest
  end.

(** [str(n)] for an [int]. *)
Definition str_of_int (z : Z) : string := NilZero.string_of_int (Z.to_int z).

(* ================================================================= *)
(** ** Dictionaries *)

Fixpoint dict_lookup (k : string) (d : dict) : option pyval :=
  match d with
  | [] => None
  | (k', v) :: r => if String.eqb k k' then Some v else dict_lookup k r
  end.

(** [k in d]. *)
Definition dict_mem (k : string) (d : dict) : bool :=
  match dict_lookup k d with Some _ => true | None => false end.

(** [d[k] = v]: overwrite in place, or append a new key at the end. *)
Fixpoint dict_set (k : string) (v : pyval) (d : dict) : dict :=
  match d with
  | [] => [(k, v)]
  | (k', v') :: r =>
      if String.eqb k k' then (k', v) :: r else (k', v') :: dict_set k v r
  end.

(** [d.pop(k)] used as a statement. *)
Fixpoint dict_remove (k : string) (d : dict) : dict :=
  match d with
  | [] => []
  | (k', v') :: r =>
      if String.eqb k k' then r else (k', v') :: dict_remove k r
  end.

(** [d.get(k)]: [None] when the key is missing. *)
Definition dict_get (k : string) (d : dict) : pyval :=
  match dict_lookup k d with Some v => v | None => PNone end.

(** [d.get(k, default)]. *)
Definition dict_get_default (k : string) (default : pyval) (d : dict) : pyval :=
  match dict_lookup k d with Some v => v | None => default end.

(** [d[k]] on a [dict]. *)
Definition dict_item (k : string) (d : dict) : result pyval :=
  match dict_lookup k d with Some v => Ok v | None => Raise KeyError end.

(* ================================================================= *)
(** ** Operators on Python values *)

(** [bool(v)]. *)
Definition truthy (v : pyval) : bool :=
  match v with
  | PNone => false
  | PBool b => b
  | PInt z => negb (z =? 0)
  | PStr s => negb (String.eqb s EmptyString)
  | PList l => match l with [] => false | _ => true end
  | PDict d => match d with [] => false | _ => true end
  end.

Definition is_none (v : pyval) : bool :=
  match v with PNone => true | _ => false end.

(** [v is True]. *)
Definition is_True (v : pyval) : bool :=
  match v with PBool true => true | _ => false end.

Definition Z_of_bool (b : bool) : Z := if b then 1 else 0.

(** [a == b]: booleans compare as the integers 0 and 1, lists compare
    element-wise, dictionaries compare as maps (order-insensitive). *)
Fixpoint py_eq (a b : pyval) {struct a} : bool :=
  match a, b with
  | PNone, PNone => true
  | PBool x, PBool y => Bool.eqb x y
  | PBool x, PInt y => Z_of_bool x =? y
  | PInt x, PBool y => x =? Z_of_bool y
  | PInt x, PInt y => x =? y
  | PStr x, PStr y => String.eqb x y
  | PList l1, PList l2 =>
      (fix go (l1 l2 : list pyval) {struct l1} : bool :=
         match l1, l2 with
         | [], [] => true
         | x :: xs, y :: ys => py_eq x y && go xs ys
         | _, _ => false
         end) l1 l2
  | PDict d1, PDict d2 =>
      (Nat.eqb (List.length d1) (List.length d2)) &&
      (fix go (d1 : dict) {struct d1} : bool :=
         match d1 with
         | [] => true
         | (k, v) :: r =>
             match dict_lookup k d2 with
             | Some w => py_eq v w
             | None => false
             end && go r
         end) d1
  | _, _ => false
  end.

(** [v[k]] with a string subscript. *)
Definition py_item (v : pyval) (k : string) : result pyval :=
  match v with
  | PDict d => dict_item k d
  | _ => Raise TypeError
  end.

(** [v[0]]. A dictionary has string keys only, so the integer key misses. *)
Definition py_item0 (v : pyval) : result pyval :=
  match v with
  | PList (x :: _) => Ok x
  | PList [] => Raise IndexError
  | PStr (String c _) => Ok (PStr (String c EmptyString))
  | PStr EmptyString => Raise IndexError
  | PDict _ => Raise KeyError
  | _ => Raise TypeError
  end.

(** [a in b]. *)
Definition py_in (a b : pyval) : result bool :=
  match b with
  | PDict d =>
      match a with
      | PStr k => Ok (dict_mem k d)
      | PList _ | PDict _ => Raise TypeError
      | _ => Ok false
      end
  | PList l => Ok (existsb (py_eq a) l)
  | PStr s =>
      match a with
      | PStr sub => Ok (is_substring sub s)
      | _ => Raise TypeError
      end
  | _ => Raise TypeError
  end.

(** [v[k] = x] with a string subscript: returns the mutated container. *)
Definition py_setitem (v : pyval) (k : string) (x : pyval) : result pyval :=
  match v with
  | PDict d => Ok (PDict (dict_set k x d))
  | _ => Raise TypeError
  end.

(** [v.get(k)] on a value that need not be a dictionary. *)
Definition py_get (v : pyval) (k : string) : result pyval :=
  match v with
  | PDict d => Ok (dict_get k d)
  | _ => Raise AttributeError
  end.

(** The integer a value stands for in an ordering comparison with an [int]. *)
Definition py_as_int (v : pyval) : result Z :=
  match v with
  | PInt z => Ok z
  | PBool b => Ok (Z_of_bool b)
  | _ => Raise TypeError
  end.

(** [len(v)]. *)
Definition py_len (v : pyval) : result nat :=
  match v with
  | PList l => Ok (List.length l)
  | PDict d => Ok (List.length d)
  | PStr s => Ok (String.length s)
  | _ => Raise TypeError
  end.

(** [for x in v]: the sequence a [for] loop walks. A dictionary yields its
    keys, a string its characters. *)
Fixpoint chars_of (s : string) : list pyval :=
  match s with
  | EmptyString => []
  | String c r => PStr (String c EmptyString) :: chars_of r
  end.

Definition py_iter (v : pyval) : result (list pyval) :=
  match v with
  | PList l => Ok l
  | PDict d => Ok (map (fun kv => PStr (fst kv)) d)
  | PStr s => Ok (chars_of s)
  | _ => Raise TypeError
  end.

(** [v in [c1, ..., cn]] against a literal list of strings. *)
Definition in_strs (v : pyval) (cs : list string) : bool :=
  existsb (fun c => py_eq v (PStr c)) cs.

(** [v == "c"] against a string literal. *)
Definition eq_str (v : pyval) (c : string) : bool := py_eq v (PStr c).

(* ================================================================= *)
(** ** schema_utils.py *)

Module schema_utils.

(** [references[reference.split("/")[-1]]]. *)
Definition resolve_reference (reference : pyval) (references : dict) : result pyval :=
  match reference with
  | PStr r => dict_item (last (split_on "/" r) EmptyString) references
  | _ => Raise AttributeError
  end.

(** The reference read by [get_single_reference_item]: [$ref] of the node,
    or of the first element of [allOf]. *)
Definition single_reference (property : dict) : result pyval :=
  let reference := dict_get "$ref" property in
  if is_none reference then
    all_of <- dict_item "allOf" property ;;
    first <- py_item0 all_of ;;
    py_item first "$ref"
  else Ok reference.

Definition get_single_reference_item (property references : dict) : result pyval :=
  reference <- single_reference property ;;
  resolve_reference reference references.

(** [property.get("oneOf", property.get("anyOf"))]. *)
Definition union_prop (property : dict) : pyval :=
  dict_get_default "oneOf" (dict_get "anyOf" property) property.

Fixpoint resolve_all (refs : list pyval) (references : dict) : result (list pyval) :=
  match refs with
  | [] => Ok []
  | reference :: rest =>
      r <- py_item reference "$ref" ;;
      x <- resolve_reference r references ;;
      xs <- resolve_all rest references ;;
      Ok (x :: xs)
  end.

Definition get_union_references (property references : dict) : result (list pyval) :=
  union_references <- py_iter (union_prop property) ;;
  resolve_all union_references references.

Definition is_single_string_property (property : dict) : bool :=
  eq_str (dict_get "type" property) "string".

Definition is_single_color_property (property : dict) : bool :=
  if negb (eq_str (dict_get "type" property) "string") then false
  else in_strs (dict_get "format" property) ["color"].

Definition is_single_datetime_property (property : dict) : bool :=
  if negb (eq_str (dict_get "type" property) "string") then false
  else in_strs (dict_get "format" property) ["date-time"; "time"; "date"].

Definition is_single_boolean_property (property : dict) : bool :=
  eq_str (dict_get "type" property) "boolean".

Definition is_single_number_property (property : dict) : bool :=
  in_strs (dict_get "type" property) ["integer"; "number"].

Definition is_single_file_property (property : dict) : bool :=
  if negb (eq_str (dict_get "type" property) "string") then false
  else eq_str (dict_get "format" property) "byte".

Definition get_property_items (property : pyval) : result pyval :=
  items <- py_item property "items" ;;
  match items with
  | PList _ => py_item0 items
  | PDict _ => Ok items
  | _ => Raise TypeError
  end.

Definition is_multi_enum_property (property references : dict) : result bool :=
  if negb (eq_str (dict_get "type" property) "array") then Ok false
  else if negb (is_True (dict_get "uniqueItems" property)) then Ok false
  else
    match (items <- get_property_items (PDict property) ;; py_item items "enum") with
    | Ok _ => Ok true
    | Raise _ =>
        try_except
          (items <- get_property_items (PDict property) ;;
           r <- py_item items "$ref" ;;
           x <- resolve_reference r references ;;
           _ <- py_item x "enum" ;;
           Ok true)
          (Ok false)
    end.

Definition is_single_enum_property (property references : dict) : result bool :=
  if truthy (dict_get "enum" property) then Ok true
  else
    try_except
      (x <- get_single_reference_item property references ;;
       _ <- py_item x "enum" ;;
       Ok true)
      (Ok false).

Definition is_single_dict_property (property : dict) : bool :=
  if negb (eq_str (dict_get "type" property) "object") then false
  else dict_mem "additionalProperties" property.

(** Applied to the branches of a union, which need not be dictionaries. *)
Definition is_single_reference (property : pyval) : result bool :=
  t <- py_get property "type" ;;
  if negb (is_none t) then Ok false
  else r <- py_get property "$ref" ;; Ok (truthy r).

Definition is_multi_file_property (property : dict) : result bool :=
  if negb (eq_str (dict_get "type" property) "array") then Ok false
  else if is_none (dict_get "items" property) then Ok false
  else
    try_except
      (items <- get_property_items (PDict property) ;;
       f <- py_item items "format" ;;
       Ok (eq_str f "byte"))
      (Ok false).

Definition is_single_object (property references : dict) : result bool :=
  try_except
    (object_reference <- get_single_reference_item property references ;;
     t <- py_item object_reference "type" ;;
     if negb (eq_str t "object") then Ok false
     else py_in (PStr "properties") object_reference)
    (Ok false).

Fixpoint all_single_references (branches : list pyval) : result bool :=
  match branches with
  | [] => Ok true
  | reference :: rest =>
      b <- is_single_reference reference ;;
      if negb b then Ok false else all_single_references rest
  end.

Definition is_union_property (property : dict) : result bool :=
  let up := union_prop property in
  if is_none up then Ok false
  else
    n <- py_len up ;;
    if Nat.eqb n 0 then Ok false
    else branches <- py_iter up ;; all_single_references branches.

(** Where [is_property_list_and_object] found the item node: under the
    node's own [items], or under the [items] of its first [anyOf] branch. The
    item node is shared with that place, so a mutation of it shows there. *)
Inductive item_place : Type := OwnItems | FirstAnyOfItems.

Definition find_item_property (property : dict) : result (pyval * item_place) :=
  match get_property_items (PDict property) with
  | Ok item_property => Ok (item_property, OwnItems)
  | Raise KeyError | Raise TypeError =>
      first <- py_item0 (dict_get "anyOf" property) ;;
      item_property <- get_property_items first ;;
      Ok (item_property, FirstAnyOfItems)
  | Raise e => Raise e
  end.

(** The in-place mutation of the item node, seen from the first [anyOf]
    branch it was taken from. *)
Definition write_back_any_of (property : dict) (item' : pyval) : dict :=
  match dict_get "anyOf" property with
  | PList (PDict first :: rest) =>
      let items' :=
        match dict_get "items" first with
        | PList (_ :: xs) => PList (item' :: xs)
        | _ => item'
        end in
      dict_set "anyOf" (PList (PDict (dict_set "items" items' first) :: rest)) property
  | _ => property
  end.

(** [item_property.pop("$ref")]. *)
Definition py_pop (v : pyval) (k : string) : result pyval :=
  match v with
  | PDict d => if dict_mem k d then Ok (PDict (dict_remove k d)) else Raise KeyError
  | PList _ => Raise TypeError
  | _ => Raise AttributeError
  end.

Definition primitive_types : list string := ["string"; "number"; "integer"].

(** Returns the answer and the node as the call leaves it. *)
Definition is_property_list_and_object (property references : dict)
  : result (bool * dict) :=
  if negb (eq_str (dict_get "type" property) "array") then Ok (false, property)
  else
    no_items <-
      (if is_none (dict_get "items" property) then
         first <- py_item0 (dict_get_default "anyOf" (PList [PDict []]) property) ;;
         it <- py_get first "items" ;;
         Ok (is_none it)
       else Ok false) ;;
    if (no_items : bool) then Ok (false, property)
    else
      found <- find_item_property property ;;
      let '(item_property, place) := found in
      has_ref <- py_in (PStr "$ref") item_property ;;
      let finish (item_property : pyval) (property : dict) : result (bool * dict) :=
        t <- py_get item_property "type" ;;
        if in_strs t primitive_types
        then Ok (true, dict_set "items" item_property property)
        else Ok (false, property) in
      if (has_ref : bool) then
        r <- py_item item_property "$ref" ;;
        object_reference <- resolve_reference r references ;;
        t <- py_item object_reference "type" ;;
        if in_strs t primitive_types then
          popped <- py_pop item_property "$ref" ;;
          item' <- py_setitem popped "type" t ;;
          let property' :=
            match place with
            | OwnItems =>
                match dict_get "items" property with
                | PList (_ :: xs) => dict_set "items" (PList (item' :: xs)) property
                | _ => dict_set "items" item' property
                end
            | FirstAnyOfItems => write_back_any_of property item'
            end in
          finish item' property'
        else if negb (eq_str t "object") then Raise TypeError
        else
          b <- py_in (PStr "properties") object_reference ;;
          Ok (b, dict_set "items" item_property property)
      else finish item_property property.

End schema_utils.

(* ================================================================= *)
(** ** ui_renderer.py: the [InputUI] object *)

(** The fields of [InputUI] the embedded methods read or write.
    [session_input] is [st.session_state[self._session_input_key]], the
    path-keyed store; [run_id] is [st.session_state.run_id]. *)
Record InputUI : Type := mkInputUI {
  _key : string;
  _lowercase_labels : bool;
  _ignore_empty_values : bool;
  _return_model : bool;
  run_id : Z;
  _schema_references : dict;
  session_input : dict
}.

Definition with_session_input (ui : InputUI) (store : dict) : InputUI :=
  {| _key := _key ui;
     _lowercase_labels := _lowercase_labels ui;
     _ignore_empty_values := _ignore_empty_values ui;
     _return_model := _return_model ui;
     run_id := run_id ui;
     _schema_references := _schema_references ui;
     session_input := store |}.

Definition with_schema_references (ui : InputUI) (references : dict) : InputUI :=
  {| _key := _key ui;
     _lowercase_labels := _lowercase_labels ui;
     _ignore_empty_values := _ignore_empty_values ui;
     _return_model := _return_model ui;
     run_id := run_id ui;
     _schema_references := references;
     session_input := session_input ui |}.

(* ----------------------------------------------------------------- *)
(** *** The path-keyed state store *)

(** The loop of [_store_value_in_state] over the remaining key elements.
    [state] is the container the loop variable currently points at; the
    result is that container after the writes made through it. The last
    element is recognised by position ([i == len(key_elements) - 1]), that
    is, by the rest of the list being empty. *)
Fixpoint store_loop (state : pyval) (key_elements : list string) (value : pyval)
  : result unit * pyval :=
  match key_elements with
  | [] => (Ok tt, state)
  | key_element :: rest =>
      match rest with
      | [] =>
          match py_setitem state key_element value with
          | Ok state' => (Ok tt, state')
          | Raise e => (Raise e, state)
          end
      | _ :: _ =>
          match py_in (PStr key_element) state with
          | Raise e => (Raise e, state)
          | Ok present =>
              match (if present then Ok state
                     else py_setitem state key_element (PDict [])) with
              | Raise e => (Raise e, state)
              | Ok state1 =>
                  match py_item state1 key_element with
                  | Raise e => (Raise e, state1)
                  | Ok child =>
                      let '(r, child') := store_loop child rest value in
                      match py_setitem state1 key_element child' with
                      | Ok state2 => (r, state2)
                      | Raise _ => (r, state1)
                      end
                  end
              end
          end
      end
  end.

(** The loop of [_get_value_from_state]: the value returned (or the
    exception raised) and the container as the loop leaves it. *)
Fixpoint get_loop (state : pyval) (key_elements : list string)
  : result pyval * pyval :=
  match key_elements with
  | [] => (Ok PNone, state)
  | key_element :: rest =>
      match rest with
      | [] =>
          match py_in (PStr key_element) state with
          | Raise e => (Raise e, state)
          | Ok false => (Ok PNone, state)
          | Ok true => (py_item state key_element, state)
          end
      | _ :: _ =>
          match py_in (PStr key_element) state with
          | Raise e => (Raise e, state)
          | Ok present =>
              match (if present then Ok state
                     else py_setitem state key_element (PDict [])) with
              | Raise e => (Raise e, state)
              | Ok state1 =>
                  match py_item state1 key_element with
                  | Raise e => (Raise e, state1)
                  | Ok child =>
                      let '(r, child') := get_loop child rest in
                      match py_setitem state1 key_element child' with
                      | Ok state2 => (r, state2)
                      | Raise _ => (r, state1)
                      end
                  end
              end
          end
      end
  end.

Definition as_dict (v : pyval) (fallback : dict) : dict :=
  match v with PDict d => d | _ => fallback end.

Definition _store_value_in_state (state : dict) (key : string) (value : pyval)
  : result unit * dict :=
  let '(r, s) := store_loop (PDict state) (split_on "." key) value in
  (r, as_dict s state).

Definition _get_value_from_state (state : dict) (key : string)
  : result pyval * dict :=
  let '(r, s) := get_loop (PDict state) (split_on "." key) in
  (r, as_dict s state).

Definition _store_value (ui : InputUI) (key : string) (value : pyval)
  : result unit * InputUI :=
  let '(r, s) := _store_value_in_state (session_input ui) key value in
  (r, with_session_input ui s).

Definition _get_value (ui : InputUI) (key : string) : result pyval * InputUI :=
  let '(r, s) := _get_value_from_state (session_input ui) key in
  (r, with_session_input ui s).

(** [type(value) == int or type(value) == float or isinstance(value, str)]:
    a [bool] is not of type [int]. *)
Definition is_int_or_str (v : pyval) : bool :=
  match v with PInt _ | PStr _ => true | _ => false end.

Definition _is_value_ignored (ui : InputUI) (property_key : string) (value : pyval)
  : result bool * InputUI :=
  if _ignore_empty_values ui && is_int_or_str value && negb (truthy value) then
    let '(r, ui') := _get_value ui property_key in
    (v <- r ;; Ok (is_none v), ui')
  else (Ok false, ui).

(** State reached by nested subscripts [state[k1][k2]...], without any
    write: the reading the store is meant to support. *)
Fixpoint walk (state : pyval) (path : list string) : option pyval :=
  match path with
  | [] => Some state
  | k :: rest =>
      match state with
      | PDict d =>
          match dict_lookup k d with
          | Some child => walk child rest
          | None => None
          end
      | _ => None
      end
  end.

(** [{k1: {k2: ... {kn: {}}}}], the containers a walk over missing
    segments leaves behind. *)
Fixpoint nest_empty (path : list string) : pyval :=
  match path with
  | [] => PDict []
  | k :: rest => PDict [(k, nest_empty rest)]
  end.

(* ----------------------------------------------------------------- *)
(** *** Widget keyword arguments *)

Definition _OVERWRITE_STREAMLIT_KWARGS_PREFIX : string := "st_kwargs_".

(** [str.lower()] on ASCII letters; other bytes are left as they are. *)
Definition ascii_lower (c : ascii) : ascii :=
  let n := nat_of_ascii c in
  if (Nat.leb 65 n && Nat.leb n 90)%bool then ascii_of_nat (n + 32) else c.

Fixpoint str_lower (s : string) : string :=
  match s with
  | EmptyString => EmptyString
  | String c r => String (ascii_lower c) (str_lower r)
  end.

Definition _get_overwrite_streamlit_kwargs (key : string) (property : dict) : dict :=
  fold_left
    (fun streamlit_kwargs kv =>
       let kwarg := fst kv in
       if String.prefix _OVERWRITE_STREAMLIT_KWARGS_PREFIX kwarg
       then dict_set (str_remove_all _OVERWRITE_STREAMLIT_KWARGS_PREFIX kwarg)
                     (snd kv) streamlit_kwargs
       else streamlit_kwargs)
    property [].

Definition _get_default_streamlit_input_kwargs (ui : InputUI) (key : string)
  (property : dict) : result dict :=
  let label := dict_get "title" property in
  label <-
    (if truthy label && _lowercase_labels ui then
       match label with
       | PStr s => Ok (PStr (str_lower s))
       | _ => Raise AttributeError
       end
     else Ok label) ;;
  let disabled := truthy (dict_get "readOnly" property) in
  let streamlit_kwargs :=
    [ ("label", label);
      ("key", PStr (str_of_int (run_id ui) ++ "-" ++ _key ui ++ "-" ++ key));
      ("disabled", PBool disabled) ] in
  if truthy (dict_get "description" property)
  then Ok (dict_set "help" (dict_get "description" property) streamlit_kwargs)
  else if truthy (dict_get "help" property)
  then Ok (dict_set "help" (dict_get "help" property) streamlit_kwargs)
  else Ok streamlit_kwargs.

(** [{**a, **b}]. *)
Definition dict_merge (a b : dict) : dict :=
  fold_left (fun acc kv => dict_set (fst kv) (snd kv) acc) b a.

(* ----------------------------------------------------------------- *)
(** *** Rendering outcomes *)

(** The shapes [_render_property] tells apart, in the order it tests them,
    followed by its two raw-string fallbacks and the unsupported case. *)
Inductive shape : Type :=
| SingleEnum | MultiEnum | SingleFile | MultiFile | SingleDatetime
| SingleColor | SingleBoolean | SingleDict | SingleNumber | SingleString
| SingleObject | ListAndObject | SingleReference | UnionProperty
| UntypedAsString | ArrayAsString | Unsupported.

(** What a rendering call comes to. [Returned v]: the method returns [v]
    without calling a widget of the host. [HostWidget w kwargs]: the method
    returns whatever the host's widget [w] returns for [kwargs]. [Routed sh
    property]: [_render_property] hands [property] to the renderer of shape
    [sh], whose body is not embedded. *)
Inductive rendered : Type :=
| Returned (v : pyval)
| HostWidget (widget : string) (kwargs : dict)
| Routed (sh : shape) (property : dict).

(** [xs.index(x)] on a list. *)
Fixpoint list_index (x : pyval) (xs : list pyval) : option nat :=
  match xs with
  | [] => None
  | y :: ys => if py_eq y x then Some O
               else option_map S (list_index x ys)
  end.

Fixpoint str_find (sub s : string) : option nat :=
  if String.prefix sub s then Some O
  else match s with
       | EmptyString => None
       | String _ r => option_map S (str_find sub r)
       end.

(** [v.index(x)]. *)
Definition py_index (v x : pyval) : result nat :=
  match v with
  | PList xs =>
      match list_index x xs with Some i => Ok i | None => Raise ValueError end
  | PStr s =>
      match x with
      | PStr sub =>
          match str_find sub s with Some i => Ok i | None => Raise ValueError end
      | _ => Raise TypeError
      end
  | _ => Raise AttributeError
  end.

(** The option list [_render_single_enum_input] works with. *)
Definition select_options_of (property references : dict) : result pyval :=
  if truthy (dict_get "enum" property) then Ok (dict_get "enum" property)
  else
    reference_item <- schema_utils.get_single_reference_item property references ;;
    py_item reference_item "enum".

Definition _render_single_enum_input (ui : InputUI) (key : string) (property : dict)
  : result rendered :=
  streamlit_kwargs <- _get_default_streamlit_input_kwargs ui key property ;;
  let overwrite_kwargs := _get_overwrite_streamlit_kwargs key property in
  select_options <- select_options_of property (_schema_references ui) ;;
  streamlit_kwargs <-
    (if truthy (dict_get "init_value" property) then
       i <- py_index select_options (dict_get "init_value" property) ;;
       Ok (dict_set "index" (PInt (Z.of_nat i)) streamlit_kwargs)
     else if negb (is_none (dict_get "default" property)) then
       i <- py_index select_options (dict_get "default" property) ;;
       Ok (dict_set "index" (PInt (Z.of_nat i)) streamlit_kwargs)
     else Ok streamlit_kwargs) ;;
  n <- py_len select_options ;;
  if Nat.eqb n 1 then
    v <- py_item0 select_options ;; Ok (Returned v)
  else
    Ok (HostWidget "selectbox"
          (dict_merge (dict_set "options" select_options streamlit_kwargs)
                      overwrite_kwargs)).

(* ----------------------------------------------------------------- *)
(** *** The field dispatcher [_render_property] *)

(** Lines 1085-1092: union flattening. *)
Definition flatten_any_of (property : dict) : result dict :=
  let any_of := dict_get "anyOf" property in
  if is_none (dict_get "type" property) && negb (is_none any_of) then
    first_of_any <- py_item0 any_of ;;
    has_type <- py_in (PStr "type") first_of_any ;;
    property <-
      (if (has_type : bool) then
         t <- py_item first_of_any "type" ;; Ok (dict_set "type" t property)
       else Ok property) ;;
    has_ap <- py_in (PStr "additionalProperties") first_of_any ;;
    if (has_ap : bool) then
      a <- py_item first_of_any "additionalProperties" ;;
      Ok (dict_set "additionalProperties" a property)
    else Ok property
  else Ok property.

(** Lines 1093-1099: an empty first entry of a tuple-style [items] list is
    typed as a string. *)
Definition type_empty_first_item (property : dict) : result dict :=
  match dict_get_default "items" (PDict []) property with
  | PList (x :: xs) =>
      if negb (truthy x) then
        x' <- py_setitem x "type" (PStr "string") ;;
        Ok (dict_set "items" (PList (x' :: xs)) property)
      else Ok property
  | _ => Ok property
  end.

(** Lines 1101-1154: the predicates in their fixed order. Returns the shape
    chosen and the node as the predicates leave it. *)
Definition classify (property references : dict) : result (shape * dict) :=
  b <- schema_utils.is_single_enum_property property references ;;
  if (b : bool) then Ok (SingleEnum, property) else
  b <- schema_utils.is_multi_enum_property property references ;;
  if (b : bool) then Ok (MultiEnum, property) else
  if schema_utils.is_single_file_property property then Ok (SingleFile, property) else
  b <- schema_utils.is_multi_file_property property ;;
  if (b : bool) then Ok (MultiFile, property) else
  if schema_utils.is_single_datetime_property property then Ok (SingleDatetime, property) else
  if schema_utils.is_single_color_property property then Ok (SingleColor, property) else
  if schema_utils.is_single_boolean_property property then Ok (SingleBoolean, property) else
  if schema_utils.is_single_dict_property property then Ok (SingleDict, property) else
  if schema_utils.is_single_number_property property then Ok (SingleNumber, property) else
  if schema_utils.is_single_string_property property then Ok (SingleString, property) else
  b <- schema_utils.is_single_object property references ;;
  if (b : bool) then Ok (SingleObject, property) else
  lo <- schema_utils.is_property_list_and_object property references ;;
  let '(b, property) := lo in
  if (b : bool) then Ok (ListAndObject, property) else
  b <- schema_utils.is_single_reference (PDict property) ;;
  if (b : bool) then Ok (SingleReference, property) else
  b <- schema_utils.is_union_property property ;;
  if (b : bool) then Ok (UnionProperty, property) else
  if is_none (dict_get "type" property) then Ok (UntypedAsString, property) else
  if eq_str (dict_get "type" property) "array" then Ok (ArrayAsString, property) else
  Ok (Unsupported, property).

(** The node as classification sees it. *)
Definition prepare_property (property : dict) : result dict :=
  property <- flatten_any_of property ;;
  type_empty_first_item property.

Definition _render_property (ui : InputUI) (key : string) (property : dict)
  : result rendered :=
  property <- prepare_property property ;;
  cl <- classify property (_schema_references ui) ;;
  let '(sh, property) := cl in
  match sh with
  | SingleEnum => _render_single_enum_input ui key property
  | _ => Ok (Routed sh property)
  end.

(* ----------------------------------------------------------------- *)
(** *** Collection affordances *)

Definition _add_button_allowed (index : Z) (property : dict) : result bool :=
  if is_True (dict_get_default "readOnly" (PBool false) property) then Ok false
  else
    m <- py_as_int (dict_get_default "maxItems" (PInt 1000) property) ;;
    Ok (negb (index >=? m)).

Definition _remove_button_allowed (index : Z) (property : dict) : result bool :=
  if is_True (dict_get "readOnly" property) then Ok true
  else
    m <- py_as_int (dict_get_default "minItems" (PInt 0) property) ;;
    Ok (index + 1 <=? m).

Definition _clear_button_allowed (property : dict) : result bool :=
  if is_True (dict_get_default "readOnly" (PBool false) property) then Ok false
  else
    m <- py_as_int (dict_get_default "minItems" (PInt 0) property) ;;
    Ok (negb (m >? 0)).

(** The [minItems] the comparison works with when the key is missing or
    holds an integer. *)
Definition min_items (property : dict) : option Z :=
  match dict_lookup "minItems" property with
  | None => Some 0
  | Some (PInt m) => Some m
  | Some _ => None
  end.

(* ----------------------------------------------------------------- *)
(** *** Union disambiguation *)

(** [v[k]] with an arbitrary subscript. *)
Definition seq_index (i : Z) (len : nat) : option nat :=
  let j := if i <? 0 then i + Z.of_nat len else i in
  if (0 <=? j) && (j <? Z.of_nat len) then Some (Z.to_nat j) else None.

Definition py_subscript (v k : pyval) : result pyval :=
  match v with
  | PDict d =>
      match k with
      | PStr s => dict_item s d
      | PList _ | PDict _ => Raise TypeError
      | _ => Raise KeyError
      end
  | PList l =>
      match py_as_int k with
      | Ok i =>
          match seq_index i (List.length l) with
          | Some n => match nth_error l n with
                      | Some x => Ok x
                      | None => Raise IndexError
                      end
          | None => Raise IndexError
          end
      | Raise e => Raise e
      end
  | PStr s =>
      match py_as_int k with
      | Ok i =>
          match seq_index i (String.length s) with
          | Some n => match String.get n s with
                      | Some c => Ok (PStr (String c EmptyString))
                      | None => Raise IndexError
                      end
          | None => Raise IndexError
          end
      | Raise e => Raise e
      end
  | _ => Raise TypeError
  end.

(** The test of the first generator, on one candidate [x]:
    [x["properties"][disc_prop]["enum"] == [property["init_value"][disc_prop]]]. *)
Definition discriminator_matches (property : dict) (disc_prop x : pyval)
  : result bool :=
  props <- py_item x "properties" ;;
  dp <- py_subscript props disc_prop ;;
  enum <- py_item dp "enum" ;;
  init_value <- dict_item "init_value" property ;;
  iv <- py_subscript init_value disc_prop ;;
  Ok (py_eq enum (PList [iv])).

(** The test of the second generator:
    [x["title"] in property["instance_class"]]. *)
Definition instance_class_matches (property : dict) (x : pyval) : result bool :=
  title <- py_item x "title" ;;
  instance_class <- dict_item "instance_class" property ;;
  py_in title instance_class.

(** [next(i for i, x in enumerate(xs) if test(x))]: the tests run in order
    and stop at the first hit; an exception in a test ends the search. *)
Fixpoint next_index (test : pyval -> result bool) (xs : list pyval) (i : nat)
  : result nat :=
  match xs with
  | [] => Raise StopIteration
  | x :: rest =>
      b <- test x ;;
      if (b : bool) then Ok i else next_index test rest (S i)
  end.

(** [xs[i]["init_value"] = v] on the list of reference items. *)
Fixpoint seed_item (xs : list pyval) (i : nat) (v : pyval) : result (list pyval) :=
  match xs, i with
  | [], _ => Raise IndexError
  | x :: rest, O => x' <- py_setitem x "init_value" v ;; Ok (x' :: rest)
  | x :: rest, S j => rest' <- seed_item rest j v ;; Ok (x :: rest')
  end.

(** Lines 639-661 of [_render_union_property]: the branch preselected (the
    [index] keyword of the option widget, if any) and the reference items
    after seeding. *)
Definition select_union_branch (property : dict) (reference_items : list pyval)
  : result (option nat * list pyval) :=
  if truthy (dict_get "init_value" property)
     && truthy (dict_get "discriminator" property) then
    discriminator <- dict_item "discriminator" property ;;
    disc_prop <- py_item discriminator "propertyName" ;;
    ref_index <- next_index (discriminator_matches property disc_prop)
                            reference_items O ;;
    init_value <- dict_item "init_value" property ;;
    reference_items <- seed_item reference_items ref_index init_value ;;
    Ok (Some ref_index, reference_items)
  else if truthy (dict_get "init_value" property)
          && truthy (dict_get "instance_class" property) then
    ref_index <- next_index (instance_class_matches property) reference_items O ;;
    init_value <- dict_item "init_value" property ;;
    reference_items <- seed_item reference_items ref_index init_value ;;
    Ok (Some ref_index, reference_items)
  else Ok (None, reference_items).

(* ----------------------------------------------------------------- *)
(** *** Validation of the submitted state *)

Definition nl : string := String (ascii_of_nat 10) EmptyString.

(** What the model validator makes of the store: a typed value, or a
    [ValidationError] whose [errors()] are dictionaries with a [loc] (the
    path segments; a tuple in the source, a list here) and a [msg]. *)
Inductive validation : Type :=
| Valid (model : pyval)
| Invalid (errors : list dict).

Fixpoint all_strs (vs : list pyval) : result (list string) :=
  match vs with
  | [] => Ok []
  | PStr s :: rest => ss <- all_strs rest ;; Ok (s :: ss)
  | _ :: _ => Raise TypeError
  end.

(** [sep.join(v)]. *)
Definition py_join (sep : string) (v : pyval) : result string :=
  parts <- py_iter v ;;
  ss <- all_strs parts ;;
  Ok (str_join sep ss).

(** One turn of the loop over [ex.errors()]. The fallback [str(error)] of
    an error without [loc] or [msg] is outside the embedded fragment. *)
Definition error_line (error : dict) : result string :=
  if dict_mem "loc" error && dict_mem "msg" error then
    loc <- dict_item "loc" error ;;
    joined <- py_join "." loc ;;
    let location := str_remove_all "__root__." joined in
    msg <- dict_item "msg" error ;;
    match msg with
    | PStr m => Ok (nl ++ nl ++ ("**" ++ location ++ ":** ") ++ m)
    | _ => Raise TypeError
    end
  else Raise Unmodelled.

Fixpoint error_text_loop (error_text : string) (errors : list dict) : result string :=
  match errors with
  | [] => Ok error_text
  | error :: rest =>
      line <- error_line error ;;
      error_text_loop (error_text ++ line) rest
  end.

(** What [render_ui] comes to once the properties are rendered (lines
    234-263): the value returned and the text of the warning shown, if any. *)
Definition render_ui_result (validate : dict -> validation) (ui : InputUI)
  : result (pyval * option string) :=
  let input_state := session_input ui in
  if _return_model ui then
    match validate input_state with
    | Valid model => Ok (model, None)
    | Invalid errors =>
        error_text <- error_text_loop "**Input failed validation:**" errors ;;
        Ok (PNone, Some error_text)
    end
  else Ok (PDict input_state, None).

(* ================================================================= *)
(** ** [json.loads] *)

(** A decoder for JSON text without floating-point numbers and without
    backslash escapes in strings; text that needs either is reported as
    [Unmodelled], and only text no JSON decoder accepts is reported as
    [JSONDecodeError]. *)
Module json.

Definition is_ws (c : ascii) : bool :=
  let n := nat_of_ascii c in
  (Nat.eqb n 32 || Nat.eqb n 9 || Nat.eqb n 10 || Nat.eqb n 13)%bool.

Definition is_digit (c : ascii) : bool :=
  let n := nat_of_ascii c in (Nat.leb 48 n && Nat.leb n 57)%bool.

Definition digit_val (c : ascii) : Z := Z.of_nat (nat_of_ascii c) - 48.

(** The quotation mark. *)
Definition is_quote (c : ascii) : bool := Nat.eqb (nat_of_ascii c) 34.

Fixpoint skip_ws (s : string) : string :=
  match s with
  | String c r => if is_ws c then skip_ws r else s
  | EmptyString => s
  end.

(** [s] without the prefix [lit], if it has it. *)
Fixpoint drop_literal (lit s : string) : option string :=
  match lit, s with
  | EmptyString, _ => Some s
  | String a lit', String b s' =>
      if Ascii.eqb a b then drop_literal lit' s' else None
  | String _ _, EmptyString => None
  end.

Fixpoint scan_digits (acc : Z) (s : string) : Z * string :=
  match s with
  | String c r => if is_digit c then scan_digits (10 * acc + digit_val c) r
                  else (acc, s)
  | EmptyString => (acc, s)
  end.

Definition starts_fraction (s : string) : bool :=
  match s with
  | String c _ => (Ascii.eqb c "." || Ascii.eqb c "e" || Ascii.eqb c "E")%bool
  | EmptyString => false
  end.

(** The digits of a number, after an optional minus sign. *)
Definition scan_nat (s : string) : result (Z * string) :=
  match s with
  | String c r =>
      if Ascii.eqb c "0" then
        if starts_fraction r then Raise Unmodelled else Ok (0, r)
      else if is_digit c then
        let '(n, rest) := scan_digits (digit_val c) r in
        if starts_fraction rest then Raise Unmodelled else Ok (n, rest)
      else Raise JSONDecodeError
  | EmptyString => Raise JSONDecodeError
  end.

(** The characters of a string after its opening quote. *)
Fixpoint scan_string (s : string) : result (string * string) :=
  match s with
  | EmptyString => Raise JSONDecodeError
  | String c r =>
      if is_quote c then Ok (EmptyString, r)
      else if Ascii.eqb c "\" then Raise Unmodelled
      else if Nat.ltb (nat_of_ascii c) 32 then Raise JSONDecodeError
      else
        match scan_string r with
        | Ok (t, rest) => Ok (String c t, rest)
        | Raise e => Raise e
        end
  end.

Definition has_prefix (lit s : string) : bool :=
  match drop_literal lit s with Some _ => true | None => false end.

Fixpoint parse_value (fuel : nat) (s : string) {struct fuel}
  : result (pyval * string) :=
  match fuel with
  | O => Raise Unmodelled
  | S fuel =>
      let s := skip_ws s in
      match s with
      | EmptyString => Raise JSONDecodeError
      | String c r =>
          if Ascii.eqb c "n" then
            match drop_literal "null" s with
            | Some rest => Ok (PNone, rest)
            | None => Raise JSONDecodeError
            end
          else if Ascii.eqb c "t" then
            match drop_literal "true" s with
            | Some rest => Ok (PBool true, rest)
            | None => Raise JSONDecodeError
            end
          else if Ascii.eqb c "f" then
            match drop_literal "false" s with
            | Some rest => Ok (PBool false, rest)
            | None => Raise JSONDecodeError
            end
          else if is_quote c then
            match scan_string r with
            | Ok (t, rest) => Ok (PStr t, rest)
            | Raise e => Raise e
            end
          else if Ascii.eqb c "-" then
            if has_prefix "Infinity" r then Raise Unmodelled
            else match scan_nat r with
                 | Ok (n, rest) => Ok (PInt (- n), rest)
                 | Raise e => Raise e
                 end
          else if is_digit c then
            match scan_nat s with
            | Ok (n, rest) => Ok (PInt n, rest)
            | Raise e => Raise e
            end
          else if (has_prefix "NaN" s || has_prefix "Infinity" s)%bool then
            Raise Unmodelled
          else if Ascii.eqb c "[" then
            match skip_ws r with
            | String "]" rest => Ok (PList [], rest)
            | _ =>
                match parse_elements fuel r with
                | Ok (xs, rest) => Ok (PList xs, rest)
                | Raise e => Raise e
                end
            end
          else if Ascii.eqb c "{" then
            match skip_ws r with
            | String "}" rest => Ok (PDict [], rest)
            | _ =>
                match parse_members fuel [] r with
                | Ok (d, rest) => Ok (PDict d, rest)
                | Raise e => Raise e
                end
            end
          else Raise JSONDecodeError
      end
  end

with parse_elements (fuel : nat) (s : string) {struct fuel}
  : result (list pyval * string) :=
  match fuel with
  | O => Raise Unmodelled
  | S fuel =>
      match parse_value fuel s with
      | Raise e => Raise e
      | Ok (x, rest) =>
          match skip_ws rest with
          | String "," rest' =>
              match parse_elements fuel rest' with
              | Ok (xs, rest'') => Ok (x :: xs, rest'')
              | Raise e => Raise e
              end
          | String "]" rest' => Ok ([x], rest')
          | _ => Raise JSONDecodeError
          end
      end
  end

with parse_members (fuel : nat) (acc : dict) (s : string) {struct fuel}
  : result (dict * string) :=
  match fuel with
  | O => Raise Unmodelled
  | S fuel =>
      match skip_ws s with
      | String c r =>
          if is_quote c then
            match scan_string r with
            | Raise e => Raise e
            | Ok (k, rest) =>
                match skip_ws rest with
                | String ":" rest1 =>
                    match parse_value fuel rest1 with
                    | Raise e => Raise e
                    | Ok (v, rest2) =>
                        let acc := dict_set k v acc in
                        match skip_ws rest2 with
                        | String "," rest3 => parse_members fuel acc rest3
                        | String "}" rest3 => Ok (acc, rest3)
                        | _ => Raise JSONDecodeError
                        end
                    end
                | _ => Raise JSONDecodeError
                end
            end
          else Raise JSONDecodeError
      | EmptyString => Raise JSONDecodeError
      end
  end.

(** [json.loads(v)]: the whole text must be one value; an argument that is
    not text is a [TypeError]. *)
Definition loads (v : pyval) : result pyval :=
  match v with
  | PStr s =>
      match parse_value (2 * String.length s + 2) s with
      | Raise e => Raise e
      | Ok (x, rest) =>
          match skip_ws rest with
          | EmptyString => Ok x
          | String _ _ => Raise JSONDecodeError
          end
      end
  | _ => Raise TypeError
  end.

End json.

(* ================================================================= *)
(** ** ui_renderer.py: nested objects and unions *)

(** The renderers below call back into [_render_property] for every child
    node and ask the host for the option picked in a select box. Both
    depend on the host's widgets, so they are taken as given: [render_child]
    is the recursive call (it returns the child's value, the child node as
    the call leaves it, and the renderer's state), [selectbox] the host's
    answer to the keyword arguments it is shown. [_name_to_title] and
    [json_loads] are the title-casing helper and the JSON decoder. Calls
    that only draw ([subheader], [markdown], [caption]) are left out. A
    node handed over by reference is returned as the call leaves it; the
    entry of the references table it aliases is not updated. *)
Section Renderers.

Variable _name_to_title : string -> string.
Variable json_loads : pyval -> result pyval.
Variable render_child : InputUI -> string -> dict -> result (pyval * dict * InputUI).
Variable selectbox : dict -> pyval.

(** Lines 801-813: the child node [new_property] as it is handed to
    [_render_property]. *)
Definition seed_child (property : dict) (property_key : string) (new_property : pyval)
  : result dict :=
  new_property <-
    (match new_property with
     | PDict np => Ok np
     | _ => Raise AttributeError
     end) ;;
  let new_property :=
    if negb (truthy (dict_get "title" new_property))
    then dict_set "title" (PStr (_name_to_title property_key)) new_property
    else new_property in
  new_property <-
    (if truthy (dict_get "init_value" property) then
       init_value <- dict_item "init_value" property ;;
       v <- py_get init_value property_key ;;
       Ok (dict_set "init_value" v new_property)
     else Ok new_property) ;;
  new_property <-
    (if truthy (dict_get "default" property) then
       default <- dict_item "default" property ;;
       decoded <- json_loads default ;;
       v <- py_get decoded property_key ;;
       Ok (dict_set "default" v new_property)
     else Ok new_property) ;;
  Ok (dict_set "readOnly" (dict_get_default "readOnly" (PBool false) property)
               new_property).

(** The loop of [_render_object_input] over the keys still to visit.
    [properties] is [property["properties"]], whose entries the loop
    mutates in place. *)
Fixpoint object_input_loop (ui : InputUI) (key : string) (property properties : dict)
  (keys : list string) (object_inputs : dict) : result (dict * dict * InputUI) :=
  match keys with
  | [] => Ok (object_inputs, properties, ui)
  | property_key :: rest =>
      new_property <- dict_item property_key properties ;;
      new_property <- seed_child property property_key new_property ;;
      let full_key := key ++ "." ++ property_key in
      rendered_child <- render_child ui full_key new_property ;;
      let '(value, new_property, ui) := rendered_child in
      let properties := dict_set property_key (PDict new_property) properties in
      let '(ignored, ui) := _is_value_ignored ui property_key value in
      ignored <- ignored ;;
      let object_inputs :=
        if (ignored : bool) then object_inputs
        else dict_set property_key value object_inputs in
      object_input_loop ui key property properties rest object_inputs
  end.

(** Returns [object_inputs], the node as the call leaves it and the
    renderer's state. Where [properties] is no mapping, the first turn of
    the loop fails: on the subscript, on [.get] of what it yields, or, that
    being a mapping, on a key that is no text. *)
Definition _render_object_input (ui : InputUI) (key : string) (property : dict)
  : result (dict * dict * InputUI) :=
  properties <- dict_item "properties" property ;;
  match properties with
  | PDict ps =>
      out <- object_input_loop ui key property ps (map fst ps) [] ;;
      let '(object_inputs, ps, ui) := out in
      Ok (object_inputs, dict_set "properties" (PDict ps) property, ui)
  | _ =>
      keys <- py_iter properties ;;
      match keys with
      | [] => Ok ([], property, ui)
      | property_key :: _ =>
          new_property <- py_subscript properties property_key ;;
          match new_property with
          | PDict _ => Raise TypeError
          | _ => Raise AttributeError
          end
      end
  end.

Definition _render_single_object_input (ui : InputUI) (key : string) (property : dict)
  : result (dict * dict * InputUI) :=
  object_reference <-
    schema_utils.get_single_reference_item property (_schema_references ui) ;;
  object_reference <-
    py_setitem object_reference "init_value"
               (dict_get_default "init_value" PNone property) ;;
  object_reference <-
    py_setitem object_reference "default"
               (dict_get_default "default" PNone property) ;;
  object_reference <-
    py_setitem object_reference "readOnly"
               (dict_get_default "readOnly" PNone property) ;;
  _render_object_input ui key (as_dict object_reference []).

(** Lines 663-667: option title to reference item, later entries of the
    same title replacing earlier ones. *)
Fixpoint name_reference_mapping (reference_items : list pyval) (acc : dict)
  : result dict :=
  match reference_items with
  | [] => Ok acc
  | reference :: rest =>
      title <- py_item reference "title" ;;
      match title with
      | PStr t => name_reference_mapping rest (dict_set (_name_to_title t) reference acc)
      | _ => Raise TypeError
      end
  end.

(** The keyword arguments of the option widget of a union (lines 633-679)
    and the title-to-branch mapping the answer is looked up in. *)
Definition union_selectbox_kwargs (ui : InputUI) (key : string) (property : dict)
  : result (dict * dict) :=
  streamlit_kwargs <- _get_default_streamlit_input_kwargs ui key property ;;
  reference_items <-
    schema_utils.get_union_references property (_schema_references ui) ;;
  sel <- select_union_branch property reference_items ;;
  let '(ref_index, reference_items) := sel in
  let streamlit_kwargs :=
    match ref_index with
    | Some i => dict_set "index" (PInt (Z.of_nat i)) streamlit_kwargs
    | None => streamlit_kwargs
    end in
  mapping <- name_reference_mapping reference_items [] ;;
  label <- dict_item "label" streamlit_kwargs ;;
  match label with
  | PStr l =>
      Ok (dict_set "options" (PList (map (fun kv => PStr (fst kv)) mapping))
            (dict_set "label" (PStr (l ++ " - Options")) streamlit_kwargs),
          mapping)
  | _ => Raise TypeError
  end.

Definition _render_union_property (ui : InputUI) (key : string) (property : dict)
  : result (dict * dict * InputUI) :=
  km <- union_selectbox_kwargs ui key property ;;
  let '(kwargs, mapping) := km in
  let selected_reference := selectbox kwargs in
  branch <- py_subscript (PDict mapping) selected_reference ;;
  match branch with
  | PDict b => _render_object_input ui key b
  | _ => Raise TypeError
  end.

End Renderers.

(* ================================================================= *)
(** ** ui_renderer.py: helpers, construction and leaf renderers *)

Definition _is_compatible_audio (mime_type : pyval) : bool :=
  in_strs mime_type ["audio/mpeg"; "audio/ogg"; "audio/wav"].

Definition _is_compatible_image (mime_type : pyval) : bool :=
  in_strs mime_type ["image/png"; "image/jpeg"].

Definition _is_compatible_video (mime_type : pyval) : bool :=
  in_strs mime_type ["video/mp4"].

(** [d.update(other)], the same insertion as [{**d, **other}]. *)
Definition dict_update (d other : dict) : dict := dict_merge d other.

(** Lines 145-150 of [__init__]: the references table is the schema's
    [definitions] updated with its [$defs]. An update from a sequence of
    pairs is outside the embedded fragment. *)
Definition schema_references_of (input_schema : dict) : result dict :=
  match dict_get_default "definitions" (PDict []) input_schema with
  | PDict definitions =>
      match dict_get_default "$defs" (PDict []) input_schema with
      | PDict defs => Ok (dict_update definitions defs)
      | PList _ | PStr _ => Raise Unmodelled
      | _ => Raise TypeError
      end
  | _ => Raise AttributeError
  end.

(** Lines 141-143 of [__init__]:
    [self._schema_properties[property]["default"] = new_default] for every
    entry of [custom_defaults], in order. *)
Fixpoint apply_custom_defaults (schema_properties : dict) (custom_defaults : dict)
  : result dict :=
  match custom_defaults with
  | [] => Ok schema_properties
  | (property, new_default) :: rest =>
      node <- dict_item property schema_properties ;;
      node <- py_setitem node "default" new_default ;;
      apply_custom_defaults (dict_set property node schema_properties) rest
  end.

(** [v in [None, ""]]. *)
Definition is_none_or_empty (v : pyval) : bool :=
  py_eq PNone v || py_eq (PStr EmptyString) v.

(** Lines 190-205 of [render_ui]: a top-level property before it is
    rendered. [instance_dict] and [instance_dict_by_alias] are what lines
    165-176 make of the model: the two dumps of a model instance, or the
    attribute dictionary of a dataclass instance or of a class and [None];
    [attr_type] is [str(type(getattr(self._input_class, property_key,
    None)))] when that attribute is not [None]. *)
Definition seed_top_level_property (_name_to_title : string -> string)
  (instance_dict instance_dict_by_alias : option dict) (attr_type : option string)
  (property_key : string) (property : dict) : dict :=
  let property :=
    if negb (truthy (dict_get "title" property))
    then dict_set "title" (PStr (_name_to_title property_key)) property
    else property in
  match instance_dict with
  | None => property
  | Some instance_dict =>
      let instance_value := dict_get property_key instance_dict in
      let instance_value :=
        match instance_dict_by_alias with
        | Some by_alias =>
            if is_none_or_empty instance_value && truthy (PDict by_alias)
            then dict_get property_key by_alias
            else instance_value
        | None => instance_value
        end in
      if negb (is_none_or_empty instance_value) then
        let property := dict_set "init_value" instance_value property in
        match attr_type with
        | Some t => dict_set "instance_class" (PStr t) property
        | None => property
        end
      else property
  end.

(** The keyword arguments of the text widget and the widget chosen, before
    the overrides of the escape hatch are laid over them. *)
Definition string_input_kwargs (ui : InputUI) (key : string) (property : dict)
  : result (string * dict) :=
  streamlit_kwargs <- _get_default_streamlit_input_kwargs ui key property ;;
  let streamlit_kwargs :=
    if truthy (dict_get "init_value" property)
    then dict_set "value" (dict_get "init_value" property) streamlit_kwargs
    else if truthy (dict_get "default" property)
    then dict_set "value" (dict_get "default" property) streamlit_kwargs
    else if truthy (dict_get "example" property)
    then dict_set "value" (dict_get "example" property) streamlit_kwargs
    else streamlit_kwargs in
  let streamlit_kwargs :=
    if negb (is_none (dict_get "maxLength" property))
    then dict_set "max_chars" (dict_get "maxLength" property) streamlit_kwargs
    else streamlit_kwargs in
  let streamlit_kwargs :=
    if truthy (dict_get "readOnly" property)
    then dict_set "disabled" (dict_get_default "readOnly" (PBool false) property)
                  streamlit_kwargs
    else streamlit_kwargs in
  if eq_str (dict_get "format" property) "multi-line"
     && negb (truthy (dict_get "writeOnly" property))
  then Ok ("text_area", streamlit_kwargs)
  else
    Ok ("text_input",
        if truthy (dict_get "writeOnly" property)
        then dict_set "type" (PStr "password") streamlit_kwargs
        else streamlit_kwargs).

Definition _render_single_string_input (ui : InputUI) (key : string) (property : dict)
  : result rendered :=
  wk <- string_input_kwargs ui key property ;;
  let '(widget, streamlit_kwargs) := wk in
  Ok (HostWidget widget
        (dict_merge streamlit_kwargs (_get_overwrite_streamlit_kwargs key property))).

Definition _render_single_color_input (ui : InputUI) (key : string) (property : dict)
  : result rendered :=
  streamlit_kwargs <- _get_default_streamlit_input_kwargs ui key property ;;
  let overwrite_kwargs := _get_overwrite_streamlit_kwargs key property in
  let streamlit_kwargs :=
    if negb (is_none (dict_get "init_value" property))
    then dict_set "value" (dict_get "init_value" property) streamlit_kwargs
    else if negb (is_none (dict_get "default" property))
    then dict_set "value" (dict_get "default" property) streamlit_kwargs
    else if negb (is_none (dict_get "example" property))
    then dict_set "value" (dict_get "example" property) streamlit_kwargs
    else streamlit_kwargs in
  if eq_str (dict_get "format" property) "text"
  then Ok (HostWidget "text_input" (dict_merge streamlit_kwargs overwrite_kwargs))
  else Ok (HostWidget "color_picker" (dict_merge streamlit_kwargs overwrite_kwargs)).

Definition _render_single_boolean_input (ui : InputUI) (key : string) (property : dict)
  : result rendered :=
  streamlit_kwargs <- _get_default_streamlit_input_kwargs ui key property ;;
  let overwrite_kwargs := _get_overwrite_streamlit_kwargs key property in
  let streamlit_kwargs :=
    if dict_mem "init_value" property
    then dict_set "value" (dict_get "init_value" property) streamlit_kwargs
    else if dict_mem "default" property
    then dict_set "value" (dict_get "default" property) streamlit_kwargs
    else streamlit_kwargs in
  Ok (HostWidget "checkbox" (dict_merge streamlit_kwargs overwrite_kwargs)).

Definition _render_multi_enum_input (ui : InputUI) (key : string) (property : dict)
  : result rendered :=
  streamlit_kwargs <- _get_default_streamlit_input_kwargs ui key property ;;
  let overwrite_kwargs := _get_overwrite_streamlit_kwargs key property in
  literal <- py_get (dict_get "items" property) "enum" ;;
  select_options <-
    (if truthy literal then py_get (dict_get "items" property) "enum"
     else
       items <- schema_utils.get_property_items (PDict property) ;;
       r <- py_item items "$ref" ;;
       reference_item <- schema_utils.resolve_reference r (_schema_references ui) ;;
       py_item reference_item "enum") ;;
  let streamlit_kwargs :=
    if truthy (dict_get "init_value" property)
    then dict_set "default" (dict_get "init_value" property) streamlit_kwargs
    else if truthy (dict_get "default" property)
    then dict_set "default" (dict_get "default" property) streamlit_kwargs
    else streamlit_kwargs in
  Ok (HostWidget "multiselect"
        (dict_merge (dict_set "options" select_options streamlit_kwargs)
                    overwrite_kwargs)).

(* ----------------------------------------------------------------- *)
(** *** Integer inputs *)

(** [int(v)]. Text would have to be parsed as a literal; that is outside
    the embedded fragment. *)
Definition py_int (v : pyval) : result Z :=
  match v with
  | PInt z => Ok z
  | PBool b => Ok (Z_of_bool b)
  | PStr _ => Raise Unmodelled
  | _ => Raise TypeError
  end.

(** The integers that compare with [np.finfo('d').max] and
    [np.finfo('d').min] as below them and above them: every integer of
    magnitude under [2^1023]. A larger one is outside the embedded
    fragment. *)
Definition within_double_range (z : Z) : bool := Z.abs z <? 2 ^ 1023.

(** Lines 735-788 of [_render_single_number_input] for a node whose [type]
    is not ["number"] (so that [number_transform] is [int]): the keyword
    arguments before the overrides. [widget_state] is
    [self._session_state.get(streamlit_kwargs["key"])]. A node of type
    ["number"] computes with floats and is outside the embedded fragment. *)
Definition number_input_kwargs (widget_state : pyval) (ui : InputUI) (key : string)
  (property : dict) : result dict :=
  streamlit_kwargs <- _get_default_streamlit_input_kwargs ui key property ;;
  if eq_str (dict_get "type" property) "number" then Raise Unmodelled else
  step <-
    (if dict_mem "multipleOf" property
     then py_int (dict_get "multipleOf" property)
     else Ok 1) ;;
  let streamlit_kwargs := dict_set "step" (PInt step) streamlit_kwargs in
  streamlit_kwargs <-
    (if dict_mem "minimum" property then
       m <- py_int (dict_get "minimum" property) ;;
       Ok (dict_set "min_value" (PInt m) streamlit_kwargs)
     else Ok streamlit_kwargs) ;;
  streamlit_kwargs <-
    (if dict_mem "exclusiveMinimum" property then
       m <- py_as_int (dict_get "exclusiveMinimum" property) ;;
       Ok (dict_set "min_value" (PInt (m + step)) streamlit_kwargs)
     else Ok streamlit_kwargs) ;;
  streamlit_kwargs <-
    (if dict_mem "maximum" property then
       m <- py_int (dict_get "maximum" property) ;;
       Ok (dict_set "max_value" (PInt m) streamlit_kwargs)
     else Ok streamlit_kwargs) ;;
  streamlit_kwargs <-
    (if dict_mem "exclusiveMaximum" property then
       m <- py_as_int (dict_get "exclusiveMaximum" property) ;;
       Ok (dict_set "max_value" (PInt (m - step)) streamlit_kwargs)
     else Ok streamlit_kwargs) ;;
  value <-
    (if is_none widget_state then
       if negb (is_none (dict_get "init_value" property))
       then py_int (dict_get "init_value" property)
       else if negb (is_none (dict_get "default" property))
       then py_int (dict_get "default" property)
       else match dict_lookup "min_value" streamlit_kwargs with
            | Some (PInt m) => Ok m
            | Some _ => Raise Unmodelled
            | None => Ok 0
            end
     else py_int widget_state) ;;
  if within_double_range value
  then Ok (dict_set "value" (PInt value) streamlit_kwargs)
  else Raise Unmodelled.

Definition _render_single_number_input (session_state_get : string -> pyval)
  (ui : InputUI) (key : string) (property : dict) : result rendered :=
  let widget_key := str_of_int (run_id ui) ++ "-" ++ _key ui ++ "-" ++ key in
  streamlit_kwargs <-
    number_input_kwargs (session_state_get widget_key) ui key property ;;
  let overwrite_kwargs := _get_overwrite_streamlit_kwargs key property in
  if dict_mem "min_value" streamlit_kwargs && dict_mem "max_value" streamlit_kwargs
  then Ok (HostWidget "slider" (dict_merge streamlit_kwargs overwrite_kwargs))
  else Ok (HostWidget "number_input" (dict_merge streamlit_kwargs overwrite_kwargs)).

(** [_render_property] followed by the leaf renderer it routes to, for the
    shapes whose renderer is embedded above. *)
Definition render_property_widget (session_state_get : string -> pyval)
  (ui : InputUI) (key : string) (property : dict) : result rendered :=
  r <- _render_property ui key property ;;
  match r with
  | Routed MultiEnum p => _render_multi_enum_input ui key p
  | Routed SingleColor p => _render_single_color_input ui key p
  | Routed SingleBoolean p => _render_single_boolean_input ui key p
  | Routed SingleNumber p => _render_single_number_input session_state_get ui key p
  | Routed SingleString p | Routed UntypedAsString p | Routed ArrayAsString p =>
      _render_single_string_input ui key p
  | other => Ok other
  end.

(* ================================================================= *)
(** ** ui_renderer.py: collection renderers *)

(** The collection renderers ask the host whether a button was pressed and
    what a text field holds, and call back into [_render_property] for
    every item. [button] is the host's answer for the button of a given
    widget key (it may raise), [text_input] the text of the key field of a
    dictionary row given its widget key and initial value, [render_child]
    the recursive call. *)
Section Collections.

Variable button : string -> result bool.
Variable text_input : string -> pyval -> string.
Variable render_child : InputUI -> string -> dict -> result (pyval * dict * InputUI).

(** [{**base, **v}]: [v] must be a mapping. *)
Definition py_splat (base : dict) (v : pyval) : result dict :=
  match v with
  | PDict d => Ok (dict_merge base d)
  | _ => Raise TypeError
  end.

Definition item_key (ui : InputUI) (parent_key : string) (index : nat) : string :=
  _key ui ++ "-" ++ parent_key ++ "." ++ str_of_int (Z.of_nat index).

(** The node a list item is rendered with (lines 870-876). *)
Definition list_item_property (value : pyval) (index : nat) (property : dict)
  : result dict :=
  items <- schema_utils.get_property_items (PDict property) ;;
  py_splat
    [("title", PStr ("Item #" ++ str_of_int (Z.of_nat index + 1)));
     ("init_value", if truthy value then value else PNone);
     ("is_item", PBool true);
     ("readOnly", dict_get "readOnly" property)]
    items.

(** Returns the item's value ([None] when it was removed) and the
    renderer's state. *)
Definition _render_list_item (ui : InputUI) (parent_key : string) (value : pyval)
  (index : nat) (property : dict) : result (pyval * InputUI) :=
  let new_key := item_key ui parent_key index in
  protected <- _remove_button_allowed (Z.of_nat index) property ;;
  remove <- (if (protected : bool) then Ok false else button (new_key ++ "-remove")) ;;
  if negb remove then
    new_property <- list_item_property value index property ;;
    out <- render_child ui new_key new_property ;;
    let '(v, _, ui) := out in
    Ok (v, ui)
  else Ok (PNone, ui).

(** [data_list.append(None)] inside [try ... except Exception]: a failing
    button or a value without [append] leaves the list as it was. *)
Definition _render_list_add_button (ui : InputUI) (key : string) (data_list : pyval)
  : pyval :=
  match button (_key ui ++ "-" ++ key ++ "list-add-item") with
  | Ok true =>
      match data_list with
      | PList l => PList (l ++ [PNone])
      | _ => data_list
      end
  | _ => data_list
  end.

Definition _render_list_clear_button (ui : InputUI) (key : string) (data_list : pyval)
  : pyval :=
  match button (_key ui ++ "_" ++ key ++ "-list_clear-all") with
  | Ok true => PList []
  | _ => data_list
  end.

(** Where the list being edited lives; appending to it shows there. *)
Inductive data_source : Type := FromStore | FromInitValue | FromDefault | Fresh.

(** Lines 1043-1050. *)
Definition list_input_data (ui : InputUI) (key : string) (property : dict)
  : result (pyval * data_source * InputUI) :=
  let '(r1, ui) := _get_value ui key in
  v1 <- r1 ;;
  from_store <-
    (if negb (is_none v1) then Ok (true, ui)
     else
       let '(r2, ui) := _get_value ui key in
       v2 <- r2 ;;
       Ok (py_eq v2 (PList []), ui)) ;;
  let '(hit, ui) := from_store in
  if (hit : bool) then
    let '(r3, ui) := _get_value ui key in
    v3 <- r3 ;;
    Ok (v3, FromStore, ui)
  else if truthy (dict_get "init_value" property)
  then Ok (dict_get "init_value" property, FromInitValue, ui)
  else if truthy (dict_get "default" property)
  then Ok (dict_get "default" property, FromDefault, ui)
  else Ok (PList [], Fresh, ui).

(** The list or dictionary after the add button, seen from the place it
    is shared with. *)
Definition write_back_data (ui : InputUI) (key : string) (property : dict)
  (source : data_source) (data_list : pyval) : dict * InputUI :=
  match source with
  | FromStore =>
      (property,
       with_session_input ui (snd (_store_value_in_state (session_input ui) key data_list)))
  | FromInitValue => (dict_set "init_value" data_list property, ui)
  | FromDefault => (dict_set "default" data_list property, ui)
  | Fresh => (property, ui)
  end.

(** The loop of lines 1062-1071 over the items still to render. *)
Fixpoint list_items_loop (ui : InputUI) (key : string) (property : dict)
  (items : list pyval) (index : nat) (object_list : list pyval)
  : result (list pyval * InputUI) :=
  match items with
  | [] => Ok (object_list, ui)
  | item :: rest =>
      out <- _render_list_item ui key item index property ;;
      let '(output, ui) := out in
      let object_list :=
        if negb (is_none output) then (object_list ++ [output])%list else object_list in
      list_items_loop ui key property rest (S index) object_list
  end.

(** Returns [object_list], the node as the call leaves it and the
    renderer's state. *)
Definition _render_list_input (ui : InputUI) (key : string) (property : dict)
  : result (list pyval * dict * InputUI) :=
  items <- schema_utils.get_property_items (PDict property) ;;
  _ <- py_get items "$ref" ;;
  found <- list_input_data ui key property ;;
  let '(data_list, source, ui) := found in
  let data_list := _render_list_add_button ui key data_list in
  let '(property, ui) := write_back_data ui key property source data_list in
  clear_allowed <- _clear_button_allowed property ;;
  let data_list :=
    if (clear_allowed : bool) then _render_list_clear_button ui key data_list
    else data_list in
  n <- py_len data_list ;;
  if Nat.ltb 0 n then
    items <- py_iter data_list ;;
    out <- list_items_loop ui key property items O [] ;;
    let '(object_list, ui) := out in
    _ <- _add_button_allowed (Z.of_nat (List.length object_list)) property ;;
    Ok (object_list, property, ui)
  else Ok ([], property, ui).

(** [data_dict[str(len(data_dict) + 1)] = None] when the button is
    pressed. *)
Definition _render_dict_add_button (ui : InputUI) (key : string) (data_dict : pyval)
  : result pyval :=
  pressed <- button (_key ui ++ "-" ++ key ++ "-add-item") ;;
  if (pressed : bool) then
    n <- py_len data_dict ;;
    py_setitem data_dict (str_of_int (Z.of_nat n + 1)) PNone
  else Ok data_dict.

Definition _render_dict_clear_button (ui : InputUI) (key : string) (data_dict : pyval)
  : result pyval :=
  pressed <- button (_key ui ++ "-" ++ key ++ "-clear-all") ;;
  if (pressed : bool) then Ok (PDict []) else Ok data_dict.

(** Returns [(updated_key, updated_value)], both [None] for a removed
    row, and the renderer's state. *)
Definition _render_dict_item (ui : InputUI) (parent_key : string)
  (in_value : string * pyval) (index : nat) (property : dict)
  : result (pyval * pyval * InputUI) :=
  let new_key := item_key ui parent_key index in
  let '(dict_key, dict_value) := in_value in
  protected <- _remove_button_allowed (Z.of_nat index) property ;;
  remove <- (if (protected : bool) then Ok false else button (new_key ++ "-remove")) ;;
  if negb remove then
    let updated_key := text_input (new_key ++ "-key") (PStr dict_key) in
    additional <- dict_item "additionalProperties" property ;;
    new_property <-
      py_splat
        [("title", PStr "Value"); ("init_value", dict_value);
         ("is_item", PBool true); ("readOnly", dict_get "readOnly" property)]
        additional ;;
    out <- render_child ui (new_key ++ "-value") new_property ;;
    let '(updated_value, _, ui) := out in
    Ok (PStr updated_key, updated_value, ui)
  else Ok (PNone, PNone, ui).

(** The loop of lines 602-612 over the rows still to render. *)
Fixpoint dict_items_loop (ui : InputUI) (key : string) (property : dict)
  (rows : dict) (index : nat) (new_dict : dict) : result (dict * InputUI) :=
  match rows with
  | [] => Ok (new_dict, ui)
  | row :: rest =>
      out <- _render_dict_item ui key row index property ;;
      let '(updated_key, updated_value, ui) := out in
      let new_dict :=
        match updated_key with
        | PStr k => if negb (is_none updated_value)
                    then dict_set k updated_value new_dict else new_dict
        | _ => new_dict
        end in
      dict_items_loop ui key property rest (S index) new_dict
  end.

(** Lines 581-586. *)
Definition dict_input_data (ui : InputUI) (key : string) (property : dict)
  : result (pyval * data_source * InputUI) :=
  let '(r1, ui) := _get_value ui key in
  v1 <- r1 ;;
  from_store <-
    (if negb (is_none v1) then Ok (true, ui)
     else
       let '(r2, ui) := _get_value ui key in
       v2 <- r2 ;;
       Ok (py_eq v2 (PDict []), ui)) ;;
  let '(hit, ui) := from_store in
  if (hit : bool) then
    let '(r3, ui) := _get_value ui key in
    v3 <- r3 ;;
    Ok (v3, FromStore, ui)
  else if truthy (dict_get "init_value" property)
  then Ok (dict_get "init_value" property, FromInitValue, ui)
  else Ok (PDict [], Fresh, ui).

(** Returns [new_dict], the node as the call leaves it and the renderer's
    state. *)
Definition _render_single_dict_input (ui : InputUI) (key : string) (property : dict)
  : result (dict * dict * InputUI) :=
  found <- dict_input_data ui key property ;;
  let '(data_dict, source, ui) := found in
  additional <- dict_item "additionalProperties" property ;;
  _ <- py_get additional "$ref" ;;
  allowed <- _clear_button_allowed property ;;
  data_dict <-
    (if (allowed : bool) then _render_dict_add_button ui key data_dict
     else Ok data_dict) ;;
  let '(property, ui) := write_back_data ui key property source data_dict in
  allowed <- _clear_button_allowed property ;;
  data_dict <-
    (if (allowed : bool) then _render_dict_clear_button ui key data_dict
     else Ok data_dict) ;;
  match data_dict with
  | PDict rows =>
      out <- dict_items_loop ui key property rows O [] ;;
      let '(new_dict, ui) := out in
      Ok (new_dict, property, ui)
  | _ => Raise AttributeError
  end.

End Collections.

(* ================================================================= *)
(** ** Reference readings and sample schemas *)

(** Definitions the statements below are phrased with, and the concrete
    schemas, stores and validators they are evaluated on. *)

(** The store after a write of [f] to the mapping under [path]. *)
Fixpoint update_at (state : pyval) (path : list string) (f : dict -> dict) : pyval :=
  match path with
  | [] => match state with PDict d => PDict (f d) | _ => state end
  | p :: rest =>
      match state with
      | PDict d =>
          match dict_lookup p d with
          | Some child => PDict (dict_set p (update_at child rest f) d)
          | None => state
          end
      | _ => state
      end
  end.

(** [x["properties"][d]["enum"]] of a candidate branch, when every
    subscript finds a mapping and its key. *)
Definition discriminator_enum (d : string) (x : pyval) : option pyval :=
  walk x ["properties"; d; "enum"].

(** A discriminated union [Pet = Dog | Cat] on the property [kind]; both
    branches share the optional field [name]. *)
Definition dog_definition : pyval :=
  PDict [("title", PStr "Dog"); ("type", PStr "object");
         ("properties",
          PDict [("kind", PDict [("enum", PList [PStr "dog"]); ("type", PStr "string")]);
                 ("name", PDict [("type", PStr "string")])])].

Definition cat_definition : pyval :=
  PDict [("title", PStr "Cat"); ("type", PStr "object");
         ("properties",
          PDict [("kind", PDict [("enum", PList [PStr "cat"]); ("type", PStr "string")]);
                 ("name", PDict [("type", PStr "string")])])].

Definition pet_references : dict :=
  [("Dog", dog_definition); ("Cat", cat_definition)].

Definition tom : dict := [("kind", PStr "cat"); ("name", PStr "Tom")].

(** The union node with the instance [tom] and a class hint that names the
    other branch. *)
Definition pet_property : dict :=
  [("title", PStr "Pet");
   ("discriminator", PDict [("propertyName", PStr "kind")]);
   ("oneOf", PList [PDict [("$ref", PStr "#/$defs/Dog")];
                    PDict [("$ref", PStr "#/$defs/Cat")]]);
   ("init_value", PDict tom);
   ("instance_class", PStr "<class 'Dog'>")].

(** An optional mapping field, [Optional[Dict[str, str]]]: no [type] of its
    own, the mapping shape in the first [anyOf] branch. *)
Definition optional_tags_property : dict :=
  [("title", PStr "Tags");
   ("anyOf", PList [PDict [("type", PStr "object");
                           ("additionalProperties", PDict [("type", PStr "string")])];
                    PDict [("type", PStr "null")]]);
   ("default", PNone)].

(** The value [_render_single_enum_input] looks up in the option list to
    preselect an option: a truthy [init_value], else a [default] that is
    not [None]. *)
Definition seed_value (property : dict) : option pyval :=
  if truthy (dict_get "init_value" property) then Some (dict_get "init_value" property)
  else if negb (is_none (dict_get "default" property))
       then Some (dict_get "default" property)
       else None.

(** A renderer with an empty store and an empty references table. *)
Definition sample_ui : InputUI :=
  {| _key := "form"; _lowercase_labels := false; _ignore_empty_values := false;
     _return_model := true; run_id := 0; _schema_references := [];
     session_input := [] |}.

(** A literal field [kind: Literal["cat"] = "dog"]: one option, and a
    default that is not that option. *)
Definition kind_with_foreign_default : dict :=
  [("default", PStr "dog"); ("enum", PList [PStr "cat"]);
   ("title", PStr "Kind"); ("type", PStr "string")].

(** The same field with the default [kind: Literal["cat"] = "cat"]. *)
Definition kind_literal : dict :=
  [("default", PStr "cat"); ("enum", PList [PStr "cat"]);
   ("title", PStr "Kind"); ("type", PStr "string")].

(** An object definition with fixed properties. *)
Definition address_definition : pyval :=
  PDict [("title", PStr "Address"); ("type", PStr "object");
         ("properties", PDict [("city", PDict [("type", PStr "string")])])].

(** A node that is an object with [additionalProperties] and also refers
    to an object definition with fixed properties. *)
Definition dict_and_reference_node : dict :=
  [("title", PStr "Address"); ("type", PStr "object");
   ("additionalProperties", PDict [("type", PStr "string")]);
   ("$ref", PStr "#/$defs/Address")].

(** A [bytes] field. *)
Definition bytes_node : dict :=
  [("title", PStr "Upload"); ("type", PStr "string"); ("format", PStr "byte")].

(** A node with a literal [enum] next to a reference that resolves to
    nothing, and a set-like array whose items are such a node. *)
Definition enum_with_dangling_reference : dict :=
  [("enum", PList [PStr "a"; PStr "b"]); ("$ref", PStr "#/$defs/Missing")].

Definition set_of_enum_with_dangling_reference : dict :=
  [("type", PStr "array"); ("uniqueItems", PBool true);
   ("items", PDict enum_with_dangling_reference)].

(** An enum field and a set of enums whose definition [Colour] is not in
    the references table, without a literal [enum]. *)
Definition dangling_reference_node : dict :=
  [("title", PStr "Colour"); ("allOf", PList [PDict [("$ref", PStr "#/$defs/Colour")]])].

Definition set_of_dangling_reference : dict :=
  [("type", PStr "array"); ("uniqueItems", PBool true);
   ("items", PDict [("$ref", PStr "#/$defs/Colour")])].

(** A title helper and a child renderer to run the object renderer with:
    the child answers with its seeded default, or the empty string. *)
Definition plain_title (name : string) : string := name.

Definition fallback_child (ui : InputUI) (key : string) (property : dict)
  : result (pyval * dict * InputUI) :=
  Ok (dict_get_default "default" (PStr EmptyString) property, property, ui).

(** An object definition as [_render_single_object_input] hands it over,
    its aggregated default being text that is not JSON. *)
Definition address_with_undecodable_default : dict :=
  [("title", PStr "Address"); ("type", PStr "object");
   ("properties", PDict [("city", PDict [("type", PStr "string")]);
                         ("zip", PDict [("type", PStr "string")])]);
   ("init_value", PNone); ("default", PStr "not json"); ("readOnly", PNone)].

(** A property that refers to the [Address] definition and carries such a
    default. *)
Definition address_reference_with_undecodable_default : dict :=
  [("title", PStr "Address");
   ("allOf", PList [PDict [("$ref", PStr "#/$defs/Address")]]);
   ("default", PStr "not json")].

(** A structural error: path segments that are all strings, and a
    message. *)
Definition structural_error (error : dict) (segments : list string) (msg : string)
  : Prop :=
  dict_lookup "loc" error = Some (PList (map PStr segments)) /\
  dict_lookup "msg" error = Some (PStr msg).

(** What the warning gains for one structural error: a blank line, the
    dotted path in bold with every [__root__.] removed, and the message. *)
Definition warning_line (segments : list string) (msg : string) : string :=
  nl ++ nl ++ ("**" ++ str_remove_all "__root__." (str_join "." segments) ++ ":** ")
     ++ msg.

Definition warning_lines (described : list (list string * string)) : string :=
  fold_right (fun d rest => warning_line (fst d) (snd d) ++ rest) EmptyString described.

(** The mapping the loops descend into at a segment of a dictionary: the
    one stored there, or the fresh one they create. *)
Definition child_at (k : string) (d : dict) : pyval :=
  match dict_lookup k d with Some c => c | None => PDict [] end.

(** The shape a node of type [string] is given, by its [format]. *)
Definition string_shape (format : pyval) : shape :=
  if eq_str format "byte" then SingleFile
  else if in_strs format ["date-time"; "time"; "date"] then SingleDatetime
  else if in_strs format ["color"] then SingleColor
  else SingleString.

(** A union branch that is nothing but a reference. *)
Definition bare_reference (branch : pyval) : Prop :=
  exists d, branch = PDict d /\
            dict_get "type" d = PNone /\
            truthy (dict_get "$ref" d) = true.

(** The value the text widget is seeded with: the first truthy one of
    [init_value], [default] and [example]. *)
Definition string_seed (property : dict) : option pyval :=
  if truthy (dict_get "init_value" property) then Some (dict_get "init_value" property)
  else if truthy (dict_get "default" property) then Some (dict_get "default" property)
  else if truthy (dict_get "example" property) then Some (dict_get "example" property)
  else None.

(** A store with one nested entry, a list node with a protected first
    item, and hosts that press no button or exactly one. *)
Definition ada_store : dict := [("user", PDict [("name", PStr "Ada")])].

Definition tags_node : dict :=
  [("title", PStr "Tags"); ("type", PStr "array");
   ("items", PDict [("type", PStr "string")]); ("minItems", PInt 1)].

(** A field [limits: Dict[str, int]]. *)
Definition limits_node : dict :=
  [("title", PStr "Limits"); ("type", PStr "object");
   ("additionalProperties", PDict [("type", PStr "integer")])].

(** The properties of a model with the fields [name: str = "x"] and
    [age: int]. *)
Definition person_properties : dict :=
  [("name", PDict [("default", PStr "x"); ("title", PStr "Name");
                   ("type", PStr "string")]);
   ("age", PDict [("title", PStr "Age"); ("type", PStr "integer")])].

Definition no_button (widget_key : string) : result bool := Ok false.

Definition only_button (pressed widget_key : string) : result bool :=
  Ok (String.eqb widget_key pressed).

(** A child renderer that answers with the value it was seeded with. *)
Definition echo_child (ui : InputUI) (key : string) (property : dict)
  : result (pyval * dict * InputUI) :=
  Ok (dict_get "init_value" property, property, ui).

(** A key field the user leaves as it is. *)
Definition same_text (widget_key : string) (value : pyval) : string :=
  match value with PStr s => s | _ => EmptyString end.

Definition codes_node : dict :=
  [("title", PStr "Codes"); ("type", PStr "array");
   ("items", PDict [("$ref", PStr "#/$defs/Code")])].

Definition flags_node : dict :=
  [("title", PStr "Flags"); ("type", PStr "array");
   ("items", PDict [("$ref", PStr "#/$defs/Flag")])].

Definition tuple_items_node : dict :=
  [("title", PStr "Names"); ("type", PStr "array");
   ("items", PList [PDict [("type", PStr "string")]])].

Definition blank_default_node : dict :=
  [("title", PStr "Name"); ("type", PStr "string"); ("default", PStr EmptyString)].

Definition age_node : dict :=
  [("title", PStr "Age"); ("type", PStr "integer");
   ("minimum", PInt 0); ("maximum", PInt 10)].


Definition colour_set_node : dict :=
  [("title", PStr "Colours"); ("type", PStr "array"); ("uniqueItems", PBool true);
   ("items", PList [PDict [("enum", PList [PStr "red"; PStr "green"])]])].

Definition bird : dict := [("kind", PStr "bird"); ("name", PStr "Tweety")].

Definition catalog_definition : pyval :=
  PDict [("title", PStr "Cat"); ("type", PStr "object"); ("properties", PDict [])].

Definition quoted (s : string) : string :=
  String (ascii_of_nat 34) (s ++ String (ascii_of_nat 34) EmptyString).

(** An object with a prior instance and a JSON default. *)
Definition seeded_address : dict :=
  [("title", PStr "Address");
   ("properties", PDict [("city", PDict [("type", PStr "string")])]);
   ("init_value", PDict [("city", PStr "Bonn")]);
   ("default", PStr ("{" ++ quoted "city" ++ ": " ++ quoted "Aachen" ++ "}"))].

(* ----------------------------------------------------------------- *)
(** *** Hosts nobody interacts with, and further sample schemas *)

(** The answer of an option widget nobody has touched: the option at
    [index], the first one when no [index] is given. *)
Definition preselected_option (kwargs : dict) : pyval :=
  match dict_get "options" kwargs, dict_get_default "index" (PInt 0) kwargs with
  | PList options, PInt i => nth (Z.to_nat i) options PNone
  | _, _ => PNone
  end.

(** [titles] are the [title] entries of the branches, in order. *)
Definition branch_titles (reference_items : list pyval) (titles : list string) : Prop :=
  Forall2 (fun x t => py_item x "title" = Ok (PStr t)) reference_items titles.








(** A union without discriminator whose instance is of a class
    [Catalog]; one branch is titled [Cat]. *)
Definition entry_references : dict :=
  [("Dog", dog_definition); ("Cat", catalog_definition)].

Definition entry_property : dict :=
  [("title", PStr "Entry");
   ("anyOf", PList [PDict [("$ref", PStr "#/$defs/Dog")];
                    PDict [("$ref", PStr "#/$defs/Cat")]]);
   ("init_value", PDict [("pages", PInt 3)]);
   ("instance_class", PStr "<class 'Catalog'>")].

(** A literal field [kind: Literal["cat"]] of an instance whose value is
    not the option. *)
Definition kind_with_foreign_init_value : dict :=
  [("enum", PList [PStr "cat"]); ("title", PStr "Kind"); ("type", PStr "string");
   ("init_value", PStr "dog")].

(** The answer of a text widget nobody has typed into: its [value], or
    the empty string. *)
Definition untouched_text (kwargs : dict) : pyval :=
  dict_get_default "value" (PStr EmptyString) kwargs.

(** [_render_property] on a string node, the text widget being left as it
    is shown. *)
Definition render_untouched_text (ui : InputUI) (key : string) (property : dict)
  : result (pyval * dict * InputUI) :=
  r <- _render_property ui key property ;;
  match r with
  | Routed SingleString p =>
      w <- _render_single_string_input ui key p ;;
      match w with
      | HostWidget _ kwargs => Ok (untouched_text kwargs, p, ui)
      | _ => Raise Unmodelled
      end
  | _ => Raise Unmodelled
  end.

(** [_render_property] on a list of strings: the dispatcher, then
    [_render_list_input] with the item widgets left as they are shown. *)
Definition render_text_list (button : string -> result bool)
  (ui : InputUI) (key : string) (property : dict)
  : result (pyval * dict * InputUI) :=
  r <- _render_property ui key property ;;
  match r with
  | Routed ListAndObject p =>
      out <- _render_list_input button render_untouched_text ui key p ;;
      let '(object_list, p, ui) := out in
      Ok (PList object_list, p, ui)
  | _ => Raise Unmodelled
  end.

(** One turn of the loop of [render_ui] over the properties (lines
    179-231), for a property rendered in the main container; [render] is
    [_render_property] with the widgets it leads to. *)
Definition render_ui_property
  (render : InputUI -> string -> dict -> result (pyval * dict * InputUI))
  (_name_to_title : string -> string)
  (instance_dict instance_dict_by_alias : option dict) (attr_type : option string)
  (ui : InputUI) (property_key : string) (property : dict)
  : result (dict * InputUI) :=
  let property :=
    seed_top_level_property _name_to_title instance_dict instance_dict_by_alias
                            attr_type property_key property in
  out <- render ui property_key property ;;
  let '(value, property, ui) := out in
  let '(ignored, ui) := _is_value_ignored ui property_key value in
  ignored <- ignored ;;
  if (ignored : bool) then Ok (property, ui)
  else
    let '(stored, ui) := _store_value ui property_key value in
    _ <- stored ;;
    Ok (property, ui).

(** What the model validator answers for a model with the one field
    [tags: List[constr(min_length=1)]]: one [string_too_short] error per
    blank item, located by the field name and the item's index. The
    validator is the host's; this is its answer on the states used below. *)
Fixpoint too_short_errors (field : string) (items : list pyval) (index : Z)
  : list dict :=
  match items with
  | [] => []
  | PStr EmptyString :: rest =>
      [("type", PStr "string_too_short");
       ("loc", PList [PStr field; PInt index]);
       ("msg", PStr "String should have at least 1 character");
       ("input", PStr EmptyString)]
      :: too_short_errors field rest (index + 1)
  | _ :: rest => too_short_errors field rest (index + 1)
  end.

Definition tags_validator (state : dict) : validation :=
  match dict_lookup "tags" state with
  | Some (PList items) =>
      match too_short_errors "tags" items 0 with
      | [] => Valid (PDict state)
      | errors => Invalid errors
      end
  | _ =>
      Invalid [[("type", PStr "missing"); ("loc", PList [PStr "tags"]);
                ("msg", PStr "Field required")]]
  end.

(** The attribute dictionary of the model class, cut down to entries that
    are values here: the fields of a model are no attributes of its
    class. *)
Definition basket_class_dict : dict :=
  [("__module__", PStr "__main__"); ("__doc__", PNone)].

(** The schema node of the field [tags: List[constr(min_length=1)]]. *)
Definition named_tags_node : dict :=
  [("title", PStr "Tags"); ("type", PStr "array");
   ("items", PDict [("type", PStr "string"); ("minLength", PInt 1)])].

(* ================================================================= *)
(** * Properties *)

(* ----------------------------------------------------------------- *)
(** ** Dictionaries and comparison *)

Lemma dict_lookup_set_same (k : string) (v : pyval) (d : dict) :
  dict_lookup k (dict_set k v d) = Some v.
Proof.
  induction d as [|[k' v'] r IH]; simpl.
  - now rewrite String.eqb_refl.
  - destruct (String.eqb k k') eqn:E; simpl; rewrite E; auto.
Qed.

Lemma dict_lookup_set_other (k k0 : string) (v : pyval) (d : dict) :
  k0 <> k -> dict_lookup k0 (dict_set k v d) = dict_lookup k0 d.
Proof.
  intros Hne. induction d as [|[k' v'] r IH]; simpl.
  - destruct (String.eqb k0 k) eqn:E; auto.
    apply String.eqb_eq in E. contradiction.
  - destruct (String.eqb k k') eqn:E; simpl.
    + apply String.eqb_eq in E. subst k'.
      destruct (String.eqb k0 k) eqn:E0; auto.
      apply String.eqb_eq in E0. contradiction.
    + now rewrite IH.
Qed.

Lemma dict_set_missing (k : string) (v : pyval) (d : dict) :
  dict_lookup k d = None -> dict_set k v d = (d ++ [(k, v)])%list.
Proof.
  induction d as [|[k' v'] r IH]; simpl; intros H; auto.
  destruct (String.eqb k k'); [discriminate|].
  now rewrite IH.
Qed.

Lemma dict_set_twice (k : string) (v w : pyval) (d : dict) :
  dict_set k w (dict_set k v d) = dict_set k w d.
Proof.
  induction d as [|[k' v'] r IH]; simpl.
  - now rewrite String.eqb_refl.
  - destruct (String.eqb k k') eqn:E; simpl; rewrite E; auto.
    now rewrite IH.
Qed.

Create Rewrite HintDb pydict.
#[local] Hint Rewrite dict_lookup_set_same dict_set_twice : pydict.

Lemma dict_mem_lookup (k : string) (d : dict) :
  dict_mem k d = false <-> dict_lookup k d = None.
Proof.
  unfold dict_mem. destruct (dict_lookup k d); split; congruence.
Qed.

(** Comparison with a string literal holds of that string only. *)
Lemma eq_str_true (v : pyval) (c : string) : eq_str v c = true <-> v = PStr c.
Proof.
  unfold eq_str. split.
  - destruct v; simpl; try discriminate.
    intros H. apply String.eqb_eq in H. now subst.
  - intros ->. simpl. apply String.eqb_refl.
Qed.

Lemma split_on_not_nil (sep : ascii) (s : string) : split_on sep s <> [].
Proof.
  destruct s as [|c r]; simpl; [discriminate|].
  destruct (Ascii.eqb c sep); [discriminate|].
  destruct (split_on sep r); discriminate.
Qed.

(* ----------------------------------------------------------------- *)
(** ** Collection affordances *)

(** C3. For every list node and every index, [_remove_button_allowed]
    returns [True] whenever [index + 1 <= minItems], a missing [minItems]
    counting as 0. *)
Theorem remove_button_allowed_within_min_items :
  forall (index : Z) (property : dict) (m : Z),
    min_items property = Some m ->
    index + 1 <= m ->
    _remove_button_allowed index property = Ok true.
Proof.
  intros index property m Hmin Hle.
  unfold _remove_button_allowed.
  destruct (is_True (dict_get "readOnly" property)); [reflexivity|].
  unfold min_items in Hmin. unfold dict_get_default.
  destruct (dict_lookup "minItems" property) as [v|].
  - destruct v; try discriminate. injection Hmin as ->. simpl.
    f_equal. now apply Z.leb_le.
  - injection Hmin as <-. simpl. f_equal. now apply Z.leb_le.
Qed.

Lemma remove_button_allowed_within_min_items_witness :
  min_items [("type", PStr "array"); ("minItems", PInt 2)] = Some 2 /\
  1 + 1 <= 2 /\
  _remove_button_allowed 1 [("type", PStr "array"); ("minItems", PInt 2)] = Ok true.
Proof.
  split; [reflexivity|]. split; [lia|].
  apply (remove_button_allowed_within_min_items 1 _ 2); [reflexivity|lia].
Defined.

(* ----------------------------------------------------------------- *)
(** ** The path-keyed state store *)

(** The loop at a segment that is not the last one. *)
Lemma get_loop_step (state : pyval) (k k1 : string) (rest : list string) :
  get_loop state (k :: k1 :: rest) =
  match py_in (PStr k) state with
  | Raise e => (Raise e, state)
  | Ok present =>
      match (if present then Ok state else py_setitem state k (PDict [])) with
      | Raise e => (Raise e, state)
      | Ok state1 =>
          match py_item state1 k with
          | Raise e => (Raise e, state1)
          | Ok child =>
              let '(r, child') := get_loop child (k1 :: rest) in
              match py_setitem state1 k child' with
              | Ok state2 => (r, state2)
              | Raise _ => (r, state1)
              end
          end
      end
  end.
Proof. reflexivity. Qed.

(** Reading through a fresh empty mapping: every segment but the last is
    created on the way. *)
Lemma get_loop_fresh (path : list string) (last : string) :
  get_loop (PDict []) (path ++ [last]) = (Ok PNone, nest_empty path).
Proof.
  induction path as [|k path IH]; [reflexivity|].
  change ((k :: path) ++ [last])%list with (k :: (path ++ [last]))%list.
  destruct (path ++ [last])%list as [|k1 rest] eqn:E.
  { destruct path; discriminate. }
  rewrite get_loop_step.
  cbn [py_in dict_mem dict_lookup py_setitem dict_set py_item].
  unfold dict_item. cbn [dict_lookup]. rewrite String.eqb_refl. rewrite IH.
  reflexivity.
Qed.

(** One step of the loop through a segment that is present. *)
Lemma get_loop_present (d : dict) (k k1 : string) (rest : list string) (child : pyval) :
  dict_lookup k d = Some child ->
  get_loop (PDict d) (k :: k1 :: rest) =
  (fst (get_loop child (k1 :: rest)),
   PDict (dict_set k (snd (get_loop child (k1 :: rest))) d)).
Proof.
  intros H. rewrite get_loop_step. cbn [py_in]. unfold dict_mem. rewrite H.
  cbn [py_item]. unfold dict_item. rewrite H.
  destruct (get_loop child (k1 :: rest)) as [r c']. reflexivity.
Qed.

(** The first missing segment, when segments follow it. *)
Lemma get_loop_missing (d : dict) (k : string) (post : list string) (last : string) :
  dict_lookup k d = None ->
  get_loop (PDict d) (k :: post ++ [last]) =
  (Ok PNone, PDict (dict_set k (nest_empty post) d)).
Proof.
  intros H.
  destruct (post ++ [last])%list as [|k1 rest] eqn:E.
  { destruct post; discriminate. }
  rewrite get_loop_step. cbn [py_in]. unfold dict_mem. rewrite H.
  cbn [py_setitem py_item]. unfold dict_item. rewrite dict_lookup_set_same.
  rewrite <- E. rewrite get_loop_fresh.
  cbn [py_setitem]. now rewrite dict_set_twice.
Qed.

(** The last segment, missing from its parent mapping. *)
Lemma get_loop_last_missing (d : dict) (k : string) :
  dict_lookup k d = None -> get_loop (PDict d) [k] = (Ok PNone, PDict d).
Proof.
  intros H. cbn [get_loop py_in]. unfold dict_mem. now rewrite H.
Qed.

Lemma get_loop_walk_missing (pre post : list string) (k : string) :
  forall (state : pyval) (d : dict),
    walk state pre = Some (PDict d) ->
    dict_lookup k d = None ->
    get_loop state (pre ++ k :: post) =
    (Ok PNone,
     match post with
     | [] => state
     | _ :: _ => update_at state pre (dict_set k (nest_empty (removelast post)))
     end).
Proof.
  induction pre as [|p pre IH]; intros state d Hwalk Hk.
  - simpl in Hwalk. injection Hwalk as ->. simpl app.
    destruct post as [|q post].
    + now apply get_loop_last_missing.
    + rewrite (app_removelast_last (l := q :: post) EmptyString) by discriminate.
      rewrite get_loop_missing by assumption.
      rewrite <- (app_removelast_last (l := q :: post) EmptyString) by discriminate.
      reflexivity.
  - simpl in Hwalk. destruct state as [| | | | |d0]; try discriminate.
    destruct (dict_lookup p d0) as [child|] eqn:Hp; [|discriminate].
    change ((p :: pre) ++ k :: post)%list with (p :: (pre ++ k :: post))%list.
    destruct (pre ++ k :: post)%list as [|k1 rest] eqn:E.
    { destruct pre; discriminate. }
    rewrite (get_loop_present _ _ _ _ _ Hp).
    rewrite (IH child d Hwalk Hk). cbn [fst snd].
    destruct post as [|q post].
    + f_equal. f_equal.
      clear -Hp. induction d0 as [|[k' v'] r IHr]; simpl in *; [discriminate|].
      destruct (String.eqb p k') eqn:Ek.
      * apply String.eqb_eq in Ek. subst. now injection Hp as ->.
      * now rewrite IHr.
    + cbn [update_at]. now rewrite Hp.
Qed.

Lemma walk_app (p q : list string) :
  forall state,
    walk state (p ++ q) =
    match walk state p with Some s => walk s q | None => None end.
Proof.
  induction p as [|k p IH]; intros state; [reflexivity|].
  simpl. destruct state; auto.
  destruct (dict_lookup k d); auto.
Qed.

Lemma walk_nest_empty (path : list string) :
  walk (nest_empty path) path = Some (PDict []).
Proof.
  induction path as [|k path IH]; [reflexivity|].
  simpl. now rewrite String.eqb_refl.
Qed.

Lemma walk_update_at (pre : list string) (f : dict -> dict) :
  forall state d,
    walk state pre = Some (PDict d) ->
    walk (update_at state pre f) pre = Some (PDict (f d)).
Proof.
  induction pre as [|p pre IH]; intros state d H; simpl in *.
  - now injection H as ->.
  - destruct state; try discriminate.
    destruct (dict_lookup p d0) as [child|] eqn:Hp; [|discriminate].
    simpl. rewrite dict_lookup_set_same. now apply IH.
Qed.

Lemma update_at_dict (d : dict) (pre : list string) (f : dict -> dict) :
  PDict (as_dict (update_at (PDict d) pre f) d) = update_at (PDict d) pre f.
Proof.
  destruct pre as [|p pre]; simpl; [reflexivity|].
  destruct (dict_lookup p d); reflexivity.
Qed.

(** C9, as stated, fails: in the store [{"a": 5}] the intermediate segment
    [b] of the key [a.b.c] is missing, and the read raises [TypeError]
    instead of returning [None], the value stored under [a] being no
    mapping. *)
Lemma get_value_below_leaf_raises :
  split_on "." "a.b.c" = ["a"; "b"; "c"] /\
  walk (PDict [("a", PInt 5)]) ["a"; "b"] = None /\
  fst (_get_value_from_state [("a", PInt 5)] "a.b.c") = Raise TypeError /\
  fst (_get_value_from_state [("a", PInt 5)] "a.b.c") <> Ok PNone.
Proof.
  split; [reflexivity|]. split; [reflexivity|]. split; [reflexivity|].
  discriminate.
Qed.

(** C9, amended. For every state mapping and every dotted key, if walking
    the key's segments through the nested mappings reaches a mapping that
    lacks the next segment, [_get_value_from_state] returns [None] and
    raises nothing; the lacking segment may be an intermediate one ([post]
    not empty) or the final one ([post] empty, its parent mapping
    existing). *)
Theorem get_value_missing_segment_is_none :
  forall (state : dict) (key : string) (pre post : list string) (k : string)
         (d : dict),
    split_on "." key = (pre ++ k :: post)%list ->
    walk (PDict state) pre = Some (PDict d) ->
    dict_lookup k d = None ->
    fst (_get_value_from_state state key) = Ok PNone.
Proof.
  intros state key pre post k d Hsplit Hwalk Hk.
  unfold _get_value_from_state. rewrite Hsplit.
  rewrite (get_loop_walk_missing pre post k (PDict state) d Hwalk Hk).
  reflexivity.
Qed.

Lemma get_value_missing_segment_is_none_witness :
  split_on "." "user.address.city" = (["user"] ++ "address" :: ["city"])%list /\
  walk (PDict [("user", PDict [("name", PStr "Ada")])]) ["user"]
    = Some (PDict [("name", PStr "Ada")]) /\
  dict_lookup "address" [("name", PStr "Ada")] = None /\
  fst (_get_value_from_state [("user", PDict [("name", PStr "Ada")])]
                             "user.address.city") = Ok PNone.
Proof.
  split; [reflexivity|]. split; [reflexivity|]. split; [reflexivity|].
  apply (get_value_missing_segment_is_none
           [("user", PDict [("name", PStr "Ada")])] "user.address.city"
           ["user"] ["city"] "address" [("name", PStr "Ada")]);
    reflexivity.
Defined.

(** C10. [_get_value_from_state] is not read-only: when an intermediate
    segment [k] of the key is missing from the mapping reached so far, the
    read returns [None] and leaves a store in which [k] and every
    intermediate segment after it hold a fresh mapping, nested one in the
    other and ending in an empty one. So [k], unreachable before the read,
    is reachable after it. *)
Theorem get_value_creates_missing_intermediates :
  forall (state : dict) (key : string) (pre post : list string) (k last : string)
         (d : dict),
    split_on "." key = (pre ++ k :: post ++ [last])%list ->
    walk (PDict state) pre = Some (PDict d) ->
    dict_lookup k d = None ->
    _get_value_from_state state key =
      (Ok PNone,
       as_dict (update_at (PDict state) pre (dict_set k (nest_empty post))) state) /\
    walk (PDict state) (pre ++ [k]) = None /\
    walk (PDict (snd (_get_value_from_state state key))) (pre ++ k :: post)
      = Some (PDict []).
Proof.
  intros state key pre post k last d Hsplit Hwalk Hk.
  assert (Hget : _get_value_from_state state key =
      (Ok PNone,
       as_dict (update_at (PDict state) pre (dict_set k (nest_empty post))) state)).
  { unfold _get_value_from_state. rewrite Hsplit.
    rewrite (get_loop_walk_missing pre (post ++ [last]) k (PDict state) d Hwalk Hk).
    destruct (post ++ [last])%list as [|q rest] eqn:E.
    { destruct post; discriminate. }
    rewrite <- E. now rewrite removelast_last. }
  split; [exact Hget|]. split.
  - rewrite walk_app, Hwalk. simpl. now rewrite Hk.
  - rewrite Hget. cbn [snd]. rewrite update_at_dict.
    rewrite walk_app. rewrite (walk_update_at pre _ _ d Hwalk).
    simpl. rewrite dict_lookup_set_same. apply walk_nest_empty.
Qed.

Lemma get_value_creates_missing_intermediates_witness :
  _get_value_from_state [] "a.b.c" = (Ok PNone, [("a", PDict [("b", PDict [])])]).
Proof.
  exact (proj1 (get_value_creates_missing_intermediates
                  [] "a.b.c" [] ["b"] "a" "c" [] eq_refl eq_refl eq_refl)).
Defined.

(* ----------------------------------------------------------------- *)
(** ** Union disambiguation *)

Lemma discriminator_matches_enum (property ivd : dict) (d : string) (v e x : pyval) :
  dict_lookup "init_value" property = Some (PDict ivd) ->
  dict_lookup d ivd = Some v ->
  discriminator_enum d x = Some e ->
  discriminator_matches property (PStr d) x = Ok (py_eq e (PList [v])).
Proof.
  intros Hiv Hv He. unfold discriminator_enum in He. simpl in He.
  destruct x as [| | | | |xd]; try discriminate.
  destruct (dict_lookup "properties" xd) as [props|] eqn:Hp; [|discriminate].
  destruct props as [| | | | |pd]; try discriminate.
  destruct (dict_lookup d pd) as [dp|] eqn:Hd; [|discriminate].
  destruct dp as [| | | | |dpd]; try discriminate.
  destruct (dict_lookup "enum" dpd) as [e0|] eqn:Hen; [|discriminate].
  injection He as ->.
  unfold discriminator_matches, py_item, py_subscript, dict_item.
  rewrite Hp. cbn [bind]. rewrite Hd. cbn [bind]. rewrite Hen. cbn [bind].
  rewrite Hiv. cbn [bind]. rewrite Hv. reflexivity.
Qed.

(** The search stops at the first candidate whose test holds, when the
    tests before it ran and failed. *)
Lemma next_index_first (test : pyval -> result bool) :
  forall (xs : list pyval) (i0 i : nat) (x : pyval),
    nth_error xs i = Some x ->
    test x = Ok true ->
    (forall j y, (j < i)%nat -> nth_error xs j = Some y -> test y = Ok false) ->
    next_index test xs i0 = Ok (i0 + i)%nat.
Proof.
  induction xs as [|y xs IH]; intros i0 i x Hnth Hx Hbefore.
  - destruct i; discriminate.
  - destruct i as [|i]; simpl in Hnth.
    + injection Hnth as ->. simpl. rewrite Hx. simpl. f_equal. lia.
    + simpl. rewrite (Hbefore O y); [|lia|reflexivity]. simpl.
      rewrite (IH (S i0) i x Hnth Hx).
      * f_equal. lia.
      * intros j z Hj Hz. apply (Hbefore (S j) z); [lia|exact Hz].
Qed.

Lemma seed_item_nth (v : pyval) :
  forall (xs : list pyval) (i : nat) (x x' : pyval),
    nth_error xs i = Some x ->
    py_setitem x "init_value" v = Ok x' ->
    exists xs', seed_item xs i v = Ok xs' /\ nth_error xs' i = Some x'.
Proof.
  induction xs as [|y xs IH]; intros i x x' Hnth Hset.
  - destruct i; discriminate.
  - destruct i as [|i]; simpl in Hnth.
    + injection Hnth as ->. simpl. rewrite Hset. simpl. eauto.
    + destruct (IH i x x' Hnth Hset) as [xs' [H1 H2]].
      simpl. rewrite H1. simpl. eauto.
Qed.

Lemma dict_get_lookup (k : string) (d : dict) (v : pyval) :
  dict_lookup k d = Some v -> dict_get k d = v.
Proof. unfold dict_get. now intros ->. Qed.

(** Case analysis on the first test or bind of a hypothesis. *)
Ltac break_in H :=
  match type of H with
  | context [bind ?m _] =>
      let E := fresh "E" in destruct m eqn:E; cbn [bind] in H
  | context [if ?b then _ else _] =>
      let E := fresh "E" in destruct b eqn:E
  | context [let '(_, _) := ?p in _] => destruct p
  end; try discriminate.

Lemma dict_lookup_not_in (k : string) (d : dict) :
  ~ In k (map fst d) -> dict_lookup k d = None.
Proof.
  induction d as [|[k' v'] r IH]; simpl; intros H; [reflexivity|].
  destruct (String.eqb k k') eqn:E.
  - apply String.eqb_eq in E. subst. tauto.
  - apply IH. tauto.
Qed.

Lemma dict_lookup_combine (k : string) (v : pyval) :
  forall (ks : list string) (vs : list pyval) (i : nat),
    NoDup ks ->
    nth_error ks i = Some k ->
    nth_error vs i = Some v ->
    dict_lookup k (combine ks vs) = Some v.
Proof.
  induction ks as [|k0 ks IH]; intros vs i Hnd Hk Hv.
  - destruct i; discriminate.
  - destruct vs as [|v0 vs]; [destruct i; discriminate|].
    inversion Hnd as [|? ? Hfresh Hnd']; subst.
    destruct i as [|i]; simpl in *.
    + injection Hk as ->. injection Hv as ->. now rewrite String.eqb_refl.
    + destruct (String.eqb k k0) eqn:E.
      * apply String.eqb_eq in E. subst k0.
        exfalso. apply Hfresh. eapply nth_error_In. exact Hk.
      * now apply (IH vs i).
Qed.

Lemma name_reference_mapping_distinct (_name_to_title : string -> string) :
  forall (reference_items : list pyval) (titles : list string) (acc : dict),
    branch_titles reference_items titles ->
    NoDup (map fst acc ++ map _name_to_title titles) ->
    name_reference_mapping _name_to_title reference_items acc
    = Ok (acc ++ combine (map _name_to_title titles) reference_items)%list.
Proof.
  intros reference_items titles acc H. revert acc.
  induction H as [|x t xs ts Hx _ IH]; intros acc Hnd; simpl.
  - now rewrite app_nil_r.
  - rewrite Hx. cbn [bind].
    rewrite dict_set_missing.
    + rewrite IH.
      * now rewrite <- app_assoc.
      * rewrite map_app, <- app_assoc. exact Hnd.
    + apply dict_lookup_not_in. intros Hin.
      apply NoDup_remove_2 in Hnd. apply Hnd. apply in_or_app. now left.
Qed.

Lemma seed_item_titles (v : pyval) :
  forall (xs xs' : list pyval) (i : nat) (titles : list string),
    seed_item xs i v = Ok xs' ->
    branch_titles xs titles -> branch_titles xs' titles.
Proof.
  induction xs as [|x xs IH]; intros xs' i titles H Ht.
  - destruct i; discriminate.
  - inversion Ht as [|? t ? ts Hx Hrest]; subst.
    destruct i as [|i]; simpl in H.
    + destruct x; try discriminate. simpl in H. injection H as <-.
      constructor; [|exact Hrest].
      unfold py_item, dict_item in *.
      rewrite dict_lookup_set_other by discriminate. exact Hx.
    + destruct (seed_item xs i v) as [rest'|] eqn:E; [|discriminate].
      simpl in H. injection H as <-.
      constructor; [exact Hx|]. now apply (IH rest' i).
Qed.

Lemma select_union_branch_titles (property : dict) (xs xs' : list pyval)
      (r : option nat) (titles : list string) :
  select_union_branch property xs = Ok (r, xs') ->
  branch_titles xs titles -> branch_titles xs' titles.
Proof.
  intros H Ht. unfold select_union_branch in H.
  destruct (truthy (dict_get "init_value" property)
            && truthy (dict_get "discriminator" property)).
  - repeat break_in H. injection H as _ <-. eapply seed_item_titles; eassumption.
  - destruct (truthy (dict_get "init_value" property)
              && truthy (dict_get "instance_class" property)).
    + repeat break_in H. injection H as _ <-. eapply seed_item_titles; eassumption.
    + injection H as _ <-. exact Ht.
Qed.

Lemma option_titles_of_mapping (_name_to_title : string -> string) :
  forall (titles : list string) (items : list pyval),
    List.length items = List.length titles ->
    map (fun kv : string * pyval => PStr (fst kv))
        (combine (map _name_to_title titles) items)
    = map (fun t => PStr (_name_to_title t)) titles.
Proof.
  induction titles as [|t ts IH]; intros [|x xs] Hlen; simpl in *;
    try discriminate; try reflexivity.
  f_equal. apply IH. congruence.
Qed.

(** What the option widget of a union is given and what its answer leads
    to, once a branch is preselected and the option titles are pairwise
    distinct. *)
Lemma union_renders_preselected_branch
      (_name_to_title : string -> string) (json_loads : pyval -> result pyval)
      (render_child : InputUI -> string -> dict -> result (pyval * dict * InputUI))
      (selectbox : dict -> pyval)
      (ui : InputUI) (key : string) (property : dict)
      (reference_items items' : list pyval) (titles : list string)
      (i : nat) (l t : string) (seeded : dict) :
  dict_lookup "title" property = Some (PStr l) ->
  schema_utils.get_union_references property (_schema_references ui)
    = Ok reference_items ->
  select_union_branch property reference_items = Ok (Some i, items') ->
  branch_titles reference_items titles ->
  NoDup (map _name_to_title titles) ->
  nth_error titles i = Some t ->
  nth_error items' i = Some (PDict seeded) ->
  exists kwargs mapping : dict,
    union_selectbox_kwargs _name_to_title ui key property = Ok (kwargs, mapping) /\
    dict_lookup "index" kwargs = Some (PInt (Z.of_nat i)) /\
    dict_lookup "options" kwargs
      = Some (PList (map (fun t => PStr (_name_to_title t)) titles)) /\
    dict_lookup (_name_to_title t) mapping = Some (PDict seeded) /\
    (selectbox kwargs = PStr (_name_to_title t) ->
     _render_union_property _name_to_title json_loads render_child selectbox
                            ui key property
     = _render_object_input _name_to_title json_loads render_child ui key seeded).
Proof.
  intros Htitle Hrefs Hsel Ht Hnd Hti Hxi.
  pose proof (select_union_branch_titles _ _ _ _ _ Hsel Ht) as Ht'.
  assert (Hmap : name_reference_mapping _name_to_title items' []
                 = Ok (combine (map _name_to_title titles) items')).
  { now rewrite (name_reference_mapping_distinct _ items' titles [] Ht' Hnd). }
  assert (Hkw : exists kw l',
             _get_default_streamlit_input_kwargs ui key property = Ok kw /\
             dict_lookup "label" kw = Some (PStr l')).
  { unfold _get_default_streamlit_input_kwargs.
    rewrite (dict_get_lookup _ _ _ Htitle).
    destruct (truthy (PStr l) && _lowercase_labels ui); cbn [bind];
      repeat match goal with
             | |- context [if ?b then _ else _] => destruct b
             end;
      eexists; eexists; (split; [reflexivity|]);
      rewrite ?dict_lookup_set_other by discriminate; reflexivity. }
  destruct Hkw as [kw [l' [Hkw Hlabel]]].
  assert (Hlen : List.length items' = List.length titles).
  { clear - Ht'. induction Ht'; simpl; congruence. }
  assert (Hlookup : dict_lookup (_name_to_title t)
                      (combine (map _name_to_title titles) items')
                    = Some (PDict seeded)).
  { apply (dict_lookup_combine _ _ _ _ i Hnd); [|exact Hxi].
    rewrite nth_error_map, Hti. reflexivity. }
  assert (Hk : union_selectbox_kwargs _name_to_title ui key property
               = Ok (dict_set "options"
                       (PList (map (fun t => PStr (_name_to_title t)) titles))
                       (dict_set "label" (PStr (l' ++ " - Options"))
                          (dict_set "index" (PInt (Z.of_nat i)) kw)),
                     combine (map _name_to_title titles) items')).
  { unfold union_selectbox_kwargs. rewrite Hkw. cbn [bind].
    rewrite Hrefs. cbn [bind]. rewrite Hsel. cbn [bind]. rewrite Hmap. cbn [bind].
    unfold dict_item. rewrite dict_lookup_set_other by discriminate.
    rewrite Hlabel. cbn [bind].
    now rewrite (option_titles_of_mapping _ _ _ Hlen). }
  eexists. eexists. split; [exact Hk|].
  split.
  { rewrite !dict_lookup_set_other by discriminate. apply dict_lookup_set_same. }
  split; [apply dict_lookup_set_same|].
  split; [exact Hlookup|].
  intros Hanswer. unfold _render_union_property. rewrite Hk. cbn [bind].
  rewrite Hanswer. cbn [py_subscript]. unfold dict_item. rewrite Hlookup.
  reflexivity.
Qed.







(* ----------------------------------------------------------------- *)
(** ** The field dispatcher *)

(** [_render_property] runs its classification on the flattened node. *)
Lemma render_property_after_flatten (ui : InputUI) (key : string) (property p1 : dict) :
  flatten_any_of property = Ok p1 ->
  _render_property ui key property =
  (p2 <- type_empty_first_item p1 ;;
   cl <- classify p2 (_schema_references ui) ;;
   let '(sh, p3) := cl in
   match sh with
   | SingleEnum => _render_single_enum_input ui key p3
   | _ => Ok (Routed sh p3)
   end).
Proof.
  intros H. unfold _render_property, prepare_property. now rewrite H.
Qed.

(** C7. For every node with no [type] key and an [anyOf] list whose first
    branch is a schema node, union flattening succeeds and leaves a node
    that carries the first branch's [type] (when the branch has one) and
    its [additionalProperties] (when present), every other key being as it
    was; the rest of [_render_property], classification included, runs on
    that node. *)
Theorem flatten_copies_first_any_of_branch :
  forall (property first : dict) (rest : list pyval),
    dict_lookup "type" property = None ->
    dict_lookup "anyOf" property = Some (PList (PDict first :: rest)) ->
    exists p1 : dict,
      flatten_any_of property = Ok p1 /\
      (forall t, dict_lookup "type" first = Some t ->
                 dict_lookup "type" p1 = Some t) /\
      (forall a, dict_lookup "additionalProperties" first = Some a ->
                 dict_lookup "additionalProperties" p1 = Some a) /\
      (dict_lookup "type" first = None -> dict_lookup "type" p1 = None) /\
      (dict_lookup "additionalProperties" first = None ->
       dict_lookup "additionalProperties" p1
       = dict_lookup "additionalProperties" property) /\
      (forall k, k <> "type" -> k <> "additionalProperties" ->
                 dict_lookup k p1 = dict_lookup k property) /\
      (forall ui key,
         _render_property ui key property =
         (p2 <- type_empty_first_item p1 ;;
          cl <- classify p2 (_schema_references ui) ;;
          let '(sh, p3) := cl in
          match sh with
          | SingleEnum => _render_single_enum_input ui key p3
          | _ => Ok (Routed sh p3)
          end)).
Proof.
  intros property first rest Htype Hany.
  assert (Hflat : flatten_any_of property =
    Ok (let p := match dict_lookup "type" first with
                 | Some t => dict_set "type" t property
                 | None => property
                 end in
        match dict_lookup "additionalProperties" first with
        | Some a => dict_set "additionalProperties" a p
        | None => p
        end)).
  { unfold flatten_any_of, dict_get. rewrite Htype, Hany.
    cbn [is_none negb andb py_item0 bind py_in py_item].
    unfold dict_mem, dict_item.
    destruct (dict_lookup "type" first) as [t|];
      destruct (dict_lookup "additionalProperties" first) as [a|]; reflexivity. }
  eexists. split; [exact Hflat|].
  cbv zeta.
  destruct (dict_lookup "type" first) as [t|] eqn:Ht;
    destruct (dict_lookup "additionalProperties" first) as [a|] eqn:Ha.
  all: repeat split; intros;
    try discriminate;
    try (apply render_property_after_flatten; exact Hflat);
    repeat match goal with
           | H : Some _ = Some _ |- _ => injection H as <-
           end;
    repeat (first [ progress autorewrite with pydict
                  | rewrite dict_lookup_set_other by (discriminate || congruence) ]);
    auto.
Qed.

Lemma flatten_copies_first_any_of_branch_witness :
  exists p1 : dict,
    flatten_any_of optional_tags_property = Ok p1 /\
    dict_lookup "type" p1 = Some (PStr "object") /\
    dict_lookup "additionalProperties" p1 = Some (PDict [("type", PStr "string")]).
Proof.
  destruct (flatten_copies_first_any_of_branch
              optional_tags_property
              [("type", PStr "object");
               ("additionalProperties", PDict [("type", PStr "string")])]
              [PDict [("type", PStr "null")]] eq_refl eq_refl)
    as [p1 [H1 [H2 [H3 _]]]].
  exists p1. split; [exact H1|]. split.
  - apply H2. reflexivity.
  - apply H3. reflexivity.
Defined.

(** C8, as stated, fails: a single-enum node with exactly one option whose
    seed (the default in the first node, the instance value in the second)
    is not that option is not answered with the option;
    [select_options.index(...)] raises [ValueError] first. *)
Lemma single_option_with_foreign_seed_raises :
  (schema_utils.is_single_enum_property kind_with_foreign_default [] = Ok true /\
   select_options_of kind_with_foreign_default [] = Ok (PList [PStr "cat"]) /\
   seed_value kind_with_foreign_default = Some (PStr "dog") /\
   _render_property sample_ui "kind" kind_with_foreign_default = Raise ValueError /\
   _render_property sample_ui "kind" kind_with_foreign_default
     <> Ok (Returned (PStr "cat"))) /\
  (schema_utils.is_single_enum_property kind_with_foreign_init_value [] = Ok true /\
   select_options_of kind_with_foreign_init_value [] = Ok (PList [PStr "cat"]) /\
   seed_value kind_with_foreign_init_value = Some (PStr "dog") /\
   _render_property sample_ui "kind" kind_with_foreign_init_value = Raise ValueError /\
   _render_property sample_ui "kind" kind_with_foreign_init_value
     <> Ok (Returned (PStr "cat"))).
Proof.
  split; (split; [reflexivity|]; split; [reflexivity|]; split; [reflexivity|];
          split; [reflexivity|discriminate]).
Qed.

(** C8, amended. For every node that [_render_property] prepares without
    error, classifies as a single enum and whose option list has exactly
    one element [v] (the widget's default keyword arguments being built
    without error): when the value looked up for preselection (a truthy
    [init_value], else a [default] that is not [None]) is absent or equals
    [v], the dispatcher returns [v] without calling a selection widget;
    when it differs from [v], the dispatcher raises [ValueError]. *)
Theorem single_option_enum_returned_directly :
  forall (ui : InputUI) (key : string) (property p' : dict) (v : pyval),
    prepare_property property = Ok p' ->
    schema_utils.is_single_enum_property p' (_schema_references ui) = Ok true ->
    select_options_of p' (_schema_references ui) = Ok (PList [v]) ->
    is_ok (_get_default_streamlit_input_kwargs ui key p') = true ->
    _render_property ui key property
    = match seed_value p' with
      | None => Ok (Returned v)
      | Some s => if py_eq v s then Ok (Returned v) else Raise ValueError
      end.
Proof.
  intros ui key property p' v Hprep Henum Hopts Hkw.
  unfold _render_property. rewrite Hprep. cbn [bind].
  unfold classify. rewrite Henum. cbn [bind].
  unfold _render_single_enum_input.
  destruct (_get_default_streamlit_input_kwargs ui key p') as [kw|]; [|discriminate].
  cbn [bind]. rewrite Hopts. cbn [bind].
  unfold seed_value.
  destruct (truthy (dict_get "init_value" p')).
  - cbn [py_index list_index].
    destruct (py_eq v (dict_get "init_value" p')); reflexivity.
  - destruct (negb (is_none (dict_get "default" p'))).
    + cbn [py_index list_index].
      destruct (py_eq v (dict_get "default" p')); reflexivity.
    + reflexivity.
Qed.

Lemma single_option_enum_returned_directly_witness :
  _render_property sample_ui "kind" kind_literal = Ok (Returned (PStr "cat")) /\
  _render_property sample_ui "kind" [("enum", PList [PStr "cat"]); ("type", PStr "string")]
    = Ok (Returned (PStr "cat")) /\
  _render_property sample_ui "kind" kind_with_foreign_init_value = Raise ValueError.
Proof.
  split; [|split].
  - apply (single_option_enum_returned_directly
             sample_ui "kind" kind_literal kind_literal (PStr "cat"));
      reflexivity.
  - apply (single_option_enum_returned_directly
             sample_ui "kind" _ [("enum", PList [PStr "cat"]); ("type", PStr "string")]
             (PStr "cat"));
      reflexivity.
  - apply (single_option_enum_returned_directly
             sample_ui "kind" kind_with_foreign_init_value
             kind_with_foreign_init_value (PStr "cat"));
      reflexivity.
Defined.

(* ----------------------------------------------------------------- *)
(** ** Shape predicates *)

(** The predicates that wrap their probe in [try ... except Exception]
    never raise. *)
Lemma is_single_enum_property_total (property references : dict) :
  exists b, schema_utils.is_single_enum_property property references = Ok b.
Proof.
  unfold schema_utils.is_single_enum_property.
  destruct (truthy (dict_get "enum" property)); [eauto|].
  match goal with |- context [try_except ?body _] => destruct body end;
    simpl; eauto.
Qed.

Lemma is_multi_enum_property_total (property references : dict) :
  exists b, schema_utils.is_multi_enum_property property references = Ok b.
Proof.
  unfold schema_utils.is_multi_enum_property.
  destruct (negb (eq_str (dict_get "type" property) "array")); [eauto|].
  destruct (negb (is_True (dict_get "uniqueItems" property))); [eauto|].
  match goal with |- context [match ?body with Ok _ => _ | Raise _ => _ end] =>
    destruct body end; [eauto|].
  match goal with |- context [try_except ?body _] => destruct body end;
    simpl; eauto.
Qed.

(** C5, as stated, fails: one node satisfies both [is_single_dict_property]
    and [is_single_object], and a [bytes] field satisfies both the file and
    the string predicate. *)
Lemma dict_and_object_predicates_overlap :
  schema_utils.is_single_dict_property dict_and_reference_node = true /\
  schema_utils.is_single_object dict_and_reference_node
    [("Address", address_definition)] = Ok true /\
  schema_utils.is_single_file_property bytes_node = true /\
  schema_utils.is_single_string_property bytes_node = true.
Proof. repeat split. Qed.

(** C5, amended. The shape predicates overlap; [_render_property] settles
    the shape by the order of its tests. For every node it prepares without
    error and for which [is_single_dict_property] holds, it takes the
    single-enum path if [is_single_enum_property] holds as well and the
    dictionary path otherwise, and so never the single-object path,
    whether or not [is_single_object] holds. *)
Theorem dict_shape_wins_over_object :
  forall (ui : InputUI) (key : string) (property p' : dict),
    prepare_property property = Ok p' ->
    schema_utils.is_single_dict_property p' = true ->
    exists b : bool,
      schema_utils.is_single_enum_property p' (_schema_references ui) = Ok b /\
      classify p' (_schema_references ui)
        = Ok (if b then SingleEnum else SingleDict, p') /\
      _render_property ui key property =
        if b then _render_single_enum_input ui key p'
        else Ok (Routed SingleDict p').
Proof.
  intros ui key property p' Hprep Hdict.
  destruct (is_single_enum_property_total p' (_schema_references ui)) as [b Hb].
  exists b. split; [exact Hb|].
  assert (Hcl : classify p' (_schema_references ui)
                = Ok (if b then SingleEnum else SingleDict, p')).
  { unfold classify. rewrite Hb. cbn [bind]. destruct b; [reflexivity|].
    unfold schema_utils.is_single_dict_property in Hdict.
    destruct (eq_str (dict_get "type" p') "object") eqn:Et; [|discriminate].
    cbn [negb] in Hdict.
    pose proof Et as Et'. apply eq_str_true in Et'.
    unfold schema_utils.is_multi_enum_property, schema_utils.is_single_file_property,
      schema_utils.is_multi_file_property, schema_utils.is_single_datetime_property,
      schema_utils.is_single_color_property, schema_utils.is_single_boolean_property,
      schema_utils.is_single_dict_property.
    rewrite Et'. cbn. now rewrite Hdict. }
  split; [exact Hcl|].
  unfold _render_property. rewrite Hprep. cbn [bind]. rewrite Hcl. cbn [bind].
  destruct b; reflexivity.
Qed.

Lemma dict_shape_wins_over_object_witness :
  schema_utils.is_single_object dict_and_reference_node
    [("Address", address_definition)] = Ok true /\
  _render_property (with_schema_references sample_ui [("Address", address_definition)])
                   "address" dict_and_reference_node
  = Ok (Routed SingleDict dict_and_reference_node).
Proof.
  split; [reflexivity|].
  destruct (dict_shape_wins_over_object
              (with_schema_references sample_ui [("Address", address_definition)])
              "address" dict_and_reference_node dict_and_reference_node
              eq_refl eq_refl) as [b [Hb [_ H]]].
  assert (Hfalse : b = false) by (vm_compute in Hb; congruence).
  rewrite Hfalse in H. exact H.
Defined.

Lemma resolve_reference_missing (r : string) (references : dict) :
  dict_mem (last (split_on "/" r) EmptyString) references = false ->
  schema_utils.resolve_reference (PStr r) references = Raise KeyError.
Proof.
  intros H. apply dict_mem_lookup in H.
  unfold schema_utils.resolve_reference, dict_item. now rewrite H.
Qed.

(** C6, as stated, fails: the reference of the node (of its items) names
    no definition, and the predicates return [True], not [False]. *)
Lemma dangling_reference_with_literal_enum_is_enum :
  schema_utils.single_reference enum_with_dangling_reference
    = Ok (PStr "#/$defs/Missing") /\
  schema_utils.resolve_reference (PStr "#/$defs/Missing") [] = Raise KeyError /\
  schema_utils.is_single_enum_property enum_with_dangling_reference [] = Ok true /\
  schema_utils.is_single_enum_property enum_with_dangling_reference [] <> Ok false /\
  (items <- schema_utils.get_property_items (PDict set_of_enum_with_dangling_reference) ;;
   py_item items "$ref") = Ok (PStr "#/$defs/Missing") /\
  schema_utils.is_multi_enum_property set_of_enum_with_dangling_reference [] = Ok true /\
  schema_utils.is_multi_enum_property set_of_enum_with_dangling_reference [] <> Ok false.
Proof. repeat split; discriminate. Qed.

(** C6, amended. When the reference a soft predicate would resolve names a
    definition missing from the references table, the predicate raises
    nothing and answers by the literal [enum] alone:
    [is_single_enum_property] returns whether the node's [enum] is truthy,
    [is_multi_enum_property] whether the node is a [uniqueItems] array
    whose items carry an [enum] key. Without a literal [enum] both return
    [False]. *)
Theorem soft_predicates_survive_missing_reference :
  forall (property references : dict) (r : string),
    dict_mem (last (split_on "/" r) EmptyString) references = false ->
    (schema_utils.single_reference property = Ok (PStr r) ->
     schema_utils.is_single_enum_property property references
     = Ok (truthy (dict_get "enum" property))) /\
    (forall items,
       schema_utils.get_property_items (PDict property) = Ok items ->
       py_item items "$ref" = Ok (PStr r) ->
       schema_utils.is_multi_enum_property property references
       = Ok (eq_str (dict_get "type" property) "array"
             && is_True (dict_get "uniqueItems" property)
             && is_ok (py_item items "enum"))).
Proof.
  intros property references r Hmissing. split.
  - intros Href. unfold schema_utils.is_single_enum_property.
    destruct (truthy (dict_get "enum" property)); [reflexivity|].
    unfold schema_utils.get_single_reference_item. rewrite Href. cbn [bind].
    now rewrite (resolve_reference_missing r references Hmissing).
  - intros items Hitems Hr. unfold schema_utils.is_multi_enum_property.
    destruct (eq_str (dict_get "type" property) "array"); [|reflexivity].
    destruct (is_True (dict_get "uniqueItems" property)); [|reflexivity].
    cbn [negb andb]. rewrite Hitems. cbn [bind].
    destruct (py_item items "enum") as [e|]; [reflexivity|].
    rewrite Hr. cbn [bind].
    now rewrite (resolve_reference_missing r references Hmissing).
Qed.

Lemma soft_predicates_survive_missing_reference_witness :
  dict_mem (last (split_on "/" "#/$defs/Colour") EmptyString) pet_references = false /\
  schema_utils.is_single_enum_property dangling_reference_node pet_references
    = Ok false /\
  schema_utils.is_multi_enum_property set_of_dangling_reference pet_references
    = Ok false.
Proof.
  split; [reflexivity|].
  split.
  - apply (proj1 (soft_predicates_survive_missing_reference
                    dangling_reference_node pet_references "#/$defs/Colour" eq_refl)).
    reflexivity.
  - apply (proj2 (soft_predicates_survive_missing_reference
                    set_of_dangling_reference pet_references "#/$defs/Colour" eq_refl)
             (PDict [("$ref", PStr "#/$defs/Colour")])); reflexivity.
Defined.

(* ----------------------------------------------------------------- *)
(** ** Nested objects *)

(** C2, as stated, fails: the undecodable default is not passed over in
    silence; [json.loads] raises and the exception leaves
    [_render_object_input]. *)
Lemma undecodable_default_escapes_object_input :
  json.loads (PStr "not json") = Raise JSONDecodeError /\
  _render_object_input plain_title json.loads fallback_child sample_ui "address"
                       address_with_undecodable_default
  = Raise JSONDecodeError /\
  _render_single_object_input
    plain_title json.loads fallback_child
    (with_schema_references sample_ui [("Address", address_definition)])
    "address" address_reference_with_undecodable_default
  = Raise JSONDecodeError.
Proof. repeat split. Qed.

(** C2, amended. When the aggregated default of an object node is a
    non-empty string that [json.loads] rejects, and the node has at least
    one property, [_render_object_input] raises the decoder's
    [JSONDecodeError] while seeding the first property: no child is
    rendered and nothing is returned. (A truthy [init_value] is taken to be
    a mapping, as a model dump is.) *)
Theorem undecodable_default_raises_in_object_input :
  forall (_name_to_title : string -> string)
         (json_loads : pyval -> result pyval)
         (render_child : InputUI -> string -> dict -> result (pyval * dict * InputUI))
         (ui : InputUI) (key : string) (property : dict)
         (k0 : string) (np : dict) (rest : dict) (s : string),
    dict_lookup "properties" property = Some (PDict ((k0, PDict np) :: rest)) ->
    dict_lookup "default" property = Some (PStr s) ->
    s <> EmptyString ->
    json_loads (PStr s) = Raise JSONDecodeError ->
    (truthy (dict_get "init_value" property) = true ->
     exists d, dict_lookup "init_value" property = Some (PDict d)) ->
    _render_object_input _name_to_title json_loads render_child ui key property
    = Raise JSONDecodeError.
Proof.
  intros title json_loads child ui key property k0 np rest s
         Hprops Hdefault Hs Hloads Hinit.
  assert (Hseed : seed_child title json_loads property k0 (PDict np)
                  = Raise JSONDecodeError).
  { unfold seed_child. cbn [bind].
    assert (Htd : truthy (dict_get "default" property) = true).
    { rewrite (dict_get_lookup _ _ _ Hdefault). simpl.
      destruct (String.eqb s EmptyString) eqn:E; [|reflexivity].
      apply String.eqb_eq in E. contradiction. }
    destruct (truthy (dict_get "init_value" property)) eqn:Hti.
    - destruct (Hinit eq_refl) as [d Hd].
      unfold dict_item. rewrite Hd. cbn [bind py_get].
      rewrite Htd. rewrite Hdefault. cbn [bind]. now rewrite Hloads.
    - cbn [bind]. rewrite Htd. unfold dict_item. rewrite Hdefault.
      cbn [bind]. now rewrite Hloads. }
  unfold _render_object_input, dict_item. rewrite Hprops. cbn [bind].
  cbn [map fst object_input_loop]. unfold dict_item. cbn [dict_lookup].
  rewrite String.eqb_refl. cbn [bind]. now rewrite Hseed.
Qed.

Lemma undecodable_default_raises_in_object_input_witness :
  _render_object_input plain_title json.loads fallback_child sample_ui "address"
                       address_with_undecodable_default
  = Raise JSONDecodeError.
Proof.
  apply (undecodable_default_raises_in_object_input
           plain_title json.loads fallback_child sample_ui "address"
           address_with_undecodable_default
           "city" [("type", PStr "string")]
           [("zip", PDict [("type", PStr "string")])] "not json");
    try reflexivity.
  - discriminate.
  - discriminate.
Defined.

(* ----------------------------------------------------------------- *)
(** ** Validation of the submitted state *)

Lemma str_app_assoc (a b c : string) : ((a ++ b) ++ c = a ++ (b ++ c))%string.
Proof. induction a as [|x a IH]; simpl; [reflexivity|]. now rewrite IH. Qed.

Lemma str_app_empty_r (a : string) : (a ++ EmptyString = a)%string.
Proof. induction a as [|x a IH]; simpl; [reflexivity|]. now rewrite IH. Qed.

Lemma all_strs_map (segments : list string) :
  all_strs (map PStr segments) = Ok segments.
Proof.
  induction segments as [|s segments IH]; simpl; [reflexivity|]. now rewrite IH.
Qed.

Lemma error_line_structural (error : dict) (segments : list string) (msg : string) :
  structural_error error segments msg ->
  error_line error = Ok (warning_line segments msg).
Proof.
  intros [Hloc Hmsg]. unfold error_line, dict_mem, dict_item, py_join.
  rewrite Hloc, Hmsg. cbn [andb bind py_iter]. rewrite all_strs_map. reflexivity.
Qed.

Lemma error_text_loop_structural (errors : list dict)
      (described : list (list string * string)) :
  Forall2 (fun e d => structural_error e (fst d) (snd d)) errors described ->
  forall error_text,
    error_text_loop error_text errors
    = Ok (error_text ++ warning_lines described).
Proof.
  induction 1 as [|e d errors described He _ IH]; intros error_text; simpl.
  - now rewrite str_app_empty_r.
  - rewrite (error_line_structural e _ _ He). cbn [bind].
    rewrite IH. now rewrite str_app_assoc.
Qed.

(** When every path segment of every error is a string, a failed
    validation is answered with [None] and one warning: the header, then
    one [warning_line] per error, in order. *)
Lemma validation_failure_warning_text
      (validate : dict -> validation) (ui : InputUI) (errors : list dict)
      (described : list (list string * string)) :
  _return_model ui = true ->
  validate (session_input ui) = Invalid errors ->
  Forall2 (fun e d => structural_error e (fst d) (snd d)) errors described ->
  render_ui_result validate ui
  = Ok (PNone, Some ("**Input failed validation:**" ++ warning_lines described)).
Proof.
  intros Hrm Hval Herrs. unfold render_ui_result. rewrite Hrm, Hval.
  now rewrite (error_text_loop_structural errors described Herrs).
Qed.

Lemma all_strs_index_segment (z : Z) :
  forall segments : list pyval,
    In (PInt z) segments -> all_strs segments = Raise TypeError.
Proof.
  induction segments as [|s rest IH]; intros Hin; [contradiction|].
  destruct Hin as [->|Hin]; [reflexivity|].
  destruct s; try reflexivity.
  simpl. now rewrite (IH Hin).
Qed.

Lemma error_line_index_segment (error : dict) (segments : list pyval) (z : Z) :
  dict_lookup "loc" error = Some (PList segments) ->
  dict_mem "msg" error = true ->
  In (PInt z) segments ->
  error_line error = Raise TypeError.
Proof.
  intros Hloc Hmsg Hin. unfold error_line, dict_mem at 1. rewrite Hloc, Hmsg.
  cbn [andb]. unfold dict_item. rewrite Hloc. cbn [bind].
  unfold py_join. cbn [py_iter bind].
  now rewrite (all_strs_index_segment z segments Hin).
Qed.

Lemma error_text_loop_index_segment (e : dict) (rest : list dict) :
  error_line e = Raise TypeError ->
  forall (errors : list dict) (described : list (list string * string)),
    Forall2 (fun e d => structural_error e (fst d) (snd d)) errors described ->
    forall error_text,
      error_text_loop error_text (errors ++ e :: rest) = Raise TypeError.
Proof.
  intros He. induction 1 as [|e0 d errors described H0 _ IH];
    intros error_text; simpl.
  - now rewrite He.
  - rewrite (error_line_structural e0 _ _ H0). cbn [bind]. apply IH.
Qed.

(** C4 where it fails. A validation error whose path holds a list index
    (pydantic locates an item of a list field by field name and index) is
    not turned into a warning and [None]: joining the path raises
    [TypeError] inside the handler, whatever the errors reported before it
    and after it, and that exception reaches the caller. *)
Theorem validation_error_with_index_segment_raises :
  forall (validate : dict -> validation) (ui : InputUI)
         (errors rest : list dict) (described : list (list string * string))
         (e : dict) (segments : list pyval) (z : Z),
    _return_model ui = true ->
    validate (session_input ui) = Invalid (errors ++ e :: rest) ->
    Forall2 (fun e d => structural_error e (fst d) (snd d)) errors described ->
    dict_lookup "loc" e = Some (PList segments) ->
    dict_mem "msg" e = true ->
    In (PInt z) segments ->
    render_ui_result validate ui = Raise TypeError.
Proof.
  intros validate ui errors rest described e segments z
         Hrm Hval Herrs Hloc Hmsg Hin.
  unfold render_ui_result. rewrite Hrm, Hval.
  rewrite (error_text_loop_index_segment e rest
             (error_line_index_segment e segments z Hloc Hmsg Hin)
             errors described Herrs).
  reflexivity.
Qed.

Lemma validation_error_with_index_segment_raises_witness :
  exists (property : dict) (ui : InputUI),
    render_ui_property (render_text_list (only_button "form-tagslist-add-item"))
      plain_title (Some basket_class_dict) None None
      sample_ui "tags" named_tags_node = Ok (property, ui) /\
    session_input ui = [("tags", PList [PStr EmptyString])] /\
    render_ui_result tags_validator ui = Raise TypeError.
Proof.
  eexists. eexists. split; [reflexivity|]. split; [reflexivity|].
  apply (validation_error_with_index_segment_raises
           tags_validator _ [] [] []
           [("type", PStr "string_too_short");
            ("loc", PList [PStr "tags"; PInt 0]);
            ("msg", PStr "String should have at least 1 character");
            ("input", PStr EmptyString)]
           [PStr "tags"; PInt 0] 0);
    try reflexivity.
  - constructor.
  - simpl. tauto.
Defined.

(** The handler's answer when the path is made of field names. *)
Example validation_error_with_field_path :
  render_ui_result
    (fun _ => Invalid [[("type", PStr "missing");
                        ("loc", PList [PStr "__root__"; PStr "owner"; PStr "name"]);
                        ("msg", PStr "Field required")]])
    sample_ui
  = Ok (PNone,
        Some ("**Input failed validation:**" ++ nl ++ nl
              ++ "**owner.name:** Field required")).
Proof. reflexivity. Qed.

(** A read through a stored value that is not a mapping is an error, not
    a miss. *)
Example get_value_through_leaf_raises :
  fst (_get_value_from_state [("a", PInt 5)] "a.b.c") = Raise TypeError.
Proof. reflexivity. Qed.

(** A union branch without the discriminator property ends the scan. *)
Example union_branch_without_discriminator_raises :
  select_union_branch pet_property
    [PDict [("title", PStr "Fish"); ("properties", PDict [])]; cat_definition]
  = Raise KeyError.
Proof. reflexivity. Qed.

(* ================================================================= *)
(** * Further properties of the embedded code *)

(* ----------------------------------------------------------------- *)
(** ** The state store: writes, reads and what they leave alone *)

Lemma dict_set_lookup_same (k : string) (v : pyval) (d : dict) :
  dict_lookup k d = Some v -> dict_set k v d = d.
Proof.
  induction d as [|[k' v'] r IH]; simpl; [discriminate|].
  destruct (String.eqb k k') eqn:E.
  - intros H. now injection H as ->.
  - intros H. now rewrite IH.
Qed.

Lemma store_loop_step (state : pyval) (k k1 : string) (rest : list string) (v : pyval) :
  store_loop state (k :: k1 :: rest) v =
  match py_in (PStr k) state with
  | Raise e => (Raise e, state)
  | Ok present =>
      match (if present then Ok state else py_setitem state k (PDict [])) with
      | Raise e => (Raise e, state)
      | Ok state1 =>
          match py_item state1 k with
          | Raise e => (Raise e, state1)
          | Ok child =>
              let '(r, child') := store_loop child (k1 :: rest) v in
              match py_setitem state1 k child' with
              | Ok state2 => (r, state2)
              | Raise _ => (r, state1)
              end
          end
      end
  end.
Proof. reflexivity. Qed.

Lemma store_loop_dict_step (d : dict) (k k1 : string) (rest : list string) (v : pyval) :
  store_loop (PDict d) (k :: k1 :: rest) v =
  (fst (store_loop (child_at k d) (k1 :: rest) v),
   PDict (dict_set k (snd (store_loop (child_at k d) (k1 :: rest) v)) d)).
Proof.
  rewrite store_loop_step. cbn [py_in]. unfold dict_mem, child_at.
  destruct (dict_lookup k d) as [c|] eqn:H.
  - cbn [py_item]. unfold dict_item. rewrite H.
    destruct (store_loop c (k1 :: rest) v) as [r c']. reflexivity.
  - cbn [py_setitem py_item]. unfold dict_item. rewrite dict_lookup_set_same.
    destruct (store_loop (PDict []) (k1 :: rest) v) as [r c'].
    cbn [py_setitem fst snd]. now rewrite dict_set_twice.
Qed.

Lemma get_loop_dict_step (d : dict) (k k1 : string) (rest : list string) :
  get_loop (PDict d) (k :: k1 :: rest) =
  (fst (get_loop (child_at k d) (k1 :: rest)),
   PDict (dict_set k (snd (get_loop (child_at k d) (k1 :: rest))) d)).
Proof.
  rewrite get_loop_step. cbn [py_in]. unfold dict_mem, child_at.
  destruct (dict_lookup k d) as [c|] eqn:H.
  - cbn [py_item]. unfold dict_item. rewrite H.
    destruct (get_loop c (k1 :: rest)) as [r c']. reflexivity.
  - cbn [py_setitem py_item]. unfold dict_item. rewrite dict_lookup_set_same.
    destruct (get_loop (PDict []) (k1 :: rest)) as [r c'].
    cbn [py_setitem fst snd]. now rewrite dict_set_twice.
Qed.

(** A write through a value that is not a dictionary fails. *)
Lemma store_loop_not_dict (s : pyval) (k : string) (rest : list string) (v : pyval) :
  (forall d, s <> PDict d) ->
  exists e, fst (store_loop s (k :: rest) v) = Raise e.
Proof.
  intros Hs. destruct rest as [|k1 rest].
  - destruct s as [| b | z | str | l | d];
      try (simpl; eexists; reflexivity). now destruct (Hs d).
  - rewrite store_loop_step.
    destruct s as [| b | z | str | l | d]; cbn [py_in];
      try (simpl; eexists; reflexivity).
    + destruct (is_substring k str); simpl; eexists; reflexivity.
    + destruct (existsb (py_eq (PStr k)) l); simpl; eexists; reflexivity.
    + now destruct (Hs d).
Qed.

Lemma store_loop_ok_dict (s s' : pyval) (k : string) (rest : list string) (v : pyval) :
  store_loop s (k :: rest) v = (Ok tt, s') -> exists d, s = PDict d.
Proof.
  intros H. destruct s; try (eexists; reflexivity);
    match goal with
    | H : store_loop ?s _ _ = _ |- _ =>
        destruct (store_loop_not_dict s k rest v) as [e He];
          [intros d; discriminate | rewrite H in He; discriminate]
    end.
Qed.

Lemma store_then_get_loop (v : pyval) :
  forall (ks : list string) (s s' : pyval),
    ks <> [] ->
    store_loop s ks v = (Ok tt, s') ->
    get_loop s' ks = (Ok v, s').
Proof.
  induction ks as [|k rest IH]; intros s s' Hne H; [contradiction|].
  destruct (store_loop_ok_dict _ _ _ _ _ H) as [d ->].
  destruct rest as [|k1 rest].
  - simpl in H. injection H as <-.
    cbn [get_loop py_in]. unfold dict_mem. rewrite dict_lookup_set_same.
    cbn [py_item]. unfold dict_item. now rewrite dict_lookup_set_same.
  - rewrite store_loop_dict_step in H.
    destruct (store_loop (child_at k d) (k1 :: rest) v) as [r c'] eqn:Hc.
    cbn [fst snd] in H. injection H as -> <-.
    rewrite get_loop_dict_step. unfold child_at at 1 2.
    rewrite dict_lookup_set_same.
    rewrite (IH _ _ ltac:(discriminate) Hc). cbn [fst snd].
    now rewrite dict_set_twice.
Qed.

Lemma store_loop_keeps_dict (d : dict) (ks : list string) (v : pyval) :
  exists d', snd (store_loop (PDict d) ks v) = PDict d'.
Proof.
  destruct ks as [|k [|k1 rest]]; simpl; eauto.
  change (exists d', snd (store_loop (PDict d) (k :: k1 :: rest) v) = PDict d').
  rewrite store_loop_dict_step. simpl. eauto.
Qed.

Lemma get_loop_keeps_dict (d : dict) (ks : list string) :
  exists d', snd (get_loop (PDict d) ks) = PDict d'.
Proof.
  destruct ks as [|k [|k1 rest]].
  - simpl. eauto.
  - simpl. destruct (dict_mem k d); simpl; eauto.
  - rewrite get_loop_dict_step. simpl. eauto.
Qed.

(** X1. A value written under a dotted key is what a read of that key
    returns, and that read changes nothing: whenever
    [_store_value_in_state] succeeds, [_get_value_from_state] on the
    resulting store returns the value and the same store. *)
Theorem store_then_get_returns_value :
  forall (state state' : dict) (key : string) (value : pyval),
    _store_value_in_state state key value = (Ok tt, state') ->
    _get_value_from_state state' key = (Ok value, state').
Proof.
  intros state state' key value H.
  unfold _store_value_in_state in H. unfold _get_value_from_state.
  destruct (store_loop (PDict state) (split_on "." key) value) as [r s] eqn:Hs.
  injection H as -> <-.
  destruct (store_loop_keeps_dict state (split_on "." key) value) as [d' Hd].
  rewrite Hs in Hd. cbn [snd] in Hd. subst s. cbn [as_dict].
  rewrite (store_then_get_loop value _ _ _ (split_on_not_nil _ _) Hs).
  reflexivity.
Qed.

Lemma get_loop_existing (ks : list string) :
  forall (s v : pyval),
    ks <> [] ->
    walk s ks = Some v ->
    get_loop s ks = (Ok v, s).
Proof.
  induction ks as [|k rest IH]; intros s v Hne H; [contradiction|].
  simpl in H. destruct s as [| | | | |d]; try discriminate.
  destruct (dict_lookup k d) as [c|] eqn:Hk; [|discriminate].
  destruct rest as [|k1 rest].
  - simpl in H. injection H as ->.
    cbn [get_loop py_in]. unfold dict_mem. rewrite Hk.
    cbn [py_item]. unfold dict_item. now rewrite Hk.
  - rewrite get_loop_dict_step. unfold child_at. rewrite Hk.
    rewrite (IH c v ltac:(discriminate) H). cbn [fst snd].
    now rewrite (dict_set_lookup_same _ _ _ Hk).
Qed.

(** X2. Reading a key whose every segment exists is read-only: the value
    at the end of the path is returned and the store is left exactly as it
    was. *)
Theorem get_value_existing_path_is_read_only :
  forall (state : dict) (key : string) (v : pyval),
    walk (PDict state) (split_on "." key) = Some v ->
    _get_value_from_state state key = (Ok v, state).
Proof.
  intros state key v H. unfold _get_value_from_state.
  now rewrite (get_loop_existing _ _ _ (split_on_not_nil _ _) H).
Qed.

Lemma store_loop_frame (d : dict) (k k' : string) (rest : list string) (v : pyval) :
  k' <> k ->
  exists d', snd (store_loop (PDict d) (k :: rest) v) = PDict d' /\
             dict_lookup k' d' = dict_lookup k' d.
Proof.
  intros Hne. destruct rest as [|k1 rest].
  - simpl. eexists. split; [reflexivity|]. now apply dict_lookup_set_other.
  - rewrite store_loop_dict_step. cbn [snd]. eexists. split; [reflexivity|].
    now apply dict_lookup_set_other.
Qed.

Lemma get_loop_frame (d : dict) (k k' : string) (rest : list string) :
  k' <> k ->
  exists d', snd (get_loop (PDict d) (k :: rest)) = PDict d' /\
             dict_lookup k' d' = dict_lookup k' d.
Proof.
  intros Hne. destruct rest as [|k1 rest].
  - simpl. destruct (dict_mem k d); simpl; eauto.
  - rewrite get_loop_dict_step. cbn [snd]. eexists. split; [reflexivity|].
    now apply dict_lookup_set_other.
Qed.

(** X3. Neither a write nor a read under a dotted key touches what the
    store holds under any top-level key other than the key's first
    segment, whether the call succeeds or raises. *)
Theorem store_and_get_leave_other_keys_alone :
  forall (state : dict) (key k' : string) (value : pyval),
    k' <> hd EmptyString (split_on "." key) ->
    dict_lookup k' (snd (_store_value_in_state state key value))
      = dict_lookup k' state /\
    dict_lookup k' (snd (_get_value_from_state state key))
      = dict_lookup k' state.
Proof.
  intros state key k' value Hne.
  unfold _store_value_in_state, _get_value_from_state.
  destruct (split_on "." key) as [|k rest] eqn:E.
  { now destruct (split_on_not_nil "." key). }
  cbn [hd] in Hne. split.
  - destruct (store_loop_frame state k k' rest value Hne) as [d' [Hd Hl]].
    destruct (store_loop (PDict state) (k :: rest) value) as [r s].
    cbn [snd] in *. subst s. exact Hl.
  - destruct (get_loop_frame state k k' rest Hne) as [d' [Hd Hl]].
    destruct (get_loop (PDict state) (k :: rest)) as [r s].
    cbn [snd] in *. subst s. exact Hl.
Qed.

Lemma store_twice_loop (v w : pyval) :
  forall (ks : list string) (s s' : pyval),
    ks <> [] ->
    store_loop s ks v = (Ok tt, s') ->
    store_loop s' ks w = store_loop s ks w.
Proof.
  induction ks as [|k rest IH]; intros s s' Hne H; [contradiction|].
  destruct (store_loop_ok_dict _ _ _ _ _ H) as [d ->].
  destruct rest as [|k1 rest].
  - simpl in H. injection H as <-. simpl. now rewrite dict_set_twice.
  - rewrite store_loop_dict_step in H.
    destruct (store_loop (child_at k d) (k1 :: rest) v) as [r c'] eqn:Hc.
    cbn [fst snd] in H. injection H as -> <-.
    rewrite !store_loop_dict_step. unfold child_at at 1 2.
    rewrite dict_lookup_set_same.
    rewrite (IH _ _ ltac:(discriminate) Hc).
    now rewrite dict_set_twice.
Qed.

(** X4. The last write wins and leaves no trace of the one before: after
    a successful write of [v] under a key, writing [w] under the same key
    gives the very store and outcome that writing [w] alone gives. *)
Theorem store_value_overwrites :
  forall (state state' : dict) (key : string) (v w : pyval),
    _store_value_in_state state key v = (Ok tt, state') ->
    _store_value_in_state state' key w = _store_value_in_state state key w.
Proof.
  intros state state' key v w H.
  unfold _store_value_in_state in *.
  destruct (store_loop (PDict state) (split_on "." key) v) as [r s] eqn:Hs.
  injection H as -> <-.
  destruct (store_loop_keeps_dict state (split_on "." key) v) as [d' Hd].
  rewrite Hs in Hd. cbn [snd] in Hd. subst s. cbn [as_dict].
  rewrite (store_twice_loop v w _ _ _ (split_on_not_nil _ _) Hs).
  destruct (store_loop_keeps_dict state (split_on "." key) w) as [d2 Hd2].
  destruct (store_loop (PDict state) (split_on "." key) w) as [r2 s2].
  cbn [snd] in Hd2. subst s2. reflexivity.
Qed.

Lemma store_then_get_returns_value_witness :
  _store_value_in_state ada_store "user.address.city" (PStr "Aachen")
    = (Ok tt, [("user", PDict [("name", PStr "Ada");
                               ("address", PDict [("city", PStr "Aachen")])])]) /\
  _get_value_from_state
    [("user", PDict [("name", PStr "Ada");
                     ("address", PDict [("city", PStr "Aachen")])])]
    "user.address.city"
  = (Ok (PStr "Aachen"),
     [("user", PDict [("name", PStr "Ada");
                      ("address", PDict [("city", PStr "Aachen")])])]).
Proof.
  split; [reflexivity|].
  apply (store_then_get_returns_value ada_store _ "user.address.city" (PStr "Aachen")).
  reflexivity.
Defined.

Lemma get_value_existing_path_is_read_only_witness :
  _get_value_from_state ada_store "user.name" = (Ok (PStr "Ada"), ada_store).
Proof.
  apply (get_value_existing_path_is_read_only ada_store "user.name" (PStr "Ada")).
  reflexivity.
Defined.

Lemma store_and_get_leave_other_keys_alone_witness :
  dict_lookup "user"
    (snd (_store_value_in_state ada_store "order.items" (PList [])))
    = dict_lookup "user" ada_store /\
  dict_lookup "user" (snd (_get_value_from_state ada_store "order.items.0"))
    = dict_lookup "user" ada_store.
Proof.
  apply (store_and_get_leave_other_keys_alone ada_store "order.items" "user" (PList [])).
  discriminate.
Defined.

Lemma store_value_overwrites_witness :
  _store_value_in_state
    (snd (_store_value_in_state ada_store "user.address.city" (PStr "Aachen")))
    "user.address.city" (PStr "Bonn")
  = _store_value_in_state ada_store "user.address.city" (PStr "Bonn").
Proof.
  apply (store_value_overwrites ada_store _ "user.address.city" (PStr "Aachen")).
  reflexivity.
Defined.

(* ----------------------------------------------------------------- *)
(** ** Collection affordances, taken together *)

Lemma read_only_default_irrelevant (property : dict) :
  is_True (dict_get_default "readOnly" (PBool false) property)
  = is_True (dict_get "readOnly" property).
Proof.
  unfold dict_get_default, dict_get.
  destruct (dict_lookup "readOnly" property); reflexivity.
Qed.

(** X5. Where clearing the whole collection is allowed, every single item
    can be removed as well: if [_clear_button_allowed] answers [True],
    [_remove_button_allowed] answers [False] (the remove button is shown)
    at every index from 0 on. *)
Theorem clear_allowed_means_every_item_removable :
  forall (index : Z) (property : dict),
    _clear_button_allowed property = Ok true ->
    0 <= index ->
    _remove_button_allowed index property = Ok false.
Proof.
  intros index property H Hidx.
  unfold _clear_button_allowed in H. unfold _remove_button_allowed.
  rewrite read_only_default_irrelevant in H.
  destruct (is_True (dict_get "readOnly" property)); [discriminate|].
  destruct (py_as_int (dict_get_default "minItems" (PInt 0) property)) as [m|];
    [|discriminate].
  cbn [bind] in *. injection H as H. f_equal.
  apply Z.leb_gt. destruct (m >? 0) eqn:E; [discriminate|].
  rewrite Z.gtb_ltb in E. apply Z.ltb_ge in E. lia.
Qed.

Lemma clear_allowed_means_every_item_removable_witness :
  _clear_button_allowed [("type", PStr "array"); ("minItems", PInt 0)] = Ok true /\
  _remove_button_allowed 0 [("type", PStr "array"); ("minItems", PInt 0)] = Ok false.
Proof.
  split; [reflexivity|].
  apply (clear_allowed_means_every_item_removable 0 _); [reflexivity|lia].
Defined.

(* ----------------------------------------------------------------- *)
(** ** Schema predicates *)

(** X6. The file, date-time and colour predicates each single out string
    nodes, and no node satisfies two of them: they refine
    [is_single_string_property] into disjoint cases by [format]. *)
Theorem string_format_predicates_refine_string :
  forall property : dict,
    (schema_utils.is_single_file_property property = true ->
     schema_utils.is_single_string_property property = true) /\
    (schema_utils.is_single_datetime_property property = true ->
     schema_utils.is_single_string_property property = true) /\
    (schema_utils.is_single_color_property property = true ->
     schema_utils.is_single_string_property property = true) /\
    schema_utils.is_single_file_property property
      && schema_utils.is_single_datetime_property property = false /\
    schema_utils.is_single_file_property property
      && schema_utils.is_single_color_property property = false /\
    schema_utils.is_single_datetime_property property
      && schema_utils.is_single_color_property property = false.
Proof.
  intros property.
  unfold schema_utils.is_single_file_property,
    schema_utils.is_single_datetime_property,
    schema_utils.is_single_color_property,
    schema_utils.is_single_string_property.
  destruct (eq_str (dict_get "type" property) "string"); cbn [negb];
    [|repeat split; discriminate].
  repeat split; try reflexivity.
  - destruct (eq_str (dict_get "format" property) "byte") eqn:E; [|reflexivity].
    apply eq_str_true in E. now rewrite E.
  - destruct (eq_str (dict_get "format" property) "byte") eqn:E; [|reflexivity].
    apply eq_str_true in E. now rewrite E.
  - destruct (in_strs (dict_get "format" property) ["color"]) eqn:E;
      [|apply andb_false_r].
    unfold in_strs in E. cbn [existsb] in E. rewrite orb_false_r in E.
    apply (eq_str_true _ "color") in E. now rewrite E.
Qed.

(** X7. An array whose items refer to a definition of a primitive type is
    a renderable list, and the reference is resolved in place: the answer
    is [True] and the node's [items] lose their [$ref] and gain the
    definition's [type]. *)
Theorem list_and_object_normalises_primitive_reference :
  forall (property references item od : dict) (r : string) (t : pyval),
    dict_lookup "type" property = Some (PStr "array") ->
    dict_lookup "items" property = Some (PDict item) ->
    dict_lookup "$ref" item = Some (PStr r) ->
    schema_utils.resolve_reference (PStr r) references = Ok (PDict od) ->
    dict_lookup "type" od = Some t ->
    in_strs t schema_utils.primitive_types = true ->
    schema_utils.is_property_list_and_object property references
    = Ok (true,
          dict_set "items"
            (PDict (dict_set "type" t (dict_remove "$ref" item))) property).
Proof.
  intros property references item od r t Htype Hitems Hr Hres Ht Hprim.
  unfold schema_utils.is_property_list_and_object,
    schema_utils.find_item_property, schema_utils.get_property_items.
  rewrite (dict_get_lookup _ _ _ Htype), (dict_get_lookup _ _ _ Hitems).
  cbn [eq_str py_eq String.eqb Ascii.eqb Bool.eqb negb is_none bind py_item].
  unfold dict_item. rewrite Hitems.
  cbn [bind py_in]. unfold dict_mem. rewrite Hr.
  cbn [py_item]. unfold dict_item. rewrite Hr. cbn [bind].
  rewrite Hres. cbn [bind py_item]. unfold dict_item. rewrite Ht.
  cbn [bind]. rewrite Hprim.
  cbn [schema_utils.py_pop]. unfold dict_mem. rewrite Hr.
  cbn [bind py_setitem py_get]. unfold dict_get.
  rewrite dict_lookup_set_same. rewrite Hprim.
  now rewrite dict_set_twice.
Qed.

Lemma list_and_object_normalises_primitive_reference_witness :
  schema_utils.is_property_list_and_object
    codes_node [("Code", PDict [("title", PStr "Code"); ("type", PStr "integer")])]
  = Ok (true, [("title", PStr "Codes"); ("type", PStr "array");
               ("items", PDict [("type", PStr "integer")])]).
Proof.
  apply (list_and_object_normalises_primitive_reference
           codes_node _ [("$ref", PStr "#/$defs/Code")]
           [("title", PStr "Code"); ("type", PStr "integer")]
           "#/$defs/Code" (PStr "integer")); reflexivity.
Defined.

Lemma no_reference_to_follow (property references : dict) :
  dict_lookup "$ref" property = None ->
  dict_lookup "allOf" property = None ->
  schema_utils.get_single_reference_item property references = Raise KeyError.
Proof.
  intros Href Hall.
  unfold schema_utils.get_single_reference_item, schema_utils.single_reference,
    dict_get, dict_item.
  now rewrite Href, Hall.
Qed.

Lemma not_enum_without_reference (property references : dict) :
  truthy (dict_get "enum" property) = false ->
  dict_lookup "$ref" property = None ->
  dict_lookup "allOf" property = None ->
  schema_utils.is_single_enum_property property references = Ok false.
Proof.
  intros He Href Hall. unfold schema_utils.is_single_enum_property.
  rewrite He. now rewrite (no_reference_to_follow _ _ Href Hall).
Qed.

Lemma not_object_without_reference (property references : dict) :
  dict_lookup "$ref" property = None ->
  dict_lookup "allOf" property = None ->
  schema_utils.is_single_object property references = Ok false.
Proof.
  intros Href Hall. unfold schema_utils.is_single_object.
  now rewrite (no_reference_to_follow _ _ Href Hall).
Qed.

Lemma list_and_object_rejects_other_types
      (property references item od : dict) (r : string) (t : pyval) :
  dict_lookup "type" property = Some (PStr "array") ->
  dict_lookup "items" property = Some (PDict item) ->
  dict_lookup "$ref" item = Some (PStr r) ->
  schema_utils.resolve_reference (PStr r) references = Ok (PDict od) ->
  dict_lookup "type" od = Some t ->
  in_strs t schema_utils.primitive_types = false ->
  eq_str t "object" = false ->
  schema_utils.is_property_list_and_object property references = Raise TypeError.
Proof.
  intros Htype Hitems Hr Hres Ht Hprim Hobj.
  unfold schema_utils.is_property_list_and_object,
    schema_utils.find_item_property, schema_utils.get_property_items.
  rewrite (dict_get_lookup _ _ _ Htype), (dict_get_lookup _ _ _ Hitems).
  cbn [eq_str py_eq String.eqb Ascii.eqb Bool.eqb negb is_none bind py_item].
  unfold dict_item. rewrite Hitems.
  cbn [bind py_in]. unfold dict_mem. rewrite Hr.
  cbn [py_item]. unfold dict_item. rewrite Hr. cbn [bind].
  rewrite Hres. cbn [bind py_item]. unfold dict_item. rewrite Ht.
  cbn [bind]. rewrite Hprim. now rewrite Hobj.
Qed.

(** A node with a [type] of its own (or without [anyOf]) whose [items] are
    not a non-empty list is classified as it stands. *)
Lemma prepare_property_unchanged (property : dict) :
  is_none (dict_get "type" property) && negb (is_none (dict_get "anyOf" property))
  = false ->
  match dict_lookup "items" property with
  | Some (PList (_ :: _)) => False
  | _ => True
  end ->
  prepare_property property = Ok property.
Proof.
  intros Hflat Hitems. unfold prepare_property, flatten_any_of.
  rewrite Hflat. cbn [bind]. unfold type_empty_first_item, dict_get_default.
  destruct (dict_lookup "items" property) as [[| | | |[|x xs]|]|];
    try reflexivity. contradiction.
Qed.

(** X8. An array whose items refer to a definition that is neither of a
    primitive type nor an object is a fatal classification error: for a
    plain array node (no enum, no reference of its own, not a set, items
    without a [format]) [_render_property] raises [TypeError]; no widget
    and no fallback is chosen. *)
Theorem unsupported_item_type_is_fatal :
  forall (ui : InputUI) (key : string) (property item od : dict) (r : string)
         (t : pyval),
    dict_lookup "type" property = Some (PStr "array") ->
    truthy (dict_get "enum" property) = false ->
    dict_lookup "$ref" property = None ->
    dict_lookup "allOf" property = None ->
    is_True (dict_get "uniqueItems" property) = false ->
    dict_lookup "items" property = Some (PDict item) ->
    dict_lookup "format" item = None ->
    dict_lookup "$ref" item = Some (PStr r) ->
    schema_utils.resolve_reference (PStr r) (_schema_references ui) = Ok (PDict od) ->
    dict_lookup "type" od = Some t ->
    in_strs t schema_utils.primitive_types = false ->
    eq_str t "object" = false ->
    _render_property ui key property = Raise TypeError.
Proof.
  intros ui key property item od r t
         Htype Henum Href Hall Huniq Hitems Hfmt Hr Hres Ht Hprim Hobj.
  unfold _render_property.
  rewrite prepare_property_unchanged;
    [|now rewrite (dict_get_lookup _ _ _ Htype)|now rewrite Hitems].
  cbn [bind]. unfold classify.
  rewrite (not_enum_without_reference _ _ Henum Href Hall). cbn [bind].
  unfold schema_utils.is_multi_enum_property, schema_utils.is_single_file_property,
    schema_utils.is_multi_file_property, schema_utils.is_single_datetime_property,
    schema_utils.is_single_color_property, schema_utils.is_single_boolean_property,
    schema_utils.is_single_dict_property, schema_utils.is_single_number_property,
    schema_utils.is_single_string_property.
  rewrite (dict_get_lookup _ _ _ Htype), (dict_get_lookup _ _ _ Hitems), Huniq.
  cbn [eq_str in_strs existsb py_eq String.eqb Ascii.eqb Bool.eqb negb orb
       is_none bind].
  unfold schema_utils.get_property_items. cbn [py_item]. unfold dict_item.
  rewrite Hitems. cbn [bind py_item]. unfold dict_item. rewrite Hfmt.
  cbn [bind try_except].
  rewrite (not_object_without_reference _ _ Href Hall). cbn [bind].
  now rewrite (list_and_object_rejects_other_types
                 _ _ _ _ _ _ Htype Hitems Hr Hres Ht Hprim Hobj).
Qed.

Lemma unsupported_item_type_is_fatal_witness :
  _render_property
    (with_schema_references sample_ui
       [("Flag", PDict [("title", PStr "Flag"); ("type", PStr "boolean")])])
    "flags" flags_node
  = Raise TypeError.
Proof.
  apply (unsupported_item_type_is_fatal
           (with_schema_references sample_ui
              [("Flag", PDict [("title", PStr "Flag"); ("type", PStr "boolean")])])
           "flags" flags_node
           [("$ref", PStr "#/$defs/Flag")]
           [("title", PStr "Flag"); ("type", PStr "boolean")]
           "#/$defs/Flag" (PStr "boolean")); reflexivity.
Defined.

Lemma py_get_ok_dict (v r : pyval) (k : string) :
  py_get v k = Ok r -> exists d, v = PDict d.
Proof. destruct v; try discriminate. eauto. Qed.

Lemma py_item_ok_dict (v r : pyval) (k : string) :
  py_item v k = Ok r -> exists d, v = PDict d.
Proof. destruct v; try discriminate. eauto. Qed.

Lemma py_setitem_ok_dict (v r x : pyval) (k : string) :
  py_setitem v k x = Ok r -> exists d, r = PDict d.
Proof. destruct v; try discriminate. simpl. intros H. injection H as <-. eauto. Qed.

(** X9. Whenever [is_property_list_and_object] answers [True], it leaves
    the node with [items] that are a single mapping, also where the schema
    gave them as a list or only under the first [anyOf] branch: the list
    renderer can read [items] without resolving anything. *)
Theorem list_and_object_leaves_items_a_mapping :
  forall (property references property' : dict),
    schema_utils.is_property_list_and_object property references
    = Ok (true, property') ->
    exists d, dict_lookup "items" property' = Some (PDict d).
Proof.
  intros property references property' H.
  unfold schema_utils.is_property_list_and_object in H.
  repeat break_in H;
    injection H; intros; subst;
    rewrite dict_lookup_set_same;
    match goal with
    | E : py_setitem _ _ _ = Ok ?x |- exists d, Some ?x = _ =>
        destruct (py_setitem_ok_dict _ _ _ _ E) as [d ->]; eauto
    | E : py_item ?x _ = Ok _ |- exists d, Some ?x = _ =>
        destruct (py_item_ok_dict _ _ _ E) as [d ->]; eauto
    | E : py_get ?x _ = Ok _ |- exists d, Some ?x = _ =>
        destruct (py_get_ok_dict _ _ _ E) as [d ->]; eauto
    end.
Qed.

Lemma list_and_object_leaves_items_a_mapping_witness :
  schema_utils.is_property_list_and_object tuple_items_node []
    = Ok (true, [("title", PStr "Names"); ("type", PStr "array");
                 ("items", PDict [("type", PStr "string")])]) /\
  exists d,
    dict_lookup "items"
      [("title", PStr "Names"); ("type", PStr "array");
       ("items", PDict [("type", PStr "string")])] = Some (PDict d).
Proof.
  split; [reflexivity|].
  apply (list_and_object_leaves_items_a_mapping tuple_items_node []).
  reflexivity.
Defined.

Lemma is_single_reference_true (x : pyval) :
  schema_utils.is_single_reference x = Ok true -> bare_reference x.
Proof.
  unfold schema_utils.is_single_reference, bare_reference.
  destruct x as [| | | | |d]; try discriminate.
  cbn [py_get bind].
  destruct (dict_get "type" d) eqn:Et; try discriminate.
  cbn [is_none negb bind]. intros H. injection H as H.
  exists d. repeat split; assumption.
Qed.

Lemma all_single_references_true (l : list pyval) :
  schema_utils.all_single_references l = Ok true -> Forall bare_reference l.
Proof.
  induction l as [|x l IH]; intros H; [constructor|].
  simpl in H.
  destruct (schema_utils.is_single_reference x) as [b|] eqn:E; [|discriminate].
  cbn [bind] in H. destruct b; [|discriminate].
  constructor; [now apply is_single_reference_true|now apply IH].
Qed.

Lemma resolve_all_bare (references : dict) (l : list pyval) :
  Forall bare_reference l ->
  match schema_utils.resolve_all l references with
  | Ok items => List.length items = List.length l
  | Raise e => e = KeyError \/ e = AttributeError
  end.
Proof.
  induction 1 as [|x l [d [-> [_ Href]]] _ IH]; [reflexivity|].
  simpl. unfold dict_item. unfold dict_get in Href.
  destruct (dict_lookup "$ref" d) as [r|]; [|discriminate].
  cbn [bind].
  destruct r as [| | |r| |]; cbn [schema_utils.resolve_reference bind]; auto.
  unfold dict_item.
  destruct (dict_lookup (last (split_on "/" r) EmptyString) references);
    cbn [bind]; auto.
  destruct (schema_utils.resolve_all l references); cbn [bind]; auto.
  simpl. now f_equal.
Qed.

(** X10. What [is_union_property] accepts, [get_union_references] can
    read: the union is a non-empty list of branches, each nothing but a
    reference (no [type], a truthy [$ref]), and resolving them yields one
    item per branch or fails only on a reference that names no definition
    ([KeyError]) or is not text ([AttributeError]). *)
Theorem union_property_is_list_of_bare_references :
  forall property : dict,
    schema_utils.is_union_property property = Ok true ->
    exists branches : list pyval,
      schema_utils.union_prop property = PList branches /\
      branches <> [] /\
      Forall bare_reference branches /\
      forall references,
        match schema_utils.get_union_references property references with
        | Ok items => List.length items = List.length branches
        | Raise e => e = KeyError \/ e = AttributeError
        end.
Proof.
  intros property H. unfold schema_utils.is_union_property in H.
  unfold schema_utils.get_union_references.
  destruct (schema_utils.union_prop property) as [| | |s|l|d];
    cbn [is_none py_len bind py_iter] in H; try discriminate.
  - destruct s as [|c s]; [discriminate|]. discriminate.
  - destruct l as [|x l]; [discriminate|].
    cbn [List.length Nat.eqb] in H.
    exists (x :: l). split; [reflexivity|]. split; [discriminate|].
    pose proof (all_single_references_true _ H) as Hall.
    split; [exact Hall|].
    intros references. cbn [py_iter bind].
    now apply resolve_all_bare.
  - destruct d as [|kv d]; [discriminate|]. discriminate.
Qed.

Lemma union_property_is_list_of_bare_references_witness :
  exists branches : list pyval,
    schema_utils.union_prop pet_property = PList branches /\
    branches <> [] /\
    Forall bare_reference branches /\
    forall references,
      match schema_utils.get_union_references pet_property references with
      | Ok items => List.length items = List.length branches
      | Raise e => e = KeyError \/ e = AttributeError
      end.
Proof.
  apply (union_property_is_list_of_bare_references pet_property).
  reflexivity.
Defined.

(* ----------------------------------------------------------------- *)
(** ** Dispatch by type *)

(** X11. A string node without an enum and without a reference is
    dispatched by its [format] alone, and classification cannot fail:
    [byte] gives the file input, [date-time], [time] and [date] the
    date-time input, [color] the colour input, and every other or missing
    format the text input. *)
Theorem string_nodes_dispatch_by_format :
  forall (property references : dict),
    dict_lookup "type" property = Some (PStr "string") ->
    truthy (dict_get "enum" property) = false ->
    dict_lookup "$ref" property = None ->
    dict_lookup "allOf" property = None ->
    classify property references
    = Ok (string_shape (dict_get "format" property), property).
Proof.
  intros property references Htype Henum Href Hall.
  unfold classify.
  rewrite (not_enum_without_reference _ _ Henum Href Hall). cbn [bind].
  unfold schema_utils.is_multi_enum_property, schema_utils.is_single_file_property,
    schema_utils.is_multi_file_property, schema_utils.is_single_datetime_property,
    schema_utils.is_single_color_property, schema_utils.is_single_boolean_property,
    schema_utils.is_single_dict_property, schema_utils.is_single_number_property,
    schema_utils.is_single_string_property, string_shape.
  rewrite (dict_get_lookup _ _ _ Htype).
  cbn [eq_str py_eq String.eqb Ascii.eqb Bool.eqb negb bind].
  destruct (eq_str (dict_get "format" property) "byte"); [reflexivity|].
  destruct (in_strs (dict_get "format" property) ["date-time"; "time"; "date"]);
    [reflexivity|].
  destruct (in_strs (dict_get "format" property) ["color"]); reflexivity.
Qed.

Lemma string_nodes_dispatch_by_format_witness :
  classify bytes_node [] = Ok (SingleFile, bytes_node) /\
  classify [("title", PStr "Born"); ("type", PStr "string"); ("format", PStr "date")] []
  = Ok (SingleDatetime,
        [("title", PStr "Born"); ("type", PStr "string"); ("format", PStr "date")]) /\
  classify [("title", PStr "Name"); ("type", PStr "string"); ("format", PStr "email")] []
  = Ok (SingleString,
        [("title", PStr "Name"); ("type", PStr "string"); ("format", PStr "email")]).
Proof.
  split; [|split].
  - apply (string_nodes_dispatch_by_format bytes_node []); reflexivity.
  - apply (string_nodes_dispatch_by_format
             [("title", PStr "Born"); ("type", PStr "string"); ("format", PStr "date")]
             []); reflexivity.
  - apply (string_nodes_dispatch_by_format
             [("title", PStr "Name"); ("type", PStr "string"); ("format", PStr "email")]
             []); reflexivity.
Defined.

(** X12. A node that says nothing about its shape (no [type], [enum],
    reference, union or [items]) is not an error: [_render_property]
    routes it, unchanged, to the raw text input. *)
Theorem untyped_node_is_raw_string :
  forall (ui : InputUI) (key : string) (property : dict),
    dict_lookup "type" property = None ->
    truthy (dict_get "enum" property) = false ->
    dict_lookup "$ref" property = None ->
    dict_lookup "allOf" property = None ->
    dict_lookup "oneOf" property = None ->
    dict_lookup "anyOf" property = None ->
    dict_lookup "items" property = None ->
    _render_property ui key property = Ok (Routed UntypedAsString property).
Proof.
  intros ui key property Htype Henum Href Hall Hone Hany Hitems.
  unfold _render_property.
  rewrite prepare_property_unchanged.
  2:{ unfold dict_get. now rewrite Hany, andb_false_r. }
  2:{ now rewrite Hitems. }
  cbn [bind]. unfold classify.
  rewrite (not_enum_without_reference _ _ Henum Href Hall). cbn [bind].
  unfold schema_utils.is_multi_enum_property, schema_utils.is_single_file_property,
    schema_utils.is_multi_file_property, schema_utils.is_single_datetime_property,
    schema_utils.is_single_color_property, schema_utils.is_single_boolean_property,
    schema_utils.is_single_dict_property, schema_utils.is_single_number_property,
    schema_utils.is_single_string_property,
    schema_utils.is_property_list_and_object, schema_utils.is_single_reference,
    schema_utils.is_union_property, schema_utils.union_prop.
  rewrite (not_object_without_reference _ _ Href Hall).
  unfold dict_get_default, dict_get. rewrite Htype.
  cbn [eq_str in_strs existsb py_eq negb orb bind is_none py_get dict_get].
  unfold dict_get. rewrite ?Htype, ?Href, ?Hone, ?Hany.
  reflexivity.
Qed.

Lemma untyped_node_is_raw_string_witness :
  _render_property sample_ui "note"
    [("title", PStr "Note"); ("description", PStr "Anything")]
  = Ok (Routed UntypedAsString
          [("title", PStr "Note"); ("description", PStr "Anything")]).
Proof.
  apply (untyped_node_is_raw_string sample_ui "note"); reflexivity.
Defined.

(* ----------------------------------------------------------------- *)
(** ** Leaf renderers: what the widget is seeded with *)

Lemma dict_lookup_merge_absent (k : string) (b : dict) :
  forall a : dict,
    dict_mem k b = false ->
    dict_lookup k (dict_merge a b) = dict_lookup k a.
Proof.
  unfold dict_merge, dict_mem.
  induction b as [|[k' v'] b IH]; intros a H; [reflexivity|].
  simpl in *. destruct (String.eqb k k') eqn:E; [discriminate|].
  rewrite (IH _ H). apply dict_lookup_set_other.
  intros ->. now rewrite String.eqb_refl in E.
Qed.

(** The default keyword arguments hold [label], [key], [disabled] and
    perhaps [help], nothing else. *)
Lemma default_kwargs_lookup_other (ui : InputUI) (key k : string) (property kw : dict) :
  _get_default_streamlit_input_kwargs ui key property = Ok kw ->
  k <> "label" -> k <> "key" -> k <> "disabled" -> k <> "help" ->
  dict_lookup k kw = None.
Proof.
  intros H H1 H2 H3 H4. unfold _get_default_streamlit_input_kwargs in H.
  apply String.eqb_neq in H1, H2, H3, H4.
  repeat break_in H; injection H as <-;
    cbn [dict_set dict_lookup String.eqb Ascii.eqb Bool.eqb];
    rewrite ?H1, ?H2, ?H3, ?H4; reflexivity.
Qed.

(** X13. The text widget is seeded with the first truthy one of
    [init_value], [default] and [example], in that order, and with nothing
    when all three are falsy: an empty-string default never reaches the
    widget. (No override of [value] through the escape hatch is assumed.) *)
Theorem string_input_seeds_first_truthy_value :
  forall (ui : InputUI) (key : string) (property : dict),
    is_ok (_get_default_streamlit_input_kwargs ui key property) = true ->
    dict_mem "value" (_get_overwrite_streamlit_kwargs key property) = false ->
    exists (widget : string) (kwargs : dict),
      _render_single_string_input ui key property = Ok (HostWidget widget kwargs) /\
      dict_lookup "value" kwargs = string_seed property.
Proof.
  intros ui key property Hkw Hov.
  unfold _render_single_string_input, string_input_kwargs.
  destruct (_get_default_streamlit_input_kwargs ui key property) as [kw|] eqn:E;
    [|discriminate].
  cbn [bind].
  pose proof (default_kwargs_lookup_other ui key "value" property kw E
                ltac:(discriminate) ltac:(discriminate)
                ltac:(discriminate) ltac:(discriminate)) as Hnone.
  assert (Hseed : dict_lookup "value"
            (if truthy (dict_get "init_value" property)
             then dict_set "value" (dict_get "init_value" property) kw
             else if truthy (dict_get "default" property)
             then dict_set "value" (dict_get "default" property) kw
             else if truthy (dict_get "example" property)
             then dict_set "value" (dict_get "example" property) kw
             else kw) = string_seed property).
  { unfold string_seed.
    destruct (truthy (dict_get "init_value" property));
      [apply dict_lookup_set_same|].
    destruct (truthy (dict_get "default" property));
      [apply dict_lookup_set_same|].
    destruct (truthy (dict_get "example" property));
      [apply dict_lookup_set_same|exact Hnone]. }
  repeat match goal with
         | |- context [if ?b then _ else _] =>
             lazymatch b with
             | truthy (dict_get "init_value" _) => fail
             | truthy (dict_get "default" _) => fail
             | truthy (dict_get "example" _) => fail
             | _ => destruct b
             end
         end;
    cbn [bind]; eexists; eexists; (split; [reflexivity|]);
    rewrite (dict_lookup_merge_absent _ _ _ Hov);
    rewrite ?dict_lookup_set_other by discriminate; exact Hseed.
Qed.

Lemma string_input_seeds_first_truthy_value_witness :
  exists (widget : string) (kwargs : dict),
    _render_single_string_input sample_ui "name" blank_default_node
      = Ok (HostWidget widget kwargs) /\
    dict_lookup "value" kwargs = None.
Proof.
  apply (string_input_seeds_first_truthy_value sample_ui "name" blank_default_node);
    reflexivity.
Defined.

(** X14. A write-only string is always asked for in a single-line
    password field, also when its format is [multi-line]: the widget is
    [text_input] and its [type] is [password]. (No override of [type]
    through the escape hatch is assumed.) *)
Theorem write_only_string_is_password_input :
  forall (ui : InputUI) (key : string) (property : dict),
    truthy (dict_get "writeOnly" property) = true ->
    is_ok (_get_default_streamlit_input_kwargs ui key property) = true ->
    dict_mem "type" (_get_overwrite_streamlit_kwargs key property) = false ->
    exists kwargs : dict,
      _render_single_string_input ui key property
        = Ok (HostWidget "text_input" kwargs) /\
      dict_lookup "type" kwargs = Some (PStr "password").
Proof.
  intros ui key property Hwo Hkw Hov.
  unfold _render_single_string_input, string_input_kwargs.
  destruct (_get_default_streamlit_input_kwargs ui key property) as [kw|];
    [|discriminate].
  cbn [bind]. rewrite Hwo. cbn [negb]. rewrite andb_false_r. cbn [bind].
  eexists. split; [reflexivity|].
  rewrite (dict_lookup_merge_absent _ _ _ Hov). apply dict_lookup_set_same.
Qed.

Lemma write_only_string_is_password_input_witness :
  exists kwargs : dict,
    _render_single_string_input sample_ui "secret"
      [("title", PStr "Secret"); ("type", PStr "string");
       ("format", PStr "multi-line"); ("writeOnly", PBool true)]
      = Ok (HostWidget "text_input" kwargs) /\
    dict_lookup "type" kwargs = Some (PStr "password").
Proof.
  apply (write_only_string_is_password_input sample_ui "secret"); reflexivity.
Defined.

(* ----------------------------------------------------------------- *)
(** ** Integer inputs *)











Lemma number_kwargs_bounds (widget_state : pyval) (ui : InputUI) (key : string)
      (property kwargs : dict) :
  number_input_kwargs widget_state ui key property = Ok kwargs ->
  dict_mem "min_value" kwargs
    = dict_mem "minimum" property || dict_mem "exclusiveMinimum" property /\
  dict_mem "max_value" kwargs
    = dict_mem "maximum" property || dict_mem "exclusiveMaximum" property.
Proof.
  intros H. unfold number_input_kwargs in H.
  repeat break_in H; injection H as <-.
  all: match goal with
       | E : _get_default_streamlit_input_kwargs _ _ _ = Ok ?a |- _ =>
           pose proof (default_kwargs_lookup_other _ _ "min_value" _ _ E
                         ltac:(discriminate) ltac:(discriminate)
                         ltac:(discriminate) ltac:(discriminate)) as Hmin0;
           pose proof (default_kwargs_lookup_other _ _ "max_value" _ _ E
                         ltac:(discriminate) ltac:(discriminate)
                         ltac:(discriminate) ltac:(discriminate)) as Hmax0
       end.
  all: repeat match goal with
         | E : (if dict_mem ?k ?p then _ else _) = Ok _ |- _ =>
             let M := fresh "M" in
             destruct (dict_mem k p) eqn:M;
               [try break_in E|]; injection E as <-
         end.
  all: unfold dict_mem;
    split;
    rewrite ?dict_lookup_set_other by discriminate;
    rewrite ?dict_lookup_set_same;
    rewrite ?dict_lookup_set_other by discriminate;
    rewrite ?dict_lookup_set_same;
    rewrite ?dict_lookup_set_other by discriminate;
    rewrite ?Hmin0, ?Hmax0; reflexivity.
Qed.

(** X18. The integer widget is a slider exactly when the node bounds the
    value on both sides (a [minimum] or [exclusiveMinimum], and a
    [maximum] or [exclusiveMaximum]); with one side open it is a plain
    number input. *)
Theorem integer_widget_is_slider_iff_bounded :
  forall (session_state_get : string -> pyval) (ui : InputUI) (key : string)
         (property : dict) (widget : string) (kwargs : dict),
    _render_single_number_input session_state_get ui key property
      = Ok (HostWidget widget kwargs) ->
    widget =
    if (dict_mem "minimum" property || dict_mem "exclusiveMinimum" property)
       && (dict_mem "maximum" property || dict_mem "exclusiveMaximum" property)
    then "slider" else "number_input".
Proof.
  intros ssg ui key property widget kwargs H.
  unfold _render_single_number_input in H.
  break_in H.
  destruct (number_kwargs_bounds _ _ _ _ _ E) as [Hmin Hmax].
  rewrite Hmin, Hmax in H.
  destruct ((dict_mem "minimum" property || dict_mem "exclusiveMinimum" property)
            && (dict_mem "maximum" property || dict_mem "exclusiveMaximum" property));
    now injection H as <- _.
Qed.

Lemma integer_widget_is_slider_iff_bounded_witness :
  _render_single_number_input (fun _ => PNone) sample_ui "age" age_node
    = Ok (HostWidget "slider"
            [("label", PStr "Age"); ("key", PStr "0-form-age");
             ("disabled", PBool false); ("step", PInt 1);
             ("min_value", PInt 0); ("max_value", PInt 10); ("value", PInt 0)]) /\
  "slider" =
  (if (dict_mem "minimum" age_node || dict_mem "exclusiveMinimum" age_node)
      && (dict_mem "maximum" age_node || dict_mem "exclusiveMaximum" age_node)
   then "slider" else "number_input").
Proof.
  split; [reflexivity|].
  apply (integer_widget_is_slider_iff_bounded
           (fun _ => PNone) sample_ui "age" age_node "slider"
           [("label", PStr "Age"); ("key", PStr "0-form-age");
            ("disabled", PBool false); ("step", PInt 1);
            ("min_value", PInt 0); ("max_value", PInt 10); ("value", PInt 0)]).
  reflexivity.
Defined.

(* ----------------------------------------------------------------- *)
(** ** Sets of enum values *)

(** X19. The multi-enum predicate accepts [items] given as a list (it
    looks at the first element), but the renderer reads
    [property.get("items").get("enum")]: for every node classified as a
    multi-enum through list-form [items], [_render_multi_enum_input]
    raises [AttributeError] instead of showing a widget. *)
Theorem multi_enum_with_list_items_raises :
  forall (ui : InputUI) (key : string) (property : dict) (l : list pyval),
    schema_utils.is_multi_enum_property property (_schema_references ui) = Ok true ->
    dict_lookup "items" property = Some (PList l) ->
    is_ok (_get_default_streamlit_input_kwargs ui key property) = true ->
    _render_multi_enum_input ui key property = Raise AttributeError.
Proof.
  intros ui key property l _ Hitems Hkw.
  unfold _render_multi_enum_input.
  destruct (_get_default_streamlit_input_kwargs ui key property); [|discriminate].
  cbn [bind]. now rewrite (dict_get_lookup _ _ _ Hitems).
Qed.

Lemma multi_enum_with_list_items_raises_witness :
  classify colour_set_node [] = Ok (MultiEnum, colour_set_node) /\
  _render_multi_enum_input sample_ui "colours" colour_set_node
  = Raise AttributeError.
Proof.
  split; [reflexivity|].
  apply (multi_enum_with_list_items_raises sample_ui "colours" colour_set_node
           [PDict [("enum", PList [PStr "red"; PStr "green"])]]); reflexivity.
Defined.

(* ----------------------------------------------------------------- *)
(** ** Union disambiguation: misses and the class-name fallback *)

Lemma next_index_none (test : pyval -> result bool) :
  forall (xs : list pyval) (i : nat),
    Forall (fun x => test x = Ok false) xs ->
    next_index test xs i = Raise StopIteration.
Proof.
  induction xs as [|x xs IH]; intros i H; [reflexivity|].
  inversion H as [|? ? Hx Hxs]; subst. simpl. rewrite Hx. simpl. now apply IH.
Qed.

(** X20. A discriminator that matches no branch is an error, not a reason
    to fall back: when every branch carries a discriminator enum and none
    equals [[init_value[d]]], [select_union_branch] raises
    [StopIteration], also when an [instance_class] hint is present. *)
Theorem union_discriminator_miss_raises :
  forall (property : dict) (reference_items : list pyval) (dd ivd : dict)
         (d : string) (v : pyval),
    dict_lookup "discriminator" property = Some (PDict dd) ->
    dict_lookup "propertyName" dd = Some (PStr d) ->
    dict_lookup "init_value" property = Some (PDict ivd) ->
    dict_lookup d ivd = Some v ->
    Forall (fun x => exists e, discriminator_enum d x = Some e /\
                               py_eq e (PList [v]) = false) reference_items ->
    select_union_branch property reference_items = Raise StopIteration.
Proof.
  intros property reference_items dd ivd d v Hdisc Hname Hiv Hv Hall.
  unfold select_union_branch.
  rewrite (dict_get_lookup _ _ _ Hdisc), (dict_get_lookup _ _ _ Hiv).
  assert (Hti : truthy (PDict ivd) = true) by (destruct ivd; [discriminate|reflexivity]).
  assert (Htd : truthy (PDict dd) = true) by (destruct dd; [discriminate|reflexivity]).
  rewrite Hti, Htd. cbn [andb].
  unfold dict_item. rewrite Hdisc. cbn [bind py_item]. unfold dict_item.
  rewrite Hname. cbn [bind].
  rewrite next_index_none; [reflexivity|].
  eapply Forall_impl; [|exact Hall].
  intros x [e [He Hne]].
  rewrite (discriminator_matches_enum property ivd d v e x Hiv Hv He).
  now rewrite Hne.
Qed.

Lemma union_discriminator_miss_raises_witness :
  select_union_branch
    (dict_set "instance_class" (PStr "<class 'Cat'>")
       (dict_set "init_value" (PDict bird) pet_property))
    [dog_definition; cat_definition]
  = Raise StopIteration.
Proof.
  apply (union_discriminator_miss_raises
           (dict_set "instance_class" (PStr "<class 'Cat'>")
              (dict_set "init_value" (PDict bird) pet_property))
           [dog_definition; cat_definition]
           [("propertyName", PStr "kind")] bird "kind" (PStr "bird"));
    try reflexivity.
  repeat constructor.
  - exists (PList [PStr "dog"]). split; reflexivity.
  - exists (PList [PStr "cat"]). split; reflexivity.
Defined.

(** The scan by class name and the seeding of the branch it finds. *)
Lemma instance_class_selects_first_title :
  forall (property : dict) (reference_items : list pyval) (init_value : pyval)
         (c t : string) (xd : dict) (i : nat),
    truthy (dict_get "discriminator" property) = false ->
    dict_lookup "init_value" property = Some init_value ->
    truthy init_value = true ->
    dict_lookup "instance_class" property = Some (PStr c) ->
    c <> EmptyString ->
    nth_error reference_items i = Some (PDict xd) ->
    dict_lookup "title" xd = Some (PStr t) ->
    is_substring t c = true ->
    (forall j y, (j < i)%nat -> nth_error reference_items j = Some y ->
       exists t', py_item y "title" = Ok (PStr t') /\ is_substring t' c = false) ->
    exists items' : list pyval,
      select_union_branch property reference_items = Ok (Some i, items') /\
      nth_error items' i = Some (PDict (dict_set "init_value" init_value xd)).
Proof.
  intros property reference_items init_value c t xd i
         Hnd Hiv Hti Hic Hc Hnth Ht Hsub Hbefore.
  unfold select_union_branch.
  rewrite Hnd, (dict_get_lookup _ _ _ Hiv), (dict_get_lookup _ _ _ Hic), Hti.
  rewrite andb_false_r. cbn [andb truthy].
  destruct (String.eqb c EmptyString) eqn:Ec;
    [apply String.eqb_eq in Ec; contradiction|].
  cbn [negb].
  destruct (seed_item_nth init_value reference_items i (PDict xd)
              (PDict (dict_set "init_value" init_value xd)) Hnth eq_refl)
    as [items' [Hseed Hnth']].
  exists items'. split; [|exact Hnth'].
  rewrite (next_index_first (instance_class_matches property)
             reference_items O i (PDict xd) Hnth).
  - cbn [bind Nat.add]. unfold dict_item. rewrite Hiv. cbn [bind].
    now rewrite Hseed.
  - unfold instance_class_matches, py_item, dict_item.
    rewrite Ht, Hic. cbn [bind py_in]. now rewrite Hsub.
  - intros j y Hj Hy. destruct (Hbefore j y Hj Hy) as [t' [Ht' Hns]].
    unfold instance_class_matches. rewrite Ht'. unfold dict_item. rewrite Hic.
    cbn [bind py_in]. now rewrite Hns.
Qed.

Lemma branch_titles_nth :
  forall (xs : list pyval) (titles : list string) (j : nat) (y : pyval),
    branch_titles xs titles ->
    nth_error xs j = Some y ->
    exists t', nth_error titles j = Some t' /\ py_item y "title" = Ok (PStr t').
Proof.
  intros xs titles j y H. revert j.
  induction H as [|x t xs ts Hx _ IH]; intros j Hj.
  - destruct j; discriminate.
  - destruct j as [|j]; simpl in *.
    + injection Hj as <-. eauto.
    + now apply IH.
Qed.

(** X21. Without a discriminator, the branch is picked by class name:
    when the branches bear pairwise distinct option titles, the first
    branch whose [title] occurs in the [instance_class] text is
    preselected (the option widget is given its index and its title leads
    to it), it receives the instance value, and when the widget answers
    with the preselected option that seeded branch is what
    [_render_object_input] renders. Containment is a substring test, so a
    title that is part of another class's name matches too. *)
Theorem union_instance_class_selects_first_title :
  forall (_name_to_title : string -> string) (json_loads : pyval -> result pyval)
         (render_child : InputUI -> string -> dict -> result (pyval * dict * InputUI))
         (selectbox : dict -> pyval)
         (ui : InputUI) (key : string) (property : dict)
         (reference_items : list pyval) (titles : list string)
         (init_value : pyval) (c l t : string) (xd : dict) (i : nat),
    dict_lookup "title" property = Some (PStr l) ->
    truthy (dict_get "discriminator" property) = false ->
    dict_lookup "init_value" property = Some init_value ->
    truthy init_value = true ->
    dict_lookup "instance_class" property = Some (PStr c) ->
    c <> EmptyString ->
    schema_utils.get_union_references property (_schema_references ui)
      = Ok reference_items ->
    branch_titles reference_items titles ->
    NoDup (map _name_to_title titles) ->
    nth_error reference_items i = Some (PDict xd) ->
    nth_error titles i = Some t ->
    is_substring t c = true ->
    (forall j t', (j < i)%nat -> nth_error titles j = Some t' ->
                  is_substring t' c = false) ->
    exists kwargs mapping : dict,
      union_selectbox_kwargs _name_to_title ui key property = Ok (kwargs, mapping) /\
      dict_lookup "index" kwargs = Some (PInt (Z.of_nat i)) /\
      dict_lookup "options" kwargs
        = Some (PList (map (fun t => PStr (_name_to_title t)) titles)) /\
      dict_lookup (_name_to_title t) mapping
        = Some (PDict (dict_set "init_value" init_value xd)) /\
      (selectbox kwargs = PStr (_name_to_title t) ->
       _render_union_property _name_to_title json_loads render_child selectbox
                              ui key property
       = _render_object_input _name_to_title json_loads render_child ui key
                              (dict_set "init_value" init_value xd)).
Proof.
  intros ntt json_loads render_child selectbox ui key property reference_items
         titles init_value c l t xd i
         Htitle Hnd Hiv Htr Hic Hc Hrefs Ht Hdistinct Hnth Hti Hsub Hbefore.
  assert (Hxt : dict_lookup "title" xd = Some (PStr t)).
  { destruct (branch_titles_nth _ _ _ _ Ht Hnth) as [t' [Ht' Hy]].
    rewrite Hti in Ht'. injection Ht' as <-.
    unfold py_item, dict_item in Hy.
    destruct (dict_lookup "title" xd); [|discriminate]. now injection Hy as ->. }
  destruct (instance_class_selects_first_title
              property reference_items init_value c t xd i
              Hnd Hiv Htr Hic Hc Hnth Hxt Hsub)
    as [items' [Hsel Hnth']].
  { intros j y Hj Hy.
    destruct (branch_titles_nth _ _ _ _ Ht Hy) as [t' [Ht' Hyt]].
    exists t'. split; [exact Hyt|]. exact (Hbefore j t' Hj Ht'). }
  exact (union_renders_preselected_branch ntt json_loads render_child selectbox
           ui key property reference_items items' titles i l t
           (dict_set "init_value" init_value xd)
           Htitle Hrefs Hsel Ht Hdistinct Hti Hnth').
Qed.

Lemma union_instance_class_selects_first_title_witness :
  _render_union_property plain_title json.loads echo_child preselected_option
    (with_schema_references sample_ui entry_references) "entry" entry_property
  = _render_object_input plain_title json.loads echo_child
      (with_schema_references sample_ui entry_references) "entry"
      (dict_set "init_value" (PDict [("pages", PInt 3)])
                (as_dict catalog_definition [])).
Proof.
  destruct (union_instance_class_selects_first_title
              plain_title json.loads echo_child preselected_option
              (with_schema_references sample_ui entry_references) "entry"
              entry_property [dog_definition; catalog_definition] ["Dog"; "Cat"]
              (PDict [("pages", PInt 3)]) "<class 'Catalog'>" "Entry" "Cat"
              (as_dict catalog_definition []) 1%nat
              eq_refl eq_refl eq_refl eq_refl eq_refl ltac:(discriminate) eq_refl)
    as [kwargs [mapping [Hk [_ [_ [_ Hrender]]]]]].
  - repeat constructor.
  - repeat constructor; simpl; intuition discriminate.
  - reflexivity.
  - reflexivity.
  - reflexivity.
  - intros j t' Hj Ht'. destruct j as [|j]; [|lia].
    injection Ht' as <-. reflexivity.
  - apply Hrender.
    assert (Hkw : kwargs
                  = [("label", PStr "Entry - Options"); ("key", PStr "0-form-entry");
                     ("disabled", PBool false); ("index", PInt 1);
                     ("options", PList [PStr "Dog"; PStr "Cat"])])
      by (vm_compute in Hk; congruence).
    subst kwargs. reflexivity.
Defined.

(* ----------------------------------------------------------------- *)
(** ** Nested objects: what a child inherits *)

(** X22. A child of an object takes over the object's [readOnly] flag,
    whatever its own says: after seeding, the child's [readOnly] is the
    parent's, or [False] when the parent has none, so a read-only field
    inside an editable object is rendered editable. *)
Theorem object_child_inherits_read_only :
  forall (_name_to_title : string -> string) (json_loads : pyval -> result pyval)
         (property : dict) (property_key : string) (new_property : pyval)
         (seeded : dict),
    seed_child _name_to_title json_loads property property_key new_property
      = Ok seeded ->
    dict_lookup "readOnly" seeded
    = Some (dict_get_default "readOnly" (PBool false) property).
Proof.
  intros title json_loads property property_key new_property seeded H.
  unfold seed_child in H.
  repeat break_in H; injection H as <-; apply dict_lookup_set_same.
Qed.

Lemma object_child_inherits_read_only_witness :
  seed_child plain_title json.loads
    [("title", PStr "Address"); ("properties", PDict [])]
    "city" (PDict [("type", PStr "string"); ("readOnly", PBool true)])
  = Ok [("type", PStr "string"); ("readOnly", PBool false); ("title", PStr "city")] /\
  dict_lookup "readOnly"
    [("type", PStr "string"); ("readOnly", PBool false); ("title", PStr "city")]
  = Some (PBool false).
Proof.
  split; [reflexivity|].
  apply (object_child_inherits_read_only plain_title json.loads
           [("title", PStr "Address"); ("properties", PDict [])]
           "city" (PDict [("type", PStr "string"); ("readOnly", PBool true)])).
  reflexivity.
Defined.

(** X23. Prior values and defaults of an object are dealt out by
    property name: when the object's [init_value] is truthy, the child's
    [init_value] becomes [init_value.get(name)], and when its [default] is
    truthy, the child's [default] becomes [json.loads(default).get(name)];
    a name the mapping lacks yields [None], which replaces whatever the
    child had. *)
Theorem object_child_receives_values_by_name :
  forall (_name_to_title : string -> string) (json_loads : pyval -> result pyval)
         (property : dict) (property_key : string) (new_property : pyval)
         (seeded : dict),
    seed_child _name_to_title json_loads property property_key new_property
      = Ok seeded ->
    (truthy (dict_get "init_value" property) = true ->
     exists ivd, dict_lookup "init_value" property = Some (PDict ivd) /\
                 dict_lookup "init_value" seeded = Some (dict_get property_key ivd)) /\
    (truthy (dict_get "default" property) = true ->
     exists dd, json_loads (dict_get "default" property) = Ok (PDict dd) /\
                dict_lookup "default" seeded = Some (dict_get property_key dd)).
Proof.
  intros title json_loads property property_key new_property seeded H.
  unfold seed_child in H.
  destruct new_property as [| | | | |np]; try discriminate.
  cbn [bind] in H.
  set (titled := if negb (truthy (dict_get "title" np))
                 then dict_set "title" (PStr (title property_key)) np else np) in H.
  destruct (truthy (dict_get "init_value" property)) eqn:Ti;
    destruct (truthy (dict_get "default" property)) eqn:Td.
  - (* both *)
    unfold dict_item, dict_get in *.
    destruct (dict_lookup "init_value" property) as [iv|]; [|discriminate].
    destruct (dict_lookup "default" property) as [dv|]; [|discriminate].
    cbn [bind] in H.
    destruct iv as [| | | | |ivd]; try discriminate.
    cbn [py_get bind] in H.
    destruct (json_loads dv) as [decoded|]; [|discriminate].
    cbn [bind] in H.
    destruct decoded as [| | | | |dd]; try discriminate.
    cbn [py_get bind] in H. injection H as <-.
    split; intros _.
    + exists ivd. split; [reflexivity|].
      rewrite !dict_lookup_set_other by discriminate.
      apply dict_lookup_set_same.
    + exists dd. split; [reflexivity|].
      rewrite dict_lookup_set_other by discriminate.
      apply dict_lookup_set_same.
  - (* a prior value only *)
    unfold dict_item, dict_get in *.
    destruct (dict_lookup "init_value" property) as [iv|]; [|discriminate].
    cbn [bind] in H.
    destruct iv as [| | | | |ivd]; try discriminate.
    cbn [py_get bind] in H. injection H as <-.
    split; [intros _|discriminate].
    exists ivd. split; [reflexivity|].
    rewrite dict_lookup_set_other by discriminate.
    apply dict_lookup_set_same.
  - (* a default only *)
    unfold dict_item, dict_get in *.
    destruct (dict_lookup "default" property) as [dv|]; [|discriminate].
    cbn [bind] in H.
    destruct (json_loads dv) as [decoded|]; [|discriminate].
    cbn [bind] in H.
    destruct decoded as [| | | | |dd]; try discriminate.
    cbn [py_get bind] in H. injection H as <-.
    split; [discriminate|intros _].
    exists dd. split; [reflexivity|].
    rewrite dict_lookup_set_other by discriminate.
    apply dict_lookup_set_same.
  - split; discriminate.
Qed.

Lemma object_child_receives_values_by_name_witness :
  exists seeded : dict,
    seed_child plain_title json.loads seeded_address "city"
               (PDict [("type", PStr "string")]) = Ok seeded /\
    dict_lookup "init_value" seeded = Some (PStr "Bonn") /\
    dict_lookup "default" seeded = Some (PStr "Aachen").
Proof.
  destruct (seed_child plain_title json.loads seeded_address "city"
                       (PDict [("type", PStr "string")])) as [seeded|] eqn:E;
    [|discriminate E].
  destruct (object_child_receives_values_by_name
              plain_title json.loads seeded_address "city"
              (PDict [("type", PStr "string")]) seeded E) as [Hi Hd].
  destruct (Hi eq_refl) as [ivd [Hivd Hinit]].
  destruct (Hd eq_refl) as [dd [Hdd Hdef]].
  injection Hivd as <-.
  assert (Hdd' : dd = [("city", PStr "Aachen")])
    by (vm_compute in Hdd; congruence).
  subst dd.
  exists seeded. split; [reflexivity|]. split; [exact Hinit|exact Hdef].
Defined.

(* ----------------------------------------------------------------- *)
(** ** Collections *)

Lemma remove_suppressed_when_protected (index : Z) (property : dict) (m : Z) :
  min_items property = Some m ->
  index + 1 <= m ->
  _remove_button_allowed index property = Ok true.
Proof.
  intros Hmin Hle. unfold _remove_button_allowed.
  destruct (is_True (dict_get "readOnly" property)); [reflexivity|].
  unfold min_items in Hmin. unfold dict_get_default.
  destruct (dict_lookup "minItems" property) as [[]|]; try discriminate;
    injection Hmin as <-; cbn [py_as_int bind]; f_equal; now apply Z.leb_le.
Qed.

(** X24. The first [minItems] items of a list cannot be removed: for an
    item with [index + 1 <= minItems] the host's remove button is not
    consulted at all, and the item is rendered through [_render_property]
    with its synthetic node. *)
Theorem protected_list_item_is_always_rendered :
  forall (button : string -> result bool)
         (render_child : InputUI -> string -> dict -> result (pyval * dict * InputUI))
         (ui : InputUI) (parent_key : string) (value : pyval) (index : nat)
         (property : dict) (m : Z),
    min_items property = Some m ->
    Z.of_nat index + 1 <= m ->
    _render_list_item button render_child ui parent_key value index property =
    (new_property <- list_item_property value index property ;;
     out <- render_child ui (item_key ui parent_key index) new_property ;;
     let '(v, _, ui') := out in Ok (v, ui')).
Proof.
  intros button render_child ui parent_key value index property m Hmin Hle.
  unfold _render_list_item.
  now rewrite (remove_suppressed_when_protected _ _ _ Hmin Hle).
Qed.

Lemma protected_list_item_is_always_rendered_witness :
  _render_list_item (fun _ => Ok true) echo_child sample_ui "tags" (PStr "a") 0 tags_node
  = Ok (PStr "a", sample_ui).
Proof.
  rewrite (protected_list_item_is_always_rendered
             (fun _ => Ok true) echo_child sample_ui "tags" (PStr "a") 0 tags_node 1);
    [reflexivity|reflexivity|lia].
Defined.

Lemma list_items_loop_length
      (button : string -> result bool)
      (render_child : InputUI -> string -> dict -> result (pyval * dict * InputUI))
      (key : string) (property : dict) :
  forall (items : list pyval) (ui ui' : InputUI) (index : nat)
         (object_list out : list pyval),
    list_items_loop button render_child ui key property items index object_list
      = Ok (out, ui') ->
    (List.length out <= List.length object_list + List.length items)%nat.
Proof.
  induction items as [|item items IH]; intros ui ui' index object_list out H.
  - simpl in H. injection H as <- _. simpl. lia.
  - simpl in H.
    destruct (_render_list_item button render_child ui key item index property)
      as [[output ui1]|]; [|discriminate].
    cbn [bind] in H. apply IH in H.
    destruct (negb (is_none output)); simpl in *;
      rewrite ?length_app in H; simpl in H; lia.
Qed.

(** X25. The list renderer never returns more items than it was given,
    plus the one placeholder the add button appends: whatever the host
    and the item renderers do, the result is at most one longer than the
    list found in the store, the prior value or the default. *)
Theorem list_input_output_is_bounded :
  forall (button : string -> result bool)
         (render_child : InputUI -> string -> dict -> result (pyval * dict * InputUI))
         (ui ui1 ui' : InputUI) (key : string) (property property' : dict)
         (l object_list : list pyval) (source : data_source),
    list_input_data ui key property = Ok (PList l, source, ui1) ->
    _render_list_input button render_child ui key property
      = Ok (object_list, property', ui') ->
    (List.length object_list <= S (List.length l))%nat.
Proof.
  intros button render_child ui ui1 ui' key property property' l object_list source
         Hdata H.
  unfold _render_list_input in H.
  break_in H. break_in H. rewrite Hdata in H. cbn [bind] in H.
  assert (Hadd : exists l', _render_list_add_button button ui1 key (PList l) = PList l'
                            /\ (List.length l' <= S (List.length l))%nat).
  { unfold _render_list_add_button.
    destruct (button _) as [[|]|]; eexists; (split; [reflexivity|]);
      rewrite ?length_app; simpl; lia. }
  destruct Hadd as [l' [Hl' Hlen]]. rewrite Hl' in H.
  destruct (write_back_data ui1 key property source (PList l')) as [p2 ui2].
  break_in H.
  assert (Hclear : exists l'',
             (if a1 then _render_list_clear_button button ui2 key (PList l')
              else PList l') = PList l''
             /\ (List.length l'' <= List.length l')%nat).
  { unfold _render_list_clear_button.
    destruct a1; [destruct (button _) as [[|]|]|]; eexists;
      (split; [reflexivity|]); simpl; lia. }
  destruct Hclear as [l'' [Hl'' Hlen']]. rewrite Hl'' in H.
  cbn [py_len bind py_iter] in H.
  destruct (Nat.ltb 0 (List.length l'')).
  - break_in H. destruct a2 as [ol ui3]. break_in H. injection H as <- _ _.
    apply list_items_loop_length in E2. simpl in E2. lia.
  - injection H as <- _ _. simpl. lia.
Qed.

Lemma list_input_output_is_bounded_witness :
  exists (object_list : list pyval) (property' : dict) (ui' : InputUI),
    _render_list_input (only_button "form-tagslist-add-item") echo_child
      (with_session_input sample_ui [("tags", PList [PStr "a"; PStr "b"])])
      "tags" tags_node
    = Ok (object_list, property', ui') /\
    (List.length object_list <= 3)%nat.
Proof.
  destruct (_render_list_input (only_button "form-tagslist-add-item") echo_child
              (with_session_input sample_ui [("tags", PList [PStr "a"; PStr "b"])])
              "tags" tags_node) as [[[ol p'] ui']|] eqn:E; [|discriminate E].
  exists ol, p', ui'. split; [reflexivity|].
  apply (list_input_output_is_bounded
           (only_button "form-tagslist-add-item") echo_child
           (with_session_input sample_ui [("tags", PList [PStr "a"; PStr "b"])])
           (with_session_input sample_ui [("tags", PList [PStr "a"; PStr "b"])])
           ui' "tags" tags_node p' [PStr "a"; PStr "b"] ol FromStore);
    [reflexivity|exact E].
Defined.

Lemma dict_set_length (k : string) (v : pyval) (d : dict) :
  List.length (dict_set k v d)
  = if dict_mem k d then List.length d else S (List.length d).
Proof.
  unfold dict_mem. induction d as [|[k' v'] r IH]; simpl; [reflexivity|].
  destruct (String.eqb k k'); simpl; [reflexivity|].
  rewrite IH. now destruct (dict_lookup k r).
Qed.

(** X26. The add button of a dictionary writes [None] under the key
    [str(len + 1)]. When no row has that key, a placeholder row is
    appended; when a row already has it, no row is added and that row's
    value is replaced by [None]. Every other row is untouched. *)
Theorem dict_add_button_reuses_numeric_key :
  forall (button : string -> result bool) (ui : InputUI) (key : string)
         (data_dict : dict),
    button (_key ui ++ "-" ++ key ++ "-add-item") = Ok true ->
    exists d' : dict,
      _render_dict_add_button button ui key (PDict data_dict) = Ok (PDict d') /\
      dict_lookup (str_of_int (Z.of_nat (List.length data_dict) + 1)) d'
        = Some PNone /\
      List.length d'
        = (if dict_mem (str_of_int (Z.of_nat (List.length data_dict) + 1)) data_dict
           then List.length data_dict else S (List.length data_dict)) /\
      forall k', k' <> str_of_int (Z.of_nat (List.length data_dict) + 1) ->
                 dict_lookup k' d' = dict_lookup k' data_dict.
Proof.
  intros button ui key data_dict Hb.
  unfold _render_dict_add_button. rewrite Hb. cbn [bind py_len py_setitem].
  eexists. split; [reflexivity|].
  split; [apply dict_lookup_set_same|].
  split; [apply dict_set_length|].
  intros k' Hk. now apply dict_lookup_set_other.
Qed.

Lemma dict_add_button_reuses_numeric_key_witness :
  _render_dict_add_button (only_button "form-limits-add-item") sample_ui "limits"
    (PDict [("2", PInt 5)])
  = Ok (PDict [("2", PNone)]).
Proof.
  destruct (dict_add_button_reuses_numeric_key
              (only_button "form-limits-add-item") sample_ui "limits"
              [("2", PInt 5)] eq_refl) as [d' [H _]].
  assert (Hd : d' = [("2", PNone)]) by (vm_compute in H; congruence).
  subst d'. exact H.
Defined.

Lemma dict_items_loop_length
      (button : string -> result bool) (text_input : string -> pyval -> string)
      (render_child : InputUI -> string -> dict -> result (pyval * dict * InputUI))
      (key : string) (property : dict) :
  forall (rows : dict) (ui ui' : InputUI) (index : nat) (new_dict out : dict),
    dict_items_loop button text_input render_child ui key property rows index new_dict
      = Ok (out, ui') ->
    (List.length out <= List.length new_dict + List.length rows)%nat.
Proof.
  induction rows as [|row rows IH]; intros ui ui' index new_dict out H.
  - simpl in H. injection H as <- _. simpl. lia.
  - simpl in H.
    destruct (_render_dict_item button text_input render_child ui key row index property)
      as [[[uk uv] ui1]|]; [|discriminate].
    cbn [bind] in H. apply IH in H.
    destruct uk; simpl in *; try lia.
    destruct (negb (is_none uv)); simpl in *; try lia.
    rewrite dict_set_length in H. destruct (dict_mem s new_dict); lia.
Qed.

(** X27. The dictionary renderer returns at most one entry per row it
    walked, and the add button contributes at most one row: the result
    never has more entries than the dictionary found in the store or the
    prior value, plus one. Rows whose key fields end up equal share one
    entry. *)
Theorem dict_input_output_is_bounded :
  forall (button : string -> result bool) (text_input : string -> pyval -> string)
         (render_child : InputUI -> string -> dict -> result (pyval * dict * InputUI))
         (ui ui1 ui' : InputUI) (key : string) (property property' : dict)
         (d new_dict : dict) (source : data_source),
    dict_input_data ui key property = Ok (PDict d, source, ui1) ->
    _render_single_dict_input button text_input render_child ui key property
      = Ok (new_dict, property', ui') ->
    (List.length new_dict <= S (List.length d))%nat.
Proof.
  intros button text_input render_child ui ui1 ui' key property property'
         d new_dict source Hdata H.
  unfold _render_single_dict_input in H.
  rewrite Hdata in H. cbn [bind] in H.
  break_in H. break_in H. break_in H. break_in H.
  assert (Hadd : exists d1, a2 = PDict d1 /\
                            (List.length d1 <= S (List.length d))%nat).
  { destruct a1.
    - unfold _render_dict_add_button in E2.
      destruct (button _) as [[|]|]; try discriminate; cbn [bind] in E2.
      + cbn [py_len bind py_setitem] in E2. injection E2 as <-.
        eexists. split; [reflexivity|]. rewrite dict_set_length.
        destruct (dict_mem _ d); lia.
      + injection E2 as <-. eexists. split; [reflexivity|]. lia.
    - injection E2 as <-. eexists. split; [reflexivity|]. lia. }
  destruct Hadd as [d1 [-> Hlen1]].
  destruct (write_back_data ui1 key property source (PDict d1)) as [p2 ui2].
  destruct (_clear_button_allowed p2) as [allowed|]; [|discriminate].
  cbn [bind] in H.
  destruct (if allowed then _render_dict_clear_button button ui2 key (PDict d1)
            else Ok (PDict d1)) as [cleared|] eqn:Ecl; [|discriminate].
  cbn [bind] in H.
  assert (Hclear : exists d2, cleared = PDict d2 /\
                              (List.length d2 <= List.length d1)%nat).
  { destruct allowed.
    - unfold _render_dict_clear_button in Ecl.
      destruct (button _) as [[|]|]; try discriminate; cbn [bind] in Ecl;
        injection Ecl as <-; eexists; (split; [reflexivity|]); simpl; lia.
    - injection Ecl as <-. eexists. split; [reflexivity|]. lia. }
  destruct Hclear as [d2 [-> Hlen2]].
  destruct (dict_items_loop button text_input render_child ui2 key p2 d2 0 [])
    as [[nd ui3]|] eqn:Eloop; [|discriminate].
  cbn [bind] in H. injection H as <- _ _.
  apply dict_items_loop_length in Eloop. simpl in Eloop. lia.
Qed.

Lemma dict_input_output_is_bounded_witness :
  exists (new_dict property' : dict) (ui' : InputUI),
    _render_single_dict_input (only_button "form-limits-add-item") same_text
      echo_child
      (with_session_input sample_ui [("limits", PDict [("low", PInt 1)])])
      "limits" limits_node
    = Ok (new_dict, property', ui') /\
    (List.length new_dict <= 2)%nat.
Proof.
  destruct (_render_single_dict_input (only_button "form-limits-add-item")
              same_text echo_child
              (with_session_input sample_ui [("limits", PDict [("low", PInt 1)])])
              "limits" limits_node) as [[[nd p'] ui']|] eqn:E; [|discriminate E].
  exists nd, p', ui'. split; [reflexivity|].
  apply (dict_input_output_is_bounded
           (only_button "form-limits-add-item") same_text echo_child
           (with_session_input sample_ui [("limits", PDict [("low", PInt 1)])])
           (with_session_input sample_ui [("limits", PDict [("low", PInt 1)])])
           ui' "limits" limits_node p' [("low", PInt 1)] nd FromStore);
    [reflexivity|exact E].
Defined.

(* ----------------------------------------------------------------- *)
(** ** Custom defaults *)

Lemma dict_set_known_keys (k : string) (v x : pyval) (d : dict) :
  dict_lookup k d = Some x -> map fst (dict_set k v d) = map fst d.
Proof.
  induction d as [|[k' v'] r IH]; simpl; [discriminate|].
  destruct (String.eqb k k'); simpl; [reflexivity|].
  intros H. now rewrite IH.
Qed.

Lemma apply_custom_defaults_step
      (property : string) (new_default : pyval) (rest schema_properties out : dict) :
  apply_custom_defaults schema_properties ((property, new_default) :: rest) = Ok out ->
  exists n : dict,
    dict_lookup property schema_properties = Some (PDict n) /\
    apply_custom_defaults
      (dict_set property (PDict (dict_set "default" new_default n)) schema_properties)
      rest = Ok out.
Proof.
  cbn [apply_custom_defaults]. unfold dict_item.
  destruct (dict_lookup property schema_properties) as [node|]; [|discriminate].
  cbn [bind]. destruct node; try discriminate. cbn [py_setitem bind].
  intros H. eexists. split; [reflexivity|exact H].
Qed.

Lemma apply_custom_defaults_frame :
  forall (custom_defaults schema_properties out : dict),
    apply_custom_defaults schema_properties custom_defaults = Ok out ->
    forall k, ~ In k (map fst custom_defaults) ->
              dict_lookup k out = dict_lookup k schema_properties.
Proof.
  induction custom_defaults as [|[property new_default] rest IH];
    intros schema_properties out H k Hk.
  - simpl in H. now injection H as <-.
  - apply apply_custom_defaults_step in H. destruct H as [n [_ H]].
    simpl in Hk. rewrite (IH _ _ H k) by tauto.
    apply dict_lookup_set_other. intros ->. tauto.
Qed.

(** X28. Custom defaults change nothing but the [default] entry of the
    fields they name: when the constructor's loop over [custom_defaults]
    succeeds, the fields are the same and in the same order, a field that
    is not named is untouched, and every other entry of a named field is
    as the schema gave it. *)
Theorem custom_defaults_touch_only_named_defaults :
  forall (custom_defaults schema_properties out : dict),
    apply_custom_defaults schema_properties custom_defaults = Ok out ->
    map fst out = map fst schema_properties /\
    (forall k, ~ In k (map fst custom_defaults) ->
               dict_lookup k out = dict_lookup k schema_properties) /\
    (forall k n, dict_lookup k schema_properties = Some (PDict n) ->
       exists n', dict_lookup k out = Some (PDict n') /\
                  forall f, f <> "default" -> dict_lookup f n' = dict_lookup f n).
Proof.
  intros custom_defaults schema_properties out H.
  split; [|split; [now apply apply_custom_defaults_frame|]];
    revert schema_properties out H;
    induction custom_defaults as [|[property new_default] rest IH];
    intros schema_properties out H.
  - simpl in H. now injection H as <-.
  - apply apply_custom_defaults_step in H. destruct H as [n [Hn H]].
    rewrite (IH _ _ H). now apply dict_set_known_keys with (x := PDict n).
  - simpl in H. injection H as <-. intros k n Hk. now exists n.
  - apply apply_custom_defaults_step in H. destruct H as [n [Hn H]].
    intros k m Hk.
    destruct (String.eqb k property) eqn:E.
    + apply String.eqb_eq in E. subst k.
      rewrite Hn in Hk. injection Hk as <-.
      destruct (IH _ _ H property (dict_set "default" new_default n))
        as [n' [Hout Hsame]]; [apply dict_lookup_set_same|].
      exists n'. split; [exact Hout|].
      intros f Hf. rewrite (Hsame f Hf). now apply dict_lookup_set_other.
    + apply String.eqb_neq in E.
      apply (IH _ _ H k m). now rewrite dict_lookup_set_other.
Qed.

Lemma custom_defaults_touch_only_named_defaults_witness :
  map fst
    [("name", PDict [("default", PStr "y"); ("title", PStr "Name");
                     ("type", PStr "string")]);
     ("age", PDict [("title", PStr "Age"); ("type", PStr "integer")])]
  = ["name"; "age"] /\
  dict_lookup "age"
    [("name", PDict [("default", PStr "y"); ("title", PStr "Name");
                     ("type", PStr "string")]);
     ("age", PDict [("title", PStr "Age"); ("type", PStr "integer")])]
  = dict_lookup "age" person_properties.
Proof.
  destruct (custom_defaults_touch_only_named_defaults
              [("name", PStr "y")] person_properties _ eq_refl) as [Hkeys [Hframe _]].
  split; [exact Hkeys|].
  apply Hframe. simpl. intros [H|[]]. discriminate H.
Defined.

(** X29. Every custom default is installed: when the loop over
    [custom_defaults] (a dictionary, so no key occurs twice) succeeds,
    each field it names carries the given value as its [default]. *)
Theorem custom_defaults_are_installed :
  forall (custom_defaults schema_properties out : dict),
    NoDup (map fst custom_defaults) ->
    apply_custom_defaults schema_properties custom_defaults = Ok out ->
    forall k v, In (k, v) custom_defaults ->
      exists n', dict_lookup k out = Some (PDict n') /\
                 dict_lookup "default" n' = Some v.
Proof.
  induction custom_defaults as [|[property new_default] rest IH];
    intros schema_properties out Hnd H k v Hin; [contradiction|].
  apply apply_custom_defaults_step in H. destruct H as [n [Hn H]].
  simpl in Hnd. inversion Hnd as [|? ? Hfresh Hnd']; subst.
  destruct Hin as [Heq|Hin].
  - injection Heq as <- <-.
    rewrite (apply_custom_defaults_frame _ _ _ H property Hfresh).
    rewrite dict_lookup_set_same. eexists. split; [reflexivity|].
    apply dict_lookup_set_same.
  - exact (IH _ _ Hnd' H k v Hin).
Qed.

Lemma custom_defaults_are_installed_witness :
  exists n', dict_lookup "age"
               [("name", PDict [("default", PStr "y"); ("title", PStr "Name");
                                ("type", PStr "string")]);
                ("age", PDict [("title", PStr "Age"); ("type", PStr "integer");
                               ("default", PInt 7)])]
             = Some (PDict n') /\
             dict_lookup "default" n' = Some (PInt 7).
Proof.
  apply (custom_defaults_are_installed
           [("name", PStr "y"); ("age", PInt 7)] person_properties).
  - repeat constructor; simpl; intuition discriminate.
  - reflexivity.
  - simpl. tauto.
Defined.

(** X30. A custom default for a name that is no field of the model makes
    the constructor fail with [KeyError], wherever in [custom_defaults] the
    name stands (the nodes of a schema's [properties] are mappings). *)
Theorem custom_default_for_unknown_field_raises :
  forall (custom_defaults schema_properties : dict) (k : string),
    Forall (fun kv => exists n, snd kv = PDict n) schema_properties ->
    In k (map fst custom_defaults) ->
    dict_lookup k schema_properties = None ->
    apply_custom_defaults schema_properties custom_defaults = Raise KeyError.
Proof.
  induction custom_defaults as [|[property new_default] rest IH];
    intros schema_properties k Hnodes Hin Hk; [contradiction|].
  cbn [apply_custom_defaults]. unfold dict_item.
  destruct (dict_lookup property schema_properties) as [node|] eqn:Hp;
    [|reflexivity].
  cbn [bind].
  assert (Hnode : exists n, node = PDict n).
  { clear - Hnodes Hp. induction Hnodes as [|[k' v'] r Hh _ IHn]; [discriminate|].
    simpl in Hp. destruct (String.eqb property k').
    - injection Hp as <-. exact Hh.
    - now apply IHn. }
  destruct Hnode as [n ->]. cbn [py_setitem bind].
  assert (Hne : k <> property) by (intros ->; congruence).
  apply (IH _ k).
  - clear - Hnodes. induction Hnodes as [|[k' v'] r Hh Hr IHn]; simpl.
    + repeat constructor. eexists. reflexivity.
    + destruct (String.eqb property k'); constructor; simpl; eauto.
  - simpl in Hin. destruct Hin as [Heq|Hin]; [congruence|exact Hin].
  - now rewrite dict_lookup_set_other.
Qed.

Lemma custom_default_for_unknown_field_raises_witness :
  apply_custom_defaults person_properties [("name", PStr "y"); ("email", PStr "z")]
  = Raise KeyError.
Proof.
  apply (custom_default_for_unknown_field_raises
           [("name", PStr "y"); ("email", PStr "z")] person_properties "email").
  - repeat constructor; eexists; reflexivity.
  - simpl. tauto.
  - reflexivity.
Defined.
